(** * Design density analyzer: a shallow embedding of [density_sorting.py]

    The program reads a seven-column text file, builds one [Design] per row,
    stores the designs in a [Library] and prints them from the highest to
    the lowest polygon density.

    Layout of this development:
    - [Py]: the part of the Python runtime the program calls (exceptions,
      [str] methods, [int()] and [float()], binary64 arithmetic, format
      specifications, [sorted], [print]);
    - [Design], [Library], [main]: the program itself, function by function;
    - the vocabulary of the properties, and sample files;
    - lemmas about the runtime (the order and the signs of the floats, the
      sort) and about the constructor, the loader and the report;
    - the properties of the program, C1 to C10, and further properties,
      X1 to X15.

    What the embedding covers: the run of the program on a file
    "testdata.txt" that exists and is valid UTF-8, whose text is the
    argument of [main], and on a standard output that takes every
    character; the conversions, the arithmetic and the formats of CPython
    3.11, with the limit of 4300 digits between [int] and text; [sorted]
    as it works on fewer than 64 items, and on any number of items whose
    keys [<] orders (no NaN among them). *)

From Stdlib Require Import ZArith NArith PArith List Bool Lia.
From Stdlib Require Import Permutation Sorted.
From Stdlib Require Import Ascii String.
From Stdlib Require Import Floats.
Import ListNotations.

(* ===================================================================== *)
(** * The Python runtime used by the program *)
(* ===================================================================== *)

Module Py.

(** ** Exceptions *)

(** The exceptions that the calls made by the program can raise. *)
Inductive exn : Type :=
| ValueError
| OverflowError
| ZeroDivisionError.

(** A computation either returns a value or raises. *)
Inductive result (A : Type) : Type :=
| Ok (a : A)
| Raise (e : exn).

Arguments Ok {A} a.
Arguments Raise {A} e.

Definition bind {A B : Type} (c : result A) (k : A -> result B) : result B :=
  match c with
  | Ok a => k a
  | Raise e => Raise e
  end.

Declare Scope py_scope.
Delimit Scope py_scope with py.
Notation "x <- c ;; k" := (bind c (fun x => k))
  (at level 61, c at next level, right associativity) : py_scope.

Definition raises {A : Type} (c : result A) : Prop :=
  exists e, c = Raise e.

(** ** Text *)

(** A [str] is a sequence of Unicode code points. *)
Definition char : Type := N.
Definition str : Type := list char.

(** An ASCII literal as a [str]. *)
Definition lit (s : string) : str :=
  map N_of_ascii (list_ascii_of_string s).

Local Open Scope N_scope.

Definition in_range (lo hi c : char) : bool := (lo <=? c) && (c <=? hi).

(** [str.isspace] on one character, the test behind [str.strip()] and
    [str.split()] without arguments. *)
Definition isspace (c : char) : bool :=
  in_range 0x09 0x0D c || in_range 0x1C 0x20 c
  || (c =? 0x85) || (c =? 0xA0) || (c =? 0x1680)
  || in_range 0x2000 0x200A c
  || (c =? 0x2028) || (c =? 0x2029) || (c =? 0x202F) || (c =? 0x205F)
  || (c =? 0x3000).

(** The C-locale whitespace test that [int()] and [float()] use to trim
    their argument once it is reduced to ASCII. *)
Definition Py_ISSPACE (c : char) : bool :=
  in_range 0x09 0x0D c || (c =? 0x20).

(** The code points of the digit zero of every decimal digit block (Unicode
    14.0, the database of CPython 3.11); the nine other digits follow. *)
Definition decimal_zeros : list char :=
  [ 0x30; 0x660; 0x6F0; 0x7C0; 0x966; 0x9E6; 0xA66; 0xAE6; 0xB66; 0xBE6;
    0xC66; 0xCE6; 0xD66; 0xDE6; 0xE50; 0xED0; 0xF20; 0x1040; 0x1090;
    0x17E0; 0x1810; 0x1946; 0x19D0; 0x1A80; 0x1A90; 0x1B50; 0x1BB0;
    0x1C40; 0x1C50; 0xA620; 0xA8D0; 0xA900; 0xA9D0; 0xA9F0; 0xAA50;
    0xABF0; 0xFF10; 0x104A0; 0x10D30; 0x11066; 0x110F0; 0x11136; 0x111D0;
    0x112F0; 0x11450; 0x114D0; 0x11650; 0x116C0; 0x11730; 0x118E0;
    0x11950; 0x11C50; 0x11D50; 0x11DA0; 0x16A60; 0x16AC0; 0x16B50;
    0x1D7CE; 0x1D7D8; 0x1D7E2; 0x1D7EC; 0x1D7F6; 0x1E140; 0x1E2F0;
    0x1E950; 0x1FBF0 ].

(** The decimal value of a character, if it is a decimal digit. *)
Definition to_decimal (c : char) : option N :=
  match find (fun z => in_range z (z + 9) c) decimal_zeros with
  | Some z => Some (c - z)
  | None => None
  end.

Fixpoint lstrip (sp : char -> bool) (s : str) : str :=
  match s with
  | [] => []
  | c :: s' => if sp c then lstrip sp s' else s
  end.

Definition rstrip (sp : char -> bool) (s : str) : str :=
  rev (lstrip sp (rev s)).

(** [s.strip()] *)
Definition strip (s : str) : str := rstrip isspace (lstrip isspace s).

(** [s.split()]: the maximal runs of non-whitespace characters, in order.
    [cur] holds the run being read, last character first. *)
Fixpoint split_from (cur : str) (s : str) : list str :=
  match s with
  | [] => match cur with [] => [] | _ => [rev cur] end
  | c :: s' =>
      if isspace c
      then match cur with
           | [] => split_from [] s'
           | _ => rev cur :: split_from [] s'
           end
      else split_from (c :: cur) s'
  end.

Definition split (s : str) : list str := split_from [] s.

(** The lines a text file opened in the default newline mode yields: each
    of "\n", "\r" and "\r\n" ends a line and is handed over as "\n".
    [skip_lf] tells that the previous character was "\r". *)
Fixpoint lines_from (cur : str) (skip_lf : bool) (s : str) : list str :=
  match s with
  | [] => match cur with [] => [] | _ => [rev cur] end
  | c :: s' =>
      if c =? 0x0A then
        if skip_lf then lines_from cur false s'
        else rev (0x0A :: cur) :: lines_from [] false s'
      else if c =? 0x0D then rev (0x0A :: cur) :: lines_from [] true s'
      else lines_from (c :: cur) false s'
  end.

Definition readlines (text : str) : list str := lines_from [] false text.

(** ** Numbers *)

(** A Python [float] is an IEEE 754 binary64 number, rounded to nearest with
    ties to even: the primitive [float] of Rocq. A Python [int] is
    unbounded: [Z]. *)

Local Open Scope Z_scope.

Definition is_digit (c : char) : bool := in_range 0x30%N 0x39%N c.

Definition digit_value (c : char) : Z := Z.of_N (c - 0x30)%N.

Definition digits_value (ds : str) : Z :=
  fold_left (fun acc c => 10 * acc + digit_value c) ds 0.

(** The longest prefix whose characters satisfy [p], and the rest. *)
Fixpoint span (p : char -> bool) (s : str) : str * str :=
  match s with
  | [] => ([], [])
  | c :: s' =>
      if p c then let (a, b) := span p s' in (c :: a, b) else ([], s)
  end.

(** An optional sign: whether it is a minus, and the rest. *)
Definition take_sign (s : str) : bool * str :=
  match s with
  | c :: s' =>
      if (c =? 0x2D)%N then (true, s')
      else if (c =? 0x2B)%N then (false, s')
      else (false, s)
  | [] => (false, [])
  end.

(** What [int()] and [float()] first do to a [str]: every whitespace
    character becomes a space, every decimal digit its ASCII digit, and any
    other character outside ASCII a question mark (which no number has). *)
Definition to_ascii (c : char) : char :=
  if (c <? 0x80)%N then c
  else if isspace c then 0x20%N
  else match to_decimal c with
       | Some d => (0x30 + d)%N
       | None => 0x3F%N
       end.

Definition ascii_number (s : str) : str :=
  rstrip Py_ISSPACE (lstrip Py_ISSPACE (map to_ascii s)).

(** *** [int(s)] *)

(** Digits with single underscores between them; [prev_us] tells that the
    previous character was an underscore. *)
Fixpoint int_digits (prev_us : bool) (acc : Z) (s : str) : option Z :=
  match s with
  | [] => if prev_us then None else Some acc
  | c :: s' =>
      if (c =? 0x5F)%N then
        if prev_us then None else int_digits true acc s'
      else if is_digit c then int_digits false (10 * acc + digit_value c) s'
      else None
  end.

(** CPython 3.11 converts between [int] and decimal text up to 4300 digits
    ([sys.int_max_str_digits]), and raises ValueError beyond: for a text of
    more digits, leading zeros counted, and for an [int] of more digits, that
    is, of [10 ^ 4300] or more in absolute value. *)
Definition int_max_str_digits : nat := 4300.

Definition too_long_for_str (z : Z) : bool :=
  10 ^ Z.of_nat int_max_str_digits <=? Z.abs z.

Definition int_of_str (s : str) : result Z :=
  let (neg, ds) := take_sign (ascii_number s) in
  match ds with
  | c :: _ =>
      if is_digit c then
        match int_digits false 0 ds with
        | Some v =>
            if (int_max_str_digits <? List.length (filter is_digit ds))%nat
            then Raise ValueError
            else Ok (if neg then - v else v)
        | None => Raise ValueError
        end
      else Raise ValueError
  | [] => Raise ValueError
  end.

(** *** Rounding to binary64 *)

(** The binary64 nearest to the positive rational [p / q], ties to even: a
    quotient of at least 56 bits with a sticky last bit rounds as [p / q]
    does. *)
Definition round_ratio (p q : positive) : spec_float :=
  let k := Z.max 0 (57 + Z.log2 (Zpos q) - Z.log2 (Zpos p)) in
  let n := Zpos p * 2 ^ k in
  let m := 2 * (n / Zpos q) + (if n mod Zpos q =? 0 then 0 else 1) in
  binary_normalize prec emax m (- k - 1) false.

Definition with_sign (neg : bool) (x : spec_float) : float :=
  SF2Prim (if neg then SFopp x else x).

(** The binary64 nearest to [m * 10 ^ e], for [0 <= m]. Numbers of 310 or
    more integer digits are beyond the largest finite value, and those under
    [10 ^ -330] are below half of the smallest one. *)
Definition decimal_to_float (neg : bool) (m e : Z) : float :=
  match m with
  | Zpos p =>
      let adj := Z.of_nat (Decimal.nb_digits (Pos.to_uint p)) + e in
      if 310 <? adj then with_sign neg (S754_infinity false)
      else if adj <? -330 then with_sign neg (S754_zero false)
      else if 0 <=? e
           then with_sign neg (round_ratio (p * Z.to_pos (10 ^ e)) 1)
           else with_sign neg (round_ratio p (Z.to_pos (10 ^ (- e))))
  | _ => with_sign neg (S754_zero false)
  end.

(** *** [float(s)] *)

(** Underscores stand only between two digits. [prev] is the previous
    character (none at the start). *)
Fixpoint underscores_ok (prev : char) (s : str) : bool :=
  match s with
  | [] => negb (prev =? 0x5F)%N
  | c :: s' =>
      (if (c =? 0x5F)%N then is_digit prev
       else negb (prev =? 0x5F)%N || is_digit c)
      && underscores_ok c s'
  end.

Definition lower (c : char) : char :=
  if in_range 0x41%N 0x5A%N c then (c + 0x20)%N else c.

(** [s] begins with the lower-case word [w], in any case: the rest. *)
Fixpoint match_word (w : str) (s : str) : option str :=
  match w, s with
  | [], _ => Some s
  | a :: w', c :: s' =>
      if (lower c =? a)%N then match_word w' s' else None
  | _ :: _, [] => None
  end.

(** "inf", "infinity" and "nan" in any case, with an optional sign. *)
Definition parse_inf_or_nan (s : str) : option (float * str) :=
  let (neg, t) := take_sign s in
  match match_word (lit "inf") t with
  | Some t1 =>
      let rest := match match_word (lit "inity") t1 with
                  | Some t2 => t2
                  | None => t1
                  end in
      Some (if neg then neg_infinity else infinity, rest)
  | None =>
      match match_word (lit "nan") t with
      | Some t1 => Some (nan, t1)
      | None => None
      end
  end.

(** An exponent part: its value and the rest. Without a digit after the
    letter, nothing is read. *)
Definition take_exponent (s : str) : Z * str :=
  match s with
  | c :: t =>
      if (lower c =? 0x65)%N then
        let (eneg, t1) := take_sign t in
        let (ed, t2) := span is_digit t1 in
        match ed with
        | [] => (0, s)
        | _ => (if eneg then - digits_value ed else digits_value ed, t2)
        end
      else (0, s)
  | [] => (0, [])
  end.

(** A decimal number: sign, digits, optional point and digits, optional
    exponent; at least one digit, and nothing left at the end. *)
Definition parse_decimal (s : str) : result float :=
  let (neg, s1) := take_sign s in
  let (ip, s2) := span is_digit s1 in
  let (fp, s3) :=
    match s2 with
    | c :: t => if (c =? 0x2E)%N then span is_digit t else ([], s2)
    | [] => ([], [])
    end in
  match ip ++ fp with
  | [] => Raise ValueError
  | ds =>
      let (e, s4) := take_exponent s3 in
      match s4 with
      | [] => Ok (decimal_to_float neg (digits_value ds)
                    (e - Z.of_nat (List.length fp)))
      | _ => Raise ValueError
      end
  end.

Definition float_of_str (s : str) : result float :=
  let t := ascii_number s in
  if underscores_ok 0%N t then
    let t := filter (fun c => negb (c =? 0x5F)%N) t in
    match parse_inf_or_nan t with
    | Some (f, []) => Ok f
    | Some (_, _ :: _) => Raise ValueError
    | None => parse_decimal t
    end
  else Raise ValueError.

(** *** Conversions between [int] and [float] *)

(** The last step of the conversion of a 55-bit integer whose low bit is
    sticky: the amount that makes it a multiple of four, ties to even. *)
Definition half_even_correction (low3 : Z) : Z :=
  nth (Z.to_nat low3) [0; -1; -2; 1; 0; -1; 2; 1] 0.

(** [int] to [float]: the nearest binary64, ties to even; OverflowError
    when that is beyond the largest finite one. The integer is brought to
    55 bits, rounded to 53 and scaled back by a power of two. *)
Definition float_of_int (z : Z) : result float :=
  if z =? 0 then Ok zero
  else
    let a := Z.abs z in
    let sh := Z.log2 a + 1 - 55 in
    let x := if sh <=? 0 then Z.shiftl a (- sh)
             else Z.lor (Z.shiftr a sh)
                        (if Z.land a (Z.ones sh) =? 0 then 0 else 1) in
    let m := (x + half_even_correction (Z.land x 7)) / 4 in
    let f := Z.ldexp (of_uint63 (Uint63.of_Z m)) (sh + 2) in
    if is_infinity f then Raise OverflowError
    else Ok (if z <? 0 then PrimFloat.opp f else f).

(** [float] to [int]: truncation towards zero. *)
Definition int_of_float (f : float) : result Z :=
  match Prim2SF f with
  | S754_nan => Raise ValueError
  | S754_infinity _ => Raise OverflowError
  | S754_zero _ => Ok 0
  | S754_finite s m e =>
      let v := if 0 <=? e then Zpos m * 2 ^ e else Zpos m / 2 ^ (- e) in
      Ok (if s then - v else v)
  end.

(** *** The arguments of [int()] and [float()] *)

(** The values that reach the constructor of a design: text, as the loader
    passes it, or numbers. *)
Inductive obj : Type :=
| Str (s : str)
| Float (f : float)
| Int (z : Z).

(** [float(x)] *)
Definition float_ (x : obj) : result float :=
  match x with
  | Str s => float_of_str s
  | Float f => Ok f
  | Int z => float_of_int z
  end.

(** [int(x)] *)
Definition int_ (x : obj) : result Z :=
  match x with
  | Str s => int_of_str s
  | Float f => int_of_float f
  | Int z => Ok z
  end.

(** *** Arithmetic *)

(** [a / b] on floats. *)
Definition float_truediv (a b : float) : result float :=
  if PrimFloat.eqb b zero then Raise ZeroDivisionError
  else Ok (PrimFloat.div a b).

(** [n / b] for an [int] [n] and a float [b]: [n] is converted first. *)
Definition int_truediv_float (n : Z) (b : float) : result float :=
  (a <- float_of_int n ;; float_truediv a b)%py.

(** [x == 0] for a float [x]. *)
Definition float_eq_zero (x : float) : bool := PrimFloat.eqb x zero.

(** [x < y] on floats. *)
Definition float_lt (x y : float) : bool := PrimFloat.ltb x y.

(** ** Format specifications *)

Fixpoint uint_str (u : Decimal.uint) : str :=
  match u with
  | Decimal.Nil => []
  | Decimal.D0 u' => 0x30%N :: uint_str u'
  | Decimal.D1 u' => 0x31%N :: uint_str u'
  | Decimal.D2 u' => 0x32%N :: uint_str u'
  | Decimal.D3 u' => 0x33%N :: uint_str u'
  | Decimal.D4 u' => 0x34%N :: uint_str u'
  | Decimal.D5 u' => 0x35%N :: uint_str u'
  | Decimal.D6 u' => 0x36%N :: uint_str u'
  | Decimal.D7 u' => 0x37%N :: uint_str u'
  | Decimal.D8 u' => 0x38%N :: uint_str u'
  | Decimal.D9 u' => 0x39%N :: uint_str u'
  end.

(** The decimal digits of [|z|]. *)
Definition abs_str (z : Z) : str :=
  match z with
  | Z0 => [0x30%N]
  | Zpos p | Zneg p => uint_str (Pos.to_uint p)
  end.

Definition minus_if (neg : bool) (s : str) : str :=
  if neg then 0x2D%N :: s else s.

(** [str(z)] for an [int]. *)
Definition int_str (z : Z) : str := minus_if (z <? 0) (abs_str z).

Definition padding (width : nat) (s : str) : str :=
  repeat 0x20%N (width - List.length s).

(** Text is set to the left of its field, numbers to the right; a field
    never cuts what is longer than its width. *)
Definition ljust (width : nat) (s : str) : str := s ++ padding width s.
Definition rjust (width : nat) (s : str) : str := padding width s ++ s.

(** [n / d] rounded to the nearest integer, ties to even ([0 <= n], [0 < d]). *)
Definition div_half_even (n d : Z) : Z :=
  let q := n / d in
  let r := n mod d in
  match 2 * r ?= d with
  | Lt => q
  | Gt => q + 1
  | Eq => if Z.even q then q else q + 1
  end.

(** [|x|] with [prec] digits after the point, from the exact value
    [m * 2 ^ e] of [x]. *)
Definition fixed_digits (prec : nat) (m e : Z) : str :=
  let p10 := 10 ^ Z.of_nat prec in
  let n := if 0 <=? e then m * 2 ^ e * p10
           else div_half_even (m * p10) (2 ^ (- e)) in
  abs_str (n / p10)
  ++ match prec with
     | O => []
     | _ => 0x2E%N :: tl (abs_str (p10 + n mod p10))
     end.

(** The presentation type [f] with a precision. *)
Definition fixed (prec : nat) (x : float) : str :=
  match Prim2SF x with
  | S754_nan => lit "nan"
  | S754_infinity s => minus_if s (lit "inf")
  | S754_zero s => minus_if s (fixed_digits prec 0 0)
  | S754_finite s m e => minus_if s (fixed_digits prec (Zpos m) e)
  end.

(** [f"{s:<width>s}"], [f"{z:<width>d}"] and [f"{x:<width>.<prec>f}"]. The
    second one raises ValueError for an [int] of more than 4300 digits. *)
Definition format_s (width : nat) (s : str) : str := ljust width s.
Definition format_d (width : nat) (z : Z) : result str :=
  if too_long_for_str z then Raise ValueError
  else Ok (rjust width (int_str z)).
Definition format_f (width prec : nat) (x : float) : str :=
  rjust width (fixed prec x).

(** ** [sorted] *)

(** [list.sort] compares items with [<] only, and nothing else decides the
    outcome. This is how CPython 3.11 sorts a list of fewer than 64 items:
    the longest run at the front that is already ascending, or strictly
    descending and then reversed, is extended by binary insertion of the
    items that follow. Longer lists are cut into such runs, which are then
    merged; where [<] is a strict weak order on the items this yields the
    same list, the only stable sorted arrangement. With NaN among the keys
    of 64 items or more the merges can yield another order, which this
    model does not follow. *)
Section Sort.

Variable A : Type.
Variable lt : A -> A -> bool.

Local Open Scope nat_scope.

(** The place of [pivot] in [a[l:r]]: the bisection of [binarysort]. *)
Fixpoint bisect (fuel : nat) (pivot : A) (a : list A) (l r : nat) : nat :=
  match fuel with
  | O => l
  | S fuel' =>
      if l <? r then
        let p := l + (r - l) / 2 in
        match nth_error a p with
        | Some y =>
            if lt pivot y then bisect fuel' pivot a l p
            else bisect fuel' pivot a (S p) r
        | None => l
        end
      else l
  end.

Definition insert_at (i : nat) (x : A) (a : list A) : list A :=
  firstn i a ++ x :: skipn i a.

(** [a] is the part already in order, [todo] what remains to insert. *)
Fixpoint binarysort (a : list A) (todo : list A) : list A :=
  match todo with
  | [] => a
  | pivot :: todo' =>
      let n := List.length a in
      binarysort (insert_at (bisect n pivot a 0 n) pivot a) todo'
  end.

(** How many more items continue a run whose last item is [prev]. *)
Fixpoint run_length (descending : bool) (prev : A) (l : list A) : nat :=
  match l with
  | [] => 0
  | x :: l' =>
      if Bool.eqb (lt x prev) descending
      then S (run_length descending x l')
      else 0
  end.

(** The length of the run at the front, and whether it descends. *)
Definition count_run (l : list A) : nat * bool :=
  match l with
  | [] => (0, false)
  | x :: t =>
      match t with
      | [] => (1, false)
      | y :: l' =>
          let descending := lt y x in
          (2 + run_length descending y l', descending)
      end
  end.

Definition list_sort (l : list A) : list A :=
  let (n, descending) := count_run l in
  let run := firstn n l in
  binarysort (if descending then rev run else run) (skipn n l).

End Sort.

Arguments bisect {A} lt fuel pivot a l r.
Arguments insert_at {A} i x a.
Arguments binarysort {A} lt a todo.
Arguments run_length {A} lt descending prev l.
Arguments count_run {A} lt l.
Arguments list_sort {A} lt l.

(** [sorted(l, key=key, reverse=reverse)], with [lt] the [<] of the keys. To
    keep a reverse sort stable the list is reversed, sorted in ascending
    order and reversed again. *)
Definition sorted {A K : Type} (lt : K -> K -> bool) (key : A -> K)
    (reverse : bool) (l : list A) : list A :=
  let by_key x y := lt (key x) (key y) in
  if reverse then rev (list_sort by_key (rev l)) else list_sort by_key l.

(** ** Standard output *)

(** [print(s)] appends [s] and a newline to what was written so far. *)
Definition print (s : str) (stdout : str) : str := stdout ++ s ++ [0x0A%N].

End Py.

Import Py.
Local Open Scope py_scope.

(* ===================================================================== *)
(** * The program *)
(* ===================================================================== *)

(** ** class Design *)

Module Design.

(** The attributes of a design. The coordinates are in micrometres,
    [area_mm2] in square millimetres, [density] in polygons per square
    millimetre. *)
Record t : Type := mk {
  name : str;
  lx : float;
  ly : float;
  ux : float;
  uy : float;
  poly_count : Z;
  md5sum : str;
  area_mm2 : float;
  density : float
}.

(** The methods take the attributes of [self] that they read. *)

Definition _compute_area_mm2 (lx ly ux uy : float) : result float :=
  let area_um2 := ((ux - lx) * (uy - ly))%float in
  float_truediv area_um2 1000000%float.

Definition _compute_density (poly_count : Z) (area_mm2 : float)
  : result float :=
  if float_eq_zero area_mm2 then Ok 0%float
  else int_truediv_float poly_count area_mm2.

Definition __init__ (name : str) (lx ly ux uy poly_count : obj)
    (md5sum : str) : result t :=
  lx <- float_ lx ;;
  ly <- float_ ly ;;
  ux <- float_ ux ;;
  uy <- float_ uy ;;
  poly_count <- int_ poly_count ;;
  area_mm2 <- _compute_area_mm2 lx ly ux uy ;;
  density <- _compute_density poly_count area_mm2 ;;
  Ok (mk name lx ly ux uy poly_count md5sum area_mm2 density).

End Design.

(** ** class Library *)

Module Library.

Record t : Type := mk { designs : list Design.t }.

Definition __init__ : t := mk [].

Definition add_design (self : t) (design : Design.t) : t :=
  mk (designs self ++ [design]).

Definition header : str :=
  lit "Designs sorted by density (high " ++ [0x2192%N] ++ lit " low):".

(** The line printed for one design: the value of the formatted string,
    whose last field raises when the count cannot be written. *)
Definition row (d : Design.t) : result str :=
  polys <- format_d 6 (Design.poly_count d) ;;
  Ok (format_s 10 (Design.name d) ++ lit " density="
      ++ format_f 10 6 (Design.density d) ++ lit " poly/mm" ++ [0xB2%N]
      ++ lit "   " ++ lit "area=" ++ format_f 12 2 (Design.area_mm2 d)
      ++ lit " mm" ++ [0xB2%N] ++ lit "   polys=" ++ polys).

Definition sorted_designs (self : t) : list Design.t :=
  sorted float_lt Design.density true (designs self).

(** The loop over the designs to print. An exception ends it, and leaves
    on standard output what was printed before. *)
Fixpoint print_each (rows : list Design.t) (stdout : str)
  : str * result unit :=
  match rows with
  | [] => (stdout, Ok tt)
  | d :: rows' =>
      match row d with
      | Ok s => print_each rows' (print s stdout)
      | Raise e => (stdout, Raise e)
      end
  end.

(** The library after the call, what standard output holds then, and
    whether the call returned or raised. *)
Definition print_by_density (self : t) (stdout : str)
  : t * (str * result unit) :=
  let sorted_designs := sorted_designs self in
  let stdout := print header stdout in
  (self, print_each sorted_designs stdout).

End Library.

(** ** main *)

(** The body of the loop over the lines of the file. Unpacking [parts]
    into seven names would raise ValueError for another number of tokens,
    which the test before it excludes. *)
Definition load_line (library : Library.t) (line : str) : result Library.t :=
  let parts := split (strip line) in
  if negb (Nat.eqb (List.length parts) 7) then Ok library
  else
    match parts with
    | [name; lx; ly; ux; uy; poly_count; md5sum] =>
        design <- Design.__init__ name (Str lx) (Str ly) (Str ux) (Str uy)
                    (Str poly_count) md5sum ;;
        Ok (Library.add_design library design)
    | _ => Raise ValueError
    end.

Fixpoint load (library : Library.t) (file : list str) : result Library.t :=
  match file with
  | [] => Ok library
  | line :: file' =>
      library <- load_line library line ;;
      load library file'
  end.

(** [testdata] is the text of the file "testdata.txt", which is taken to
    exist and to be valid UTF-8; [readline] takes its first line away. The
    result is what standard output holds at the end, and whether the run
    returned or raised. *)
Definition main (testdata : str) (stdout : str) : str * result unit :=
  let library := Library.__init__ in
  let file := readlines testdata in
  let file := tl file in
  match load library file with
  | Ok library => snd (Library.print_by_density library stdout)
  | Raise e => (stdout, Raise e)
  end.

(* ===================================================================== *)
(** * The vocabulary of the properties *)
(* ===================================================================== *)

(** ** Floats *)

(** [x != x] holds of NaN only. *)
Definition is_nan (x : float) : bool := negb (PrimFloat.eqb x x).

Section Places.

Local Open Scope Z_scope.

(** Every float but NaN has a place in the lexicographic order of the
    triples of integers, and the comparisons of floats are those of the
    places. *)
Definition rank (x : spec_float) : Z * Z * Z :=
  match x with
  | S754_nan => (3, 0, 0)
  | S754_infinity true => (-2, 0, 0)
  | S754_infinity false => (2, 0, 0)
  | S754_zero _ => (0, 0, 0)
  | S754_finite true m e => (-1, - e, Zneg m)
  | S754_finite false m e => (1, e, Zpos m)
  end.

Definition lex_compare (p q : Z * Z * Z) : comparison :=
  let '(a, b, c) := p in
  let '(a', b', c') := q in
  match a ?= a' with
  | Eq => match b ?= b' with
          | Eq => c ?= c'
          | r => r
          end
  | r => r
  end.

Definition lex_lt (p q : Z * Z * Z) : Prop :=
  let '(a, b, c) := p in
  let '(a', b', c') := q in
  a < a' \/ (a = a' /\ (b < b' \/ (b = b' /\ c < c'))).

Definition lex_eq (p q : Z * Z * Z) : Prop :=
  let '(a, b, c) := p in
  let '(a', b', c') := q in
  a = a' /\ b = b' /\ c = c'.

(** The place of a float in the order. *)
Definition place (x : float) : Z * Z * Z := rank (Prim2SF x).

End Places.

(** A number, zero or infinity of the sign [s] ([true] for minus). *)
Inductive signed (s : bool) : spec_float -> Prop :=
| signed_zero : signed s (S754_zero s)
| signed_finite (m : positive) (e : Z) : signed s (S754_finite s m e)
| signed_infinity : signed s (S754_infinity s).

(** ** Lists in order *)

(** No item is below an earlier one, for the comparison [lt]. *)
Definition ascending {A : Type} (lt : A -> A -> bool) (l : list A) : Prop :=
  StronglySorted (fun x y => lt y x = false) l.

(** Every item is below the earlier ones. *)
Definition strictly_descending {A : Type} (lt : A -> A -> bool)
    (l : list A) : Prop :=
  StronglySorted (fun x y => lt y x = true) l.

(** ** Designs and reports *)

(** No design of the list has a NaN density. *)
Definition no_nan_density (l : list Design.t) : Prop :=
  Forall (fun d => is_nan (Design.density d) = false) l.

(** Each row is at least as dense as the next one. *)
Definition descending_by_density (rows : list Design.t) : Prop :=
  forall i d d',
    nth_error rows i = Some d -> nth_error rows (S i) = Some d' ->
    PrimFloat.leb (Design.density d') (Design.density d) = true.

(** The designs of density [k], in the order of the list. *)
Definition of_density (k : float) (l : list Design.t) : list Design.t :=
  filter (fun d => PrimFloat.eqb k (Design.density d)) l.

(** The designs of every density keep the order they have in [l]. *)
Definition same_order_among_equals (l rows : list Design.t) : Prop :=
  forall k, of_density k rows = of_density k l.

(** The count of the design can be written: it has at most 4300 digits. *)
Definition printable (d : Design.t) : bool :=
  negb (too_long_for_str (Design.poly_count d)).

Definition all_printable (l : list Design.t) : Prop :=
  Forall (fun d => printable d = true) l.

(** The text of the row of a design, when it can be printed. *)
Definition row_text (d : Design.t) : str :=
  match Library.row d with
  | Ok s => s
  | Raise _ => []
  end.

(** The text of the rows, one line each. *)
Definition rows_text (rows : list Design.t) : str :=
  List.concat (map (fun d => row_text d ++ [0x0A%N]) rows).

(** The rows above the first one that cannot be printed, and how the
    report of the rows ends. *)
Fixpoint printed (rows : list Design.t) : list Design.t :=
  match rows with
  | [] => []
  | d :: rows' => if printable d then d :: printed rows' else []
  end.

Definition report_end (rows : list Design.t) : result unit :=
  if forallb printable rows then Ok tt else Raise ValueError.

(** The fields given to the constructor are equal, one by one. *)
Definition same_fields (d1 d2 : Design.t) : Prop :=
  Design.name d1 = Design.name d2
  /\ Design.lx d1 = Design.lx d2 /\ Design.ly d1 = Design.ly d2
  /\ Design.ux d1 = Design.ux d2 /\ Design.uy d1 = Design.uy d2
  /\ Design.poly_count d1 = Design.poly_count d2
  /\ Design.md5sum d1 = Design.md5sum d2.

(** [x == y] on floats: 0.0 and -0.0 are equal, and NaN is equal to
    nothing. *)
Definition float_eq (x y : float) : bool := PrimFloat.eqb x y.

(** The fields given to the constructor are equal, one by one, as [==] has
    it. *)
Definition equal_fields (d1 d2 : Design.t) : Prop :=
  Design.name d1 = Design.name d2
  /\ float_eq (Design.lx d1) (Design.lx d2) = true
  /\ float_eq (Design.ly d1) (Design.ly d2) = true
  /\ float_eq (Design.ux d1) (Design.ux d2) = true
  /\ float_eq (Design.uy d1) (Design.uy d2) = true
  /\ Design.poly_count d1 = Design.poly_count d2
  /\ Design.md5sum d1 = Design.md5sum d2.

(** The same datum, or two zeros. *)
Definition SF_same_or_zeros (X Y : spec_float) : Prop :=
  X = Y \/ exists s s', X = S754_zero s /\ Y = S754_zero s'.

(** The same binary64 value, or two zeros. *)
Definition same_or_zeros (x y : float) : Prop :=
  x = y \/ (float_eq_zero x = true /\ float_eq_zero y = true).

(** Two designs of which a row shows the same, the sign of a zero area
    apart. *)
Definition alike (d1 d2 : Design.t) : Prop :=
  Design.name d1 = Design.name d2
  /\ Design.poly_count d1 = Design.poly_count d2
  /\ Design.density d1 = Design.density d2
  /\ same_or_zeros (Design.area_mm2 d1) (Design.area_mm2 d2).

(** The areas are the same binary64 values, one by one. *)
Definition same_areas (l1 l2 : list Design.t) : Prop :=
  Forall2 (fun d1 d2 => Design.area_mm2 d1 = Design.area_mm2 d2) l1 l2.

Definition no_zero_area (l : list Design.t) : Prop :=
  Forall (fun d => float_eq_zero (Design.area_mm2 d) = false) l.

(** The design is one that the constructor returns. *)
Definition constructed (d : Design.t) : Prop :=
  exists name lx ly ux uy poly_count md5sum,
    Design.__init__ name lx ly ux uy poly_count md5sum = Ok d.

(** ** Lines and tokens *)

(** A token: not empty, and without whitespace. *)
Definition token (t : str) : Prop :=
  t <> [] /\ Forall (fun c => isspace c = false) t.

Definition whitespace (ws : str) : Prop :=
  Forall (fun c => isspace c = true) ws.

(** A piece of a line: a token and the whitespace that follows it. *)
Definition spaced_token (p : str * str) : Prop :=
  token (fst p) /\ whitespace (snd p) /\ snd p <> [].

(** The text of the pieces, one after another. *)
Definition spaced (parts : list (str * str)) : str :=
  List.concat (map (fun p => fst p ++ snd p) parts).

(** The tokens of a line of the file, and whether they are the seven of a
    row. *)
Definition row_tokens (l : str) : list str := split (strip l).

Definition is_row (l : str) : bool :=
  Nat.eqb (List.length (row_tokens l)) 7.

(** The name and the checksum of a design; the first and the seventh token
    of a line. *)
Definition labels (d : Design.t) : str * str :=
  (Design.name d, Design.md5sum d).

Definition row_labels (l : str) : str * str :=
  (nth 0 (row_tokens l) [], nth 6 (row_tokens l) []).

(** What [split_from] yields for the run read so far when the text ends or
    whitespace comes. *)
Definition flush (cur : str) : list str :=
  match cur with
  | [] => []
  | _ => [rev cur]
  end.

(** The number of newlines of a text. *)
Definition newlines (s : str) : nat := count_occ N.eq_dec s 0x0A%N.

(** The text with its lines ended the way of DOS, by a carriage return and
    a newline, and the way of the old Mac OS, by a carriage return. *)
Definition crlf (s : str) : str :=
  flat_map (fun c => if (c =? 0x0A)%N then [0x0D; 0x0A]%N else [c]) s.

Definition cr (s : str) : str :=
  map (fun c => if (c =? 0x0A)%N then 0x0D%N else c) s.

(** No design of the list is less dense than the next one. *)
Definition no_ascent (l : list Design.t) : Prop :=
  Sorted (fun a b => float_lt (Design.density a) (Design.density b) = false)
    l.

(** Every design of the list is less dense than the next one. *)
Definition ascent (l : list Design.t) : Prop :=
  Sorted (fun a b => float_lt (Design.density a) (Design.density b) = true)
    l.

(* ===================================================================== *)
(** * Sample files *)
(* ===================================================================== *)

(** A line of a file: the text and its newline. *)
Definition line (s : string) : str := lit s ++ [0x0A%N].

Definition header_line : str :=
  line "name lx ly ux uy poly_count md5sum".

(** Two designs and a row of zero area. *)
Definition sample_text : str :=
  header_line
  ++ line "design_a 0 0 1000 1000 500 abc123"
  ++ line "design_b 0 0 2000 500 200 def456"
  ++ line "design_c 0 0 0 0 10 ghi789".

Definition design_a : Design.t :=
  Design.mk (lit "design_a") 0 0 1000 1000 500 (lit "abc123") 1 500.
Definition design_b : Design.t :=
  Design.mk (lit "design_b") 0 0 2000 500 200 (lit "def456") 1 200.
Definition design_c : Design.t :=
  Design.mk (lit "design_c") 0 0 0 0 10 (lit "ghi789") 0 0.

Definition sample_library : Library.t :=
  Library.mk [design_a; design_b; design_c].

(** The same designs as [sample_text], written otherwise. *)
Definition sample_text_again : str :=
  header_line
  ++ line "design_a   0.0   00   1e3   1_000.0   +500   abc123"
  ++ line "design_a"
  ++ line "design_b 0e5 0. 20_00 5E2 0200 def456"
  ++ line "design_c .0 0 0 0 10 ghi789".

(** Designs of equal density, without NaN. *)
Definition ties_text : str :=
  header_line
  ++ line "design_a 0 0 1000 1000 500 abc123"
  ++ line "design_b 0 0 2000 500 200 def456"
  ++ line "design_d 0 0 500 2000 500 0a1b2c"
  ++ line "design_c 0 0 0 0 10 ghi789"
  ++ line "design_e 5 5 5 9 7 3d4e5f".

Definition ties_library : Library.t :=
  Eval vm_compute in
    match load Library.__init__ (tl (readlines ties_text)) with
    | Ok library => library
    | Raise _ => Library.__init__
    end.

(** A design whose first coordinate is not a number. *)
Definition nan_text : str :=
  header_line
  ++ line "design_a 0 0 1000 1000 500 abc123"
  ++ line "design_n nan 0 1000 1000 200 def456".

Definition design_n : Design.t :=
  Design.mk (lit "design_n") nan 0 1000 1000 200 (lit "def456") nan nan.

Definition nan_library : Library.t := Library.mk [design_a; design_n].

(** Two designs of density 2, the first of the file before a design of
    density 1, and two designs whose density is NaN around one of
    density 3. *)
Definition unstable_text : str :=
  header_line
  ++ line "first 0 0 1000 1000 2 x"
  ++ line "one 0 0 1000 1000 1 x"
  ++ line "second 0 0 1000 1000 2 x"
  ++ line "nan_1 nan 0 1000 1000 1 x"
  ++ line "three 0 0 1000 1000 3 x"
  ++ line "nan_2 nan 0 1000 1000 1 x"
  ++ line "zero 0 0 1000 1000 0 x".

Definition unstable_library : Library.t :=
  Eval vm_compute in
    match load Library.__init__ (tl (readlines unstable_text)) with
    | Ok library => library
    | Raise _ => Library.__init__
    end.

(** A row whose polygon count is negative. *)
Definition negative_text : str :=
  header_line ++ line "design_m 0 0 1000 1000 -5 abc123".

Definition design_m : Design.t :=
  Design.mk (lit "design_m") 0 0 1000 1000 (-5) (lit "abc123") 1 (-5).

(** Rows with inverted corners: both sides inverted; one side inverted and
    so long that the area is infinite; one side inverted and a polygon
    count of 401 digits. *)
Definition both_inverted : Design.t :=
  Design.mk (lit "design_i") 1000 1000 0 0 5 (lit "abc123") 1 5.

Definition long_inverted : Design.t :=
  Design.mk (lit "design_l") 0 0 (-0x1.4e718d7d7625ap+664)
    0x1.4e718d7d7625ap+664 5 (lit "abc123") neg_infinity (-0).

Definition googol4 : str := lit "1" ++ repeat 0x30%N 400.

(** A row that the conversions accept and the constructor does not. *)
Definition overflow_line : str :=
  lit "design_o 0 0 1000 1000 " ++ googol4 ++ line " abc123".

(** The first two designs of [sample_text], and the same with zeros of
    another sign among the corners. *)
Definition plain_corner_text : str :=
  header_line
  ++ line "design_a 0 0 1000 1000 500 abc123"
  ++ line "design_b 0 0 2000 500 200 def456".

Definition signed_corner_text : str :=
  header_line
  ++ line "design_a -0 -0.0 1000 1000 500 abc123"
  ++ line "design_b 0 -0 2000 500 200 def456".

Definition plain_corner_library : Library.t :=
  Library.mk [design_a; design_b].

Definition signed_corner_library : Library.t :=
  Library.mk
    [Design.mk (lit "design_a") (-0) (-0) 1000 1000 500 (lit "abc123") 1 500;
     Design.mk (lit "design_b") 0 (-0) 2000 500 200 (lit "def456") 1 200].

(** Two rows whose fields are equal, and whose areas are zeros of either
    sign. *)
Definition minus_zero_text : str :=
  header_line ++ line "design_z 0 0 -0 5 1 abc123".

Definition plus_zero_text : str :=
  header_line ++ line "design_z -0 0 -0 5 1 abc123".

Definition design_minus_zero : Design.t :=
  Design.mk (lit "design_z") 0 0 (-0) 5 1 (lit "abc123") (-0) 0.

Definition design_plus_zero : Design.t :=
  Design.mk (lit "design_z") (-0) 0 (-0) 5 1 (lit "abc123") 0 0.

(** A design of zero area whose count has 4301 digits, which only an [int]
    given to the constructor can be. *)
Definition design_g : Design.t :=
  Design.mk (lit "design_g") 0 0 0 0 (10 ^ 4300) (lit "abc123") 0 0.

Definition long_count_library : Library.t :=
  Library.mk [design_g; design_c; design_a].

(** A row whose polygon count is not a number, after a good row. *)
Definition bad_count_text : str :=
  header_line
  ++ line "design_a 0 0 1000 1000 500 abc123"
  ++ line "design_x 0 0 1000 1000 many def456"
  ++ line "design_b 0 0 2000 500 200 def456".

(* ===================================================================== *)
(** * The order of the floats *)
(* ===================================================================== *)

Section FloatOrder.

Local Open Scope Z_scope.

Lemma lex_compare_Lt p q : lex_compare p q = Lt <-> lex_lt p q.
Proof.
  destruct p as [[a b] c], q as [[a' b'] c']. unfold lex_compare, lex_lt.
  destruct (Z.compare_spec a a'); destruct (Z.compare_spec b b');
    destruct (Z.compare_spec c c'); split; intros; try discriminate;
    try reflexivity; lia.
Qed.

Lemma lex_compare_Eq p q : lex_compare p q = Eq <-> lex_eq p q.
Proof.
  destruct p as [[a b] c], q as [[a' b'] c']. unfold lex_compare, lex_eq.
  destruct (Z.compare_spec a a'); destruct (Z.compare_spec b b');
    destruct (Z.compare_spec c c'); split; intros; try discriminate;
    try reflexivity; lia.
Qed.

Lemma lex_compare_Gt p q : lex_compare p q = Gt <-> lex_lt q p.
Proof.
  destruct p as [[a b] c], q as [[a' b'] c']. unfold lex_compare, lex_lt.
  destruct (Z.compare_spec a a'); destruct (Z.compare_spec b b');
    destruct (Z.compare_spec c c'); split; intros; try discriminate;
    try reflexivity; lia.
Qed.

Lemma SFcompare_rank x y :
  x <> S754_nan -> y <> S754_nan ->
  SFcompare x y = Some (lex_compare (rank x) (rank y)).
Proof.
  intros Hx Hy.
  destruct x as [sx | sx | | sx mx ex]; try congruence;
    destruct y as [sy | sy | | sy my ey]; try congruence;
    try destruct sx; try destruct sy; try reflexivity.
  - simpl. rewrite Z.compare_opp, (Z.compare_antisym ex ey).
    change (PosDef.Pos.compare_cont Eq mx my) with (mx ?= my)%positive.
    destruct (ex ?= ey); reflexivity.
Qed.

Lemma lex_compare_refl p : lex_compare p p = Eq.
Proof. apply lex_compare_Eq. destruct p as [[a b] c]. simpl. lia. Qed.

Lemma is_nan_false x : is_nan x = false <-> Prim2SF x <> S754_nan.
Proof.
  unfold is_nan. rewrite eqb_spec. unfold SFeqb. split.
  - intros H E. rewrite E in H. discriminate.
  - intros H. rewrite (SFcompare_rank _ _ H H), lex_compare_refl. reflexivity.
Qed.

Lemma is_nan_true x : is_nan x = true <-> Prim2SF x = S754_nan.
Proof.
  unfold is_nan. rewrite eqb_spec. unfold SFeqb. split.
  - intros H. destruct (Prim2SF x) eqn:E; try reflexivity;
      rewrite SFcompare_rank, lex_compare_refl in H; discriminate.
  - intros E. rewrite E. reflexivity.
Qed.

Lemma float_compare_place x y :
  is_nan x = false -> is_nan y = false ->
  SFcompare (Prim2SF x) (Prim2SF y) = Some (lex_compare (place x) (place y)).
Proof.
  intros Hx Hy. apply SFcompare_rank; apply is_nan_false; assumption.
Qed.

Lemma float_lt_place x y :
  is_nan x = false -> is_nan y = false ->
  (float_lt x y = true <-> lex_lt (place x) (place y)).
Proof.
  intros Hx Hy. unfold float_lt. rewrite ltb_spec. unfold SFltb.
  rewrite (float_compare_place _ _ Hx Hy), <- lex_compare_Lt.
  destruct (lex_compare (place x) (place y)); split; congruence.
Qed.

Lemma float_leb_place x y :
  is_nan x = false -> is_nan y = false ->
  (PrimFloat.leb x y = true <-> ~ lex_lt (place y) (place x)).
Proof.
  intros Hx Hy. rewrite leb_spec. unfold SFleb.
  rewrite (float_compare_place _ _ Hx Hy), <- lex_compare_Gt.
  destruct (lex_compare (place x) (place y)); split; congruence.
Qed.

Lemma float_eqb_place x y :
  is_nan x = false -> is_nan y = false ->
  (PrimFloat.eqb x y = true <-> lex_eq (place x) (place y)).
Proof.
  intros Hx Hy. rewrite eqb_spec. unfold SFeqb.
  rewrite (float_compare_place _ _ Hx Hy), <- lex_compare_Eq.
  destruct (lex_compare (place x) (place y)); split; congruence.
Qed.

(** A comparison that holds has no NaN on either side. *)
Lemma float_lt_not_nan x y :
  float_lt x y = true -> is_nan x = false /\ is_nan y = false.
Proof.
  unfold float_lt. rewrite ltb_spec. unfold SFltb. intros H.
  split; apply is_nan_false; intros E; rewrite E in H;
    destruct (Prim2SF x), (Prim2SF y); discriminate.
Qed.

Lemma float_eqb_not_nan x y :
  PrimFloat.eqb x y = true -> is_nan x = false /\ is_nan y = false.
Proof.
  rewrite eqb_spec. unfold SFeqb. intros H.
  split; apply is_nan_false; intros E; rewrite E in H;
    destruct (Prim2SF x), (Prim2SF y); discriminate.
Qed.

Lemma float_lt_nan_l x y : is_nan x = true -> float_lt x y = false.
Proof.
  intros H. destruct (float_lt x y) eqn:E; [ | reflexivity ].
  apply float_lt_not_nan in E. destruct E; congruence.
Qed.

Lemma float_lt_nan_r x y : is_nan y = true -> float_lt x y = false.
Proof.
  intros H. destruct (float_lt x y) eqn:E; [ | reflexivity ].
  apply float_lt_not_nan in E. destruct E; congruence.
Qed.

Lemma float_leb_nan_l x y : is_nan x = true -> PrimFloat.leb x y = false.
Proof.
  intros H. apply is_nan_true in H. rewrite leb_spec, H. reflexivity.
Qed.

Lemma float_leb_nan_r x y : is_nan y = true -> PrimFloat.leb x y = false.
Proof.
  intros H. apply is_nan_true in H. rewrite leb_spec, H. unfold SFleb.
  destruct (Prim2SF x); reflexivity.
Qed.

Ltac lex_solve :=
  unfold lex_lt, lex_eq in *;
  repeat match goal with
         | p : (Z * Z * Z)%type |- _ => destruct p as [[? ?] ?]
         end;
  lia.

Lemma float_lt_asym x y : float_lt x y = true -> float_lt y x = false.
Proof.
  intros H. destruct (float_lt_not_nan _ _ H) as [Hx Hy].
  apply (float_lt_place _ _ Hx Hy) in H.
  destruct (float_lt y x) eqn:E; [ | reflexivity ].
  apply (float_lt_place _ _ Hy Hx) in E.
  generalize dependent (place x). generalize dependent (place y).
  intros; lex_solve.
Qed.

Lemma float_lt_trans x y z :
  float_lt x y = true -> float_lt y z = true -> float_lt x z = true.
Proof.
  intros H1 H2. destruct (float_lt_not_nan _ _ H1) as [Hx Hy].
  destruct (float_lt_not_nan _ _ H2) as [_ Hz].
  apply (float_lt_place _ _ Hx Hy) in H1. apply (float_lt_place _ _ Hy Hz) in H2.
  apply (float_lt_place _ _ Hx Hz).
  generalize dependent (place x). generalize dependent (place y).
  generalize dependent (place z). intros; lex_solve.
Qed.

(** Without NaN, "not less" is "greater or equal", and is transitive. *)
Lemma float_not_lt_trans x y z :
  is_nan x = false -> is_nan y = false -> is_nan z = false ->
  float_lt x y = false -> float_lt y z = false -> float_lt x z = false.
Proof.
  intros Hx Hy Hz H1 H2.
  destruct (float_lt x z) eqn:E; [ | reflexivity ]. exfalso.
  apply (float_lt_place _ _ Hx Hz) in E.
  assert (N1 : ~ lex_lt (place x) (place y))
    by (intros L; apply (float_lt_place _ _ Hx Hy) in L; congruence).
  assert (N2 : ~ lex_lt (place y) (place z))
    by (intros L; apply (float_lt_place _ _ Hy Hz) in L; congruence).
  generalize dependent (place x). generalize dependent (place y).
  generalize dependent (place z). intros; lex_solve.
Qed.

Lemma float_not_lt_ge x y :
  is_nan x = false -> is_nan y = false ->
  float_lt x y = false -> PrimFloat.leb y x = true.
Proof.
  intros Hx Hy H. apply (float_leb_place _ _ Hy Hx).
  intros L. apply (float_lt_place _ _ Hx Hy) in L. congruence.
Qed.

(** Two floats equal to a third are not below one another. *)
Lemma float_eqb_not_lt k x y :
  PrimFloat.eqb k x = true -> PrimFloat.eqb k y = true ->
  float_lt x y = false.
Proof.
  intros H1 H2. destruct (float_eqb_not_nan _ _ H1) as [Hk Hx].
  destruct (float_eqb_not_nan _ _ H2) as [_ Hy].
  apply (float_eqb_place _ _ Hk Hx) in H1. apply (float_eqb_place _ _ Hk Hy) in H2.
  destruct (float_lt x y) eqn:E; [ | reflexivity ]. exfalso.
  apply (float_lt_place _ _ Hx Hy) in E.
  generalize dependent (place x). generalize dependent (place y).
  generalize dependent (place k). intros; lex_solve.
Qed.

End FloatOrder.

Lemma float_lt_zero_not_eq (a : float) :
  float_lt a 0 = true -> float_eq_zero a = false.
Proof.
  unfold float_lt, float_eq_zero. rewrite ltb_spec, eqb_spec.
  change (Prim2SF zero) with (Prim2SF 0). unfold SFltb, SFeqb.
  destruct (SFcompare (Prim2SF a) (Prim2SF 0)) as [[ | | ] | ];
    congruence.
Qed.

(* ===================================================================== *)
(** * Signs in binary64 arithmetic *)
(* ===================================================================== *)

Section Signs.

Local Open Scope Z_scope.

Lemma iter_pos_invariant (A : Type) (f : A -> A) (Q : A -> Prop) :
  (forall x, Q x -> Q (f x)) ->
  forall n x, Q x -> Q (iter_pos f n x).
Proof.
  intros Hf. induction n as [n IH | n IH | ]; intros x Hx; simpl; auto.
Qed.

Lemma shr_1_nonneg (mrs : shr_record) :
  0 <= shr_m mrs -> 0 <= shr_m (shr_1 mrs).
Proof.
  destruct mrs as [m r s]. simpl.
  destruct m as [ | [p | p | ] | [p | p | ]]; simpl; lia.
Qed.

Lemma shr_nonneg (mrs : shr_record) (e n : Z) :
  0 <= shr_m mrs -> 0 <= shr_m (fst (shr mrs e n)).
Proof.
  intros H. unfold shr. destruct n; simpl; try assumption.
  apply (iter_pos_invariant _ shr_1 (fun x => 0 <= shr_m x));
    [ apply shr_1_nonneg | assumption ].
Qed.

Lemma shr_fexp_nonneg (m e : Z) (l : location) :
  0 <= m -> 0 <= shr_m (fst (shr_fexp prec emax m e l)).
Proof.
  intros H. unfold shr_fexp. apply shr_nonneg.
  destruct l as [ | [ | | ]]; simpl; assumption.
Qed.

Lemma round_nearest_even_nonneg (m : Z) (l : location) :
  0 <= m -> 0 <= round_nearest_even m l.
Proof.
  intros H. destruct l as [ | [ | | ]]; simpl; try lia.
  destruct (Z.even m); lia.
Qed.

(** Rounding keeps the sign, and yields no NaN. *)
Lemma binary_round_aux_signed (s : bool) (m e : Z) (l : location) :
  0 <= m -> signed s (binary_round_aux prec emax s m e l).
Proof.
  intros H. unfold binary_round_aux.
  pose proof (shr_fexp_nonneg m e l H) as H1.
  destruct (shr_fexp prec emax m e l) as [mrs' e'].
  simpl in H1.
  pose proof (shr_fexp_nonneg _ e' loc_Exact
                (round_nearest_even_nonneg _ (loc_of_shr_record mrs') H1))
    as H2.
  destruct (shr_fexp prec emax _ e' loc_Exact) as [mrs'' e''].
  simpl in H2.
  destruct (shr_m mrs'') as [ | p | p ].
  - constructor.
  - destruct (Z.leb e'' (emax - prec)); constructor.
  - lia.
Qed.

Lemma binary_round_signed (s : bool) (m : positive) (e : Z) :
  signed s (binary_round prec emax s m e).
Proof.
  unfold binary_round. destruct (shl_align _ _ _) as [mz ez].
  apply binary_round_aux_signed. lia.
Qed.

Lemma of_uint63_signed (n : Uint63.int) : signed false (Prim2SF (of_uint63 n)).
Proof.
  rewrite of_uint63_spec.
  pose proof (Uint63.to_Z_bounded n) as B.
  destruct (Uint63.to_Z n) as [ | p | p ]; simpl.
  - constructor.
  - apply binary_round_signed.
  - lia.
Qed.

Lemma ldexp_signed (s : bool) (f : float) (e : Z) :
  signed s (Prim2SF f) -> signed s (Prim2SF (Z.ldexp f e)).
Proof.
  intros H. rewrite Z_ldexp_spec.
  destruct H; simpl; try constructor. apply binary_round_signed.
Qed.

Lemma is_infinity_false (f : float) :
  is_infinity f = false -> forall s, Prim2SF f <> S754_infinity s.
Proof.
  unfold is_infinity. rewrite eqb_spec, abs_spec.
  intros H s E. rewrite E in H. vm_compute in H. discriminate.
Qed.

(** A positive integer that converts, converts to a positive number or to
    zero, never to an infinity. *)
Lemma float_of_int_positive (z : Z) (n : float) :
  0 < z -> float_of_int z = Ok n ->
  signed false (Prim2SF n) /\ forall s, Prim2SF n <> S754_infinity s.
Proof.
  intros Hz. unfold float_of_int.
  destruct (Z.eqb_spec z 0); [ lia | ].
  match goal with
  | |- (if is_infinity ?f then _ else _) = _ -> _ =>
      destruct (is_infinity f) eqn:E; [ discriminate | ];
      pose proof (ldexp_signed _ _ _ (of_uint63_signed _) : signed false (Prim2SF f))
        as Hs
  end.
  destruct (Z.ltb_spec z 0); [ lia | ].
  intros Hok. injection Hok as <-.
  split; [ exact Hs | apply is_infinity_false, E ].
Qed.

Lemma div_eucl_nonneg (a : Z) (b : positive) :
  0 <= a -> 0 <= fst (Z.div_eucl a (Zpos b)).
Proof.
  intros H. change (fst (Z.div_eucl a (Zpos b))) with (a / Zpos b).
  apply Z.div_pos; lia.
Qed.

Lemma SFdiv_signed (sx sy : bool) (x y : spec_float) :
  signed sx x -> (forall s, x <> S754_infinity s) ->
  signed sy y -> (forall s, y <> S754_zero s) ->
  signed (xorb sx sy) (SFdiv prec emax x y).
Proof.
  intros Hx Nx Hy Ny.
  destruct Hx as [ | mx ex | ]; [ | | exfalso; eapply Nx; reflexivity ];
    destruct Hy as [ | my ey | ]; try (exfalso; eapply Ny; reflexivity);
    try (simpl; constructor).
  unfold SFdiv, SFdiv_core_binary.
  match goal with
  | |- context [Z.div_eucl ?a (Zpos my)] =>
      assert (Ha : 0 <= a);
      [ | pose proof (div_eucl_nonneg a my Ha) as Hq;
          destruct (Z.div_eucl a (Zpos my)) as [q r] ]
  end.
  - match goal with
    | |- 0 <= match ?s with _ => _ end => destruct s
    end; try lia.
    apply Z.shiftl_nonneg. lia.
  - simpl in Hq. apply binary_round_aux_signed. exact Hq.
Qed.

(** A positive number or zero divided by a negative number is not above
    zero. *)
Lemma div_by_negative (n a : float) :
  signed false (Prim2SF n) -> (forall s, Prim2SF n <> S754_infinity s) ->
  float_lt a 0 = true ->
  PrimFloat.leb (n / a) 0 = true.
Proof.
  intros Hn Nn Ha. unfold float_lt in Ha.
  rewrite ltb_spec in Ha. rewrite leb_spec, div_spec.
  change (Prim2SF 0) with (S754_zero false) in *.
  assert (Hs : signed true (Prim2SF a)
               /\ forall s, Prim2SF a <> S754_zero s).
  { destruct (Prim2SF a) as [s | s | | s m e]; try discriminate.
    - destruct s; [ | discriminate ]. split; [ constructor | congruence ].
    - destruct s; [ | discriminate ]. split; [ constructor | congruence ]. }
  destruct Hs as [Hs Nz].
  pose proof (SFdiv_signed _ _ _ _ Hn Nn Hs Nz) as H. simpl xorb in H.
  unfold SF64div. destruct H; reflexivity.
Qed.

End Signs.

(* ===================================================================== *)
(** * Lists in order *)
(* ===================================================================== *)

Section Sorted.

Variable A : Type.
Variable R : A -> A -> Prop.

Lemma StronglySorted_app_inv (l1 l2 : list A) :
  StronglySorted R (l1 ++ l2) ->
  StronglySorted R l1 /\ StronglySorted R l2
  /\ (forall x y, In x l1 -> In y l2 -> R x y).
Proof.
  induction l1 as [ | a l1 IH]; simpl; intros H.
  - repeat split; [ constructor | assumption | contradiction ].
  - apply StronglySorted_inv in H. destruct H as [H1 H2].
    destruct (IH H1) as (S1 & S2 & C).
    rewrite Forall_app in H2. destruct H2 as [F1 F2].
    repeat split; try assumption.
    + constructor; assumption.
    + intros x y [<- | Hx] Hy.
      * rewrite Forall_forall in F2. apply F2, Hy.
      * apply C; assumption.
Qed.

Lemma StronglySorted_app (l1 l2 : list A) :
  StronglySorted R l1 -> StronglySorted R l2 ->
  (forall x y, In x l1 -> In y l2 -> R x y) ->
  StronglySorted R (l1 ++ l2).
Proof.
  induction l1 as [ | a l1 IH]; simpl; intros S1 S2 C; [ assumption | ].
  apply StronglySorted_inv in S1. destruct S1 as [S1 F1].
  constructor.
  - apply IH; auto.
  - rewrite Forall_app. split; [ assumption | ].
    rewrite Forall_forall. intros y Hy. apply C; auto.
Qed.

Lemma StronglySorted_nth (l : list A) (i j : nat) (x y : A) :
  StronglySorted R l -> i < j ->
  nth_error l i = Some x -> nth_error l j = Some y -> R x y.
Proof.
  intros S. revert i j. induction S as [ | a l S IH F]; intros i j Hij Hi Hj.
  - destruct i; discriminate.
  - destruct j as [ | j]; [ lia | ]. simpl in Hj.
    destruct i as [ | i]; simpl in Hi.
    + injection Hi as <-. rewrite Forall_forall in F.
      apply F. eapply nth_error_In, Hj.
    + apply (IH i j); [ lia | assumption | assumption ].
Qed.

End Sorted.

Lemma StronglySorted_rev (A : Type) (R : A -> A -> Prop) (l : list A) :
  StronglySorted R l -> StronglySorted (fun x y => R y x) (rev l).
Proof.
  induction 1 as [ | a l S IH F]; simpl; [ constructor | ].
  apply StronglySorted_app.
  - assumption.
  - repeat constructor.
  - intros x y Hx [<- | []]. rewrite Forall_forall in F.
    apply F, in_rev, Hx.
Qed.

Lemma StronglySorted_weaken (A : Type) (R R' : A -> A -> Prop) (l : list A) :
  (forall x y, In x l -> In y l -> R x y -> R' x y) ->
  StronglySorted R l -> StronglySorted R' l.
Proof.
  intros W S. induction S as [ | a l S IH F]; constructor.
  - apply IH. intros x y Hx Hy. apply W; right; assumption.
  - rewrite Forall_forall in *. intros y Hy.
    apply W; [ left; reflexivity | right; assumption | apply F, Hy ].
Qed.

Lemma Forall_firstn_nth (A : Type) (Q : A -> Prop) (a : list A) (i : nat) :
  (forall j y, j < i -> nth_error a j = Some y -> Q y) ->
  Forall Q (firstn i a).
Proof.
  revert i. induction a as [ | x a IH]; intros i H.
  - rewrite firstn_nil. constructor.
  - destruct i as [ | i]; simpl; constructor.
    + apply (H 0); [ lia | reflexivity ].
    + apply IH. intros j y Hj Hy. apply (H (S j)); [ lia | assumption ].
Qed.

Lemma Forall_skipn_nth (A : Type) (Q : A -> Prop) (a : list A) (i : nat) :
  (forall j y, i <= j -> nth_error a j = Some y -> Q y) ->
  Forall Q (skipn i a).
Proof.
  revert i. induction a as [ | x a IH]; intros i H.
  - rewrite skipn_nil. constructor.
  - destruct i as [ | i]; simpl.
    + rewrite Forall_forall. intros y Hy.
      destruct (In_nth_error _ _ Hy) as [j Hj].
      apply (H j); [ lia | assumption ].
    + apply IH. intros j y Hj Hy. apply (H (S j)); [ lia | assumption ].
Qed.

Lemma Forall_firstn (A : Type) (Q : A -> Prop) (a : list A) (i : nat) :
  Forall Q a -> Forall Q (firstn i a).
Proof.
  intros H. rewrite <- (firstn_skipn i a), Forall_app in H. apply H.
Qed.

Lemma Forall_skipn (A : Type) (Q : A -> Prop) (a : list A) (i : nat) :
  Forall Q a -> Forall Q (skipn i a).
Proof.
  intros H. rewrite <- (firstn_skipn i a), Forall_app in H. apply H.
Qed.

(* ===================================================================== *)
(** * The sort *)
(* ===================================================================== *)

Section SortPermutation.

Variable A : Type.
Variable lt : A -> A -> bool.

Lemma insert_at_perm (i : nat) (x : A) (a : list A) :
  Permutation (insert_at i x a) (x :: a).
Proof.
  unfold insert_at. rewrite <- (firstn_skipn i a) at 3.
  symmetry. apply Permutation_middle.
Qed.

Lemma binarysort_perm (a todo : list A) :
  Permutation (binarysort lt a todo) (a ++ todo).
Proof.
  revert a. induction todo as [ | x todo IH]; intros a; simpl.
  - rewrite app_nil_r. reflexivity.
  - rewrite IH. rewrite insert_at_perm. simpl. apply Permutation_middle.
Qed.

(** Whatever [<] is, sorting only rearranges the list. *)
Lemma list_sort_perm (l : list A) : Permutation (list_sort lt l) l.
Proof.
  unfold list_sort. destruct (count_run lt l) as [n d].
  rewrite binarysort_perm.
  apply Permutation_trans with (firstn n l ++ skipn n l).
  - apply Permutation_app_tail.
    destruct d; [ symmetry; apply Permutation_rev | reflexivity ].
  - rewrite firstn_skipn. reflexivity.
Qed.

End SortPermutation.

Lemma sorted_perm (A K : Type) (lt : K -> K -> bool) (key : A -> K)
    (reverse : bool) (l : list A) :
  Permutation (sorted lt key reverse l) l.
Proof.
  unfold sorted. destruct reverse.
  - rewrite <- Permutation_rev, list_sort_perm, <- Permutation_rev.
    reflexivity.
  - apply list_sort_perm.
Qed.

(** Where [<] is a strict weak order on the items that satisfy [P], a list
    of such items comes out in ascending order, the items of one class in
    the order they had. *)
Section SortOrder.

Variable A : Type.
Variable lt : A -> A -> bool.
Variable P : A -> Prop.

Hypothesis lt_asym : forall x y, lt x y = true -> lt y x = false.
Hypothesis lt_trans :
  forall x y z, lt x y = true -> lt y z = true -> lt x z = true.
Hypothesis not_lt_trans :
  forall x y z, P x -> P y -> P z ->
    lt x y = false -> lt y z = false -> lt x z = false.

(** A class: items none of which is below another. *)
Variable c : A -> bool.
Hypothesis c_class : forall x y, c x = true -> c y = true -> lt x y = false.

Lemma bisect_step (fuel : nat) (pivot : A) (a : list A) (l r : nat) :
  bisect lt (S fuel) pivot a l r =
  if l <? r then
    match nth_error a (l + (r - l) / 2) with
    | Some y =>
        if lt pivot y then bisect lt fuel pivot a l (l + (r - l) / 2)
        else bisect lt fuel pivot a (S (l + (r - l) / 2)) r
    | None => l
    end
  else l.
Proof. reflexivity. Qed.

Lemma bisect_spec (fuel : nat) (pivot : A) (a : list A) (l r : nat) :
  P pivot -> Forall P a -> ascending lt a ->
  l <= r -> r <= List.length a -> r - l <= fuel ->
  (forall j y, j < l -> nth_error a j = Some y -> lt pivot y = false) ->
  (forall j y, r <= j -> nth_error a j = Some y -> lt pivot y = true) ->
  (forall j y, j < bisect lt fuel pivot a l r ->
     nth_error a j = Some y -> lt pivot y = false)
  /\ (forall j y, bisect lt fuel pivot a l r <= j ->
        nth_error a j = Some y -> lt pivot y = true).
Proof.
  intros Hp Ha Hs. revert l r.
  induction fuel as [ | fuel IH]; intros l r Hlr Hr Hf Hlo Hhi.
  - simpl. assert (l = r) by lia. subst r. split; assumption.
  - rewrite bisect_step. destruct (Nat.ltb_spec l r) as [Hlt | Hge].
    2:{ assert (l = r) by lia. subst r. split; assumption. }
    assert (Hdiv : (r - l) / 2 < r - l) by (apply Nat.div_lt; lia).
    set (p := l + (r - l) / 2) in *.
    assert (Hpl : l <= p) by (unfold p; lia).
    assert (Hpr : p < r) by (unfold p; lia).
    destruct (nth_error a p) as [y | ] eqn:Ey.
    2:{ apply nth_error_None in Ey. lia. }
    assert (Py : P y)
      by (rewrite Forall_forall in Ha; eapply Ha, nth_error_In, Ey).
    destruct (lt pivot y) eqn:Elt.
    + apply IH; try lia; try assumption.
      intros j z Hj Ez.
      destruct (Nat.eq_dec j p) as [-> | Hne]; [ congruence | ].
      assert (Pz : P z)
        by (rewrite Forall_forall in Ha; eapply Ha, nth_error_In, Ez).
      assert (Hzy : lt z y = false)
        by (apply (StronglySorted_nth A _ a p j y z Hs); [ lia | assumption.. ]).
      destruct (lt pivot z) eqn:Epz; [ reflexivity | ].
      rewrite (not_lt_trans pivot z y Hp Pz Py Epz Hzy) in Elt. discriminate.
    + apply IH; try lia; try assumption.
      intros j z Hj Ez.
      destruct (Nat.eq_dec j p) as [-> | Hne]; [ congruence | ].
      assert (Pz : P z)
        by (rewrite Forall_forall in Ha; eapply Ha, nth_error_In, Ez).
      assert (Hyz : lt y z = false)
        by (apply (StronglySorted_nth A _ a j p z y Hs); [ lia | assumption.. ]).
      apply (not_lt_trans pivot y z Hp Py Pz Elt Hyz).
Qed.

(** The bisection finds the place after the items that are not above
    [pivot]. *)
Lemma bisect_place (pivot : A) (a : list A) :
  P pivot -> Forall P a -> ascending lt a ->
  let i := bisect lt (List.length a) pivot a 0 (List.length a) in
  Forall (fun y => lt pivot y = false) (firstn i a)
  /\ Forall (fun y => lt pivot y = true) (skipn i a).
Proof.
  intros Hp Ha Hs i.
  destruct (bisect_spec (List.length a) pivot a 0 (List.length a)
              Hp Ha Hs) as [H1 H2]; try lia.
  - intros j y Hj Hy.
    assert (j < List.length a) by (apply nth_error_Some; congruence). lia.
  - split; [ apply Forall_firstn_nth | apply Forall_skipn_nth ]; assumption.
Qed.

Lemma insert_at_ascending (i : nat) (x : A) (a : list A) :
  ascending lt a ->
  Forall (fun y => lt x y = false) (firstn i a) ->
  Forall (fun y => lt x y = true) (skipn i a) ->
  ascending lt (insert_at i x a).
Proof.
  unfold ascending, insert_at. intros Hs H1 H2.
  rewrite <- (firstn_skipn i a) in Hs.
  apply StronglySorted_app_inv in Hs. destruct Hs as (S1 & S2 & C).
  rewrite Forall_forall in H1, H2.
  apply StronglySorted_app.
  - assumption.
  - constructor; [ assumption | ].
    rewrite Forall_forall. intros y Hy. apply lt_asym, H2, Hy.
  - intros u v Hu [<- | Hv]; [ apply H1, Hu | apply C; assumption ].
Qed.

Lemma insert_at_class (i : nat) (x : A) (a : list A) :
  Forall (fun y => lt x y = true) (skipn i a) ->
  filter c (insert_at i x a) = filter c (a ++ [x]).
Proof.
  intros H2. unfold insert_at.
  rewrite <- (firstn_skipn i a) at 3.
  rewrite !filter_app. simpl. rewrite <- app_assoc. f_equal.
  destruct (c x) eqn:Ex; [ | rewrite app_nil_r; reflexivity ].
  assert (E : filter c (skipn i a) = []).
  { rewrite Forall_forall in H2.
    destruct (filter c (skipn i a)) as [ | y t] eqn:Ef; [ reflexivity | ].
    assert (Hy : In y (filter c (skipn i a))) by (rewrite Ef; left; reflexivity).
    apply filter_In in Hy. destruct Hy as [Hy Cy].
    pose proof (H2 y Hy) as Hxy.
    rewrite (c_class x y Ex Cy) in Hxy. discriminate. }
  rewrite E. reflexivity.
Qed.

Lemma binarysort_spec (a todo : list A) :
  Forall P a -> Forall P todo -> ascending lt a ->
  ascending lt (binarysort lt a todo)
  /\ filter c (binarysort lt a todo) = filter c (a ++ todo).
Proof.
  revert a. induction todo as [ | x todo IH]; intros a Ha Ht Hs; simpl.
  - rewrite app_nil_r. split; [ assumption | reflexivity ].
  - apply Forall_cons_iff in Ht. destruct Ht as [Px Ht].
    destruct (bisect_place x a Px Ha Hs) as [H1 H2].
    set (i := bisect lt (List.length a) x a 0 (List.length a)) in *.
    destruct (IH (insert_at i x a)) as [S' F'].
    + unfold insert_at. rewrite Forall_app. split.
      * apply Forall_firstn, Ha.
      * constructor; [ assumption | apply Forall_skipn, Ha ].
    + assumption.
    + apply insert_at_ascending; assumption.
    + split; [ assumption | ].
      rewrite F', !filter_app, (insert_at_class i x a H2), filter_app.
      rewrite <- app_assoc. simpl. destruct (c x); reflexivity.
Qed.

(** The run at the front. *)
Lemma run_ascending (prev : A) (l : list A) :
  Forall P (prev :: l) ->
  ascending lt (prev :: firstn (run_length lt false prev l) l).
Proof.
  revert prev. induction l as [ | x l IH]; intros prev HP; simpl.
  - repeat constructor.
  - apply Forall_cons_iff in HP. destruct HP as [Pp HP].
    destruct (lt x prev) eqn:E; simpl; [ repeat constructor | ].
    specialize (IH x HP). constructor; [ assumption | ].
    constructor; [ assumption | ].
    apply Forall_cons_iff in HP. destruct HP as [Px HP].
    apply StronglySorted_inv in IH. destruct IH as [_ F].
    pose proof (Forall_firstn _ _ l (run_length lt false x l) HP) as PF.
    rewrite Forall_forall in *. intros y Hy.
    apply (not_lt_trans y x prev); auto.
Qed.

Lemma run_descending (prev : A) (l : list A) :
  strictly_descending lt (prev :: firstn (run_length lt true prev l) l).
Proof.
  revert prev. induction l as [ | x l IH]; intros prev; simpl.
  - repeat constructor.
  - destruct (lt x prev) eqn:E; simpl; [ | repeat constructor ].
    specialize (IH x). constructor; [ assumption | ].
    constructor; [ assumption | ].
    apply StronglySorted_inv in IH. destruct IH as [_ F].
    rewrite Forall_forall in *. intros y Hy.
    apply (lt_trans y x prev); auto.
Qed.

Lemma rev_descending_ascending (l : list A) :
  strictly_descending lt l -> ascending lt (rev l).
Proof.
  intros H. apply StronglySorted_rev in H.
  revert H. apply StronglySorted_weaken.
  intros x y _ _. apply lt_asym.
Qed.

(** A strictly descending run holds at most one item of a class, so that
    its reversal leaves the class as it was. *)
Lemma rev_descending_class (l : list A) :
  strictly_descending lt l -> filter c (rev l) = filter c l.
Proof.
  induction 1 as [ | x l S IH F]; [ reflexivity | ].
  simpl. rewrite filter_app, IH. simpl.
  destruct (c x) eqn:Ex; [ | apply app_nil_r ].
  assert (E : filter c l = []).
  { rewrite Forall_forall in F.
    destruct (filter c l) as [ | y t] eqn:Ef; [ reflexivity | ].
    assert (Hy : In y (filter c l)) by (rewrite Ef; left; reflexivity).
    apply filter_In in Hy. destruct Hy as [Hy Cy].
    pose proof (F y Hy) as Hyx.
    rewrite (c_class y x Cy Ex) in Hyx. discriminate. }
  rewrite E. reflexivity.
Qed.

Lemma count_run_cons (x : A) (t : list A) :
  count_run lt (x :: t) =
  let descending := match t with y :: _ => lt y x | [] => false end in
  (S (run_length lt descending x t), descending).
Proof.
  destruct t as [ | y t]; [ reflexivity | ].
  simpl. rewrite eqb_reflx. reflexivity.
Qed.

Theorem list_sort_spec (l : list A) :
  Forall P l ->
  ascending lt (list_sort lt l) /\ filter c (list_sort lt l) = filter c l.
Proof.
  intros HP. unfold list_sort.
  destruct l as [ | x t].
  - simpl. split; [ constructor | reflexivity ].
  - rewrite count_run_cons. cbv beta iota zeta.
    set (d := match t with y :: _ => lt y x | [] => false end).
    set (n := run_length lt d x t).
    rewrite firstn_cons, skipn_cons.
    pose proof HP as HP'. apply Forall_cons_iff in HP'.
    destruct HP' as [Px Pt].
    assert (Hrun : Forall P (x :: firstn n t))
      by (constructor; [ assumption | apply Forall_firstn, Pt ]).
    assert (Hrest : Forall P (skipn n t)) by apply Forall_skipn, Pt.
    assert (Hl : filter c (x :: firstn n t) ++ filter c (skipn n t)
                 = filter c (x :: t))
      by (rewrite <- filter_app; simpl app; rewrite firstn_skipn;
          reflexivity).
    destruct d eqn:Ed.
    + pose proof (run_descending x t) as Hd. fold n in Hd.
      destruct (binarysort_spec (rev (x :: firstn n t)) (skipn n t))
        as [S' F'].
      * apply Forall_rev, Hrun.
      * assumption.
      * apply rev_descending_ascending, Hd.
      * split; [ assumption | ].
        rewrite F', filter_app, (rev_descending_class _ Hd). exact Hl.
    + pose proof (run_ascending x t HP) as Ha. fold n in Ha.
      destruct (binarysort_spec (x :: firstn n t) (skipn n t))
        as [S' F']; try assumption.
      split; [ assumption | ].
      rewrite F', filter_app. exact Hl.
Qed.

End SortOrder.

(* ===================================================================== *)
(** * What the conversions can raise *)
(* ===================================================================== *)

Lemma parse_decimal_error (s : str) (e : exn) :
  parse_decimal s = Raise e -> e = ValueError.
Proof.
  unfold parse_decimal.
  destruct (take_sign s) as [neg s1].
  destruct (span is_digit s1) as [ip s2].
  destruct (match s2 with
            | [] => ([], [])
            | c :: t => if (c =? 46)%N then span is_digit t else ([], s2)
            end) as [fp s3].
  destruct (ip ++ fp); [ congruence | ].
  destruct (take_exponent s3) as [x s4].
  destruct s4; congruence.
Qed.

Lemma float_of_str_error (s : str) (e : exn) :
  float_of_str s = Raise e -> e = ValueError.
Proof.
  unfold float_of_str.
  destruct (underscores_ok 0%N (ascii_number s)); [ | congruence ].
  destruct (parse_inf_or_nan _) as [[f [ | c t]] | ]; try congruence.
  apply parse_decimal_error.
Qed.

Lemma int_of_str_error (s : str) (e : exn) :
  int_of_str s = Raise e -> e = ValueError.
Proof.
  unfold int_of_str.
  destruct (take_sign (ascii_number s)) as [neg ds].
  destruct ds as [ | c ds]; [ congruence | ].
  destruct (is_digit c); [ | congruence ].
  destruct (int_digits false 0 (c :: ds)); [ | congruence ].
  match goal with
  | |- (if ?b then _ else _) = _ -> _ => destruct b
  end; congruence.
Qed.

(** The digits read so far stand before those that follow. *)
Lemma int_digits_bound (s : str) (prev_us : bool) (acc v : Z) :
  (0 <= acc)%Z -> int_digits prev_us acc s = Some v ->
  (0 <= v < (acc + 1) * 10 ^ Z.of_nat (List.length (filter is_digit s)))%Z.
Proof.
  revert prev_us acc. induction s as [ | c s IH]; intros prev_us acc Ha H.
  - simpl in *. destruct prev_us; [ discriminate | ].
    injection H as <-. lia.
  - cbn [int_digits] in H. destruct (N.eqb_spec c 0x5F) as [-> | Hc].
    + destruct prev_us; [ discriminate | ].
      apply (IH true acc Ha) in H. exact H.
    + simpl filter. destruct (is_digit c) eqn:Ed; [ | discriminate ].
      assert (Hd : (0 <= digit_value c <= 9)%Z).
      { unfold is_digit, in_range in Ed. unfold digit_value.
        apply andb_prop in Ed. destruct Ed as [E1 E2].
        apply N.leb_le in E1, E2. lia. }
      apply IH in H; [ | lia ].
      cbn [List.length]. rewrite Nat2Z.inj_succ, Z.pow_succ_r by lia.
      nia.
Qed.

(** [int()] returns no number of more than 4300 digits for a text. *)
Lemma int_of_str_short (s : str) (z : Z) :
  int_of_str s = Ok z -> too_long_for_str z = false.
Proof.
  unfold int_of_str.
  destruct (take_sign (ascii_number s)) as [neg ds].
  destruct ds as [ | c ds]; [ discriminate | ].
  destruct (is_digit c); [ | discriminate ].
  destruct (int_digits false 0 (c :: ds)) as [v | ] eqn:Ev;
    [ | discriminate ].
  apply (int_digits_bound _ _ _ _ (Z.le_refl 0)) in Ev.
  destruct (Nat.ltb_spec int_max_str_digits
              (List.length (filter is_digit (c :: ds)))) as [ | Hn];
    [ discriminate | ].
  intros H. injection H as <-.
  unfold too_long_for_str. apply Z.leb_gt.
  assert (Hp : (10 ^ Z.of_nat (List.length (filter is_digit (c :: ds)))
                <= 10 ^ Z.of_nat int_max_str_digits)%Z)
    by (apply Z.pow_le_mono_r; lia).
  destruct neg; lia.
Qed.

Lemma float_of_int_error (z : Z) (e : exn) :
  float_of_int z = Raise e -> e = OverflowError.
Proof.
  unfold float_of_int.
  destruct (z =? 0)%Z; [ congruence | ].
  match goal with |- (if ?b then _ else _) = _ -> _ => destruct b end;
    congruence.
Qed.

Lemma int_of_float_error (f : float) (e : exn) :
  int_of_float f = Raise e -> e <> ZeroDivisionError.
Proof.
  unfold int_of_float. destruct (Prim2SF f); congruence.
Qed.

Lemma float__error (x : obj) (e : exn) :
  float_ x = Raise e -> e <> ZeroDivisionError.
Proof.
  destruct x as [s | f | z]; simpl; intros H.
  - apply float_of_str_error in H. congruence.
  - congruence.
  - apply float_of_int_error in H. congruence.
Qed.

Lemma int__error (x : obj) (e : exn) :
  int_ x = Raise e -> e <> ZeroDivisionError.
Proof.
  destruct x as [s | f | z]; simpl; intros H.
  - apply int_of_str_error in H. congruence.
  - apply int_of_float_error in H. assumption.
  - congruence.
Qed.

Lemma raises_Ok (A : Type) (a : A) : ~ raises (Ok a).
Proof. intros [e H]. discriminate. Qed.

(* ===================================================================== *)
(** * The constructor *)
(* ===================================================================== *)

(** The area is a quotient by a million, and a million is not zero. *)
Lemma compute_area_mm2_eq (lx ly ux uy : float) :
  Design._compute_area_mm2 lx ly ux uy =
  Ok ((ux - lx) * (uy - ly) / 1000000)%float.
Proof. reflexivity. Qed.

Lemma compute_density_error (poly_count : Z) (area_mm2 : float) (e : exn) :
  Design._compute_density poly_count area_mm2 = Raise e ->
  e = OverflowError.
Proof.
  unfold Design._compute_density, int_truediv_float, float_truediv,
    float_eq_zero.
  destruct (PrimFloat.eqb area_mm2 zero) eqn:E; [ congruence | ].
  destruct (float_of_int poly_count) as [a | e'] eqn:Ea; cbn [bind].
  - congruence.
  - intros H. injection H as <-. apply (float_of_int_error _ _ Ea).
Qed.

(** What a successful construction did, step by step. *)
Lemma init_inv (name : str) (lx ly ux uy poly_count : obj) (md5sum : str)
    (d : Design.t) :
  Design.__init__ name lx ly ux uy poly_count md5sum = Ok d ->
  float_ lx = Ok (Design.lx d) /\ float_ ly = Ok (Design.ly d)
  /\ float_ ux = Ok (Design.ux d) /\ float_ uy = Ok (Design.uy d)
  /\ int_ poly_count = Ok (Design.poly_count d)
  /\ Design.name d = name /\ Design.md5sum d = md5sum
  /\ Design._compute_area_mm2 (Design.lx d) (Design.ly d) (Design.ux d)
       (Design.uy d) = Ok (Design.area_mm2 d)
  /\ Design._compute_density (Design.poly_count d) (Design.area_mm2 d)
     = Ok (Design.density d).
Proof.
  unfold Design.__init__.
  destruct (float_ lx) as [lx' | ]; [ | discriminate ].
  destruct (float_ ly) as [ly' | ]; [ | discriminate ].
  destruct (float_ ux) as [ux' | ]; [ | discriminate ].
  destruct (float_ uy) as [uy' | ]; [ | discriminate ].
  destruct (int_ poly_count) as [pc' | ]; [ | discriminate ].
  cbn [bind].
  destruct (Design._compute_area_mm2 lx' ly' ux' uy') as [a | ] eqn:Ea;
    [ | discriminate ].
  cbn [bind].
  destruct (Design._compute_density pc' a) as [dn | ] eqn:Ed;
    [ | discriminate ].
  cbn [bind]. intros H. injection H as <-. cbn.
  repeat split; assumption.
Qed.

(** A construction whose conversions succeed can only fail on the
    conversion of the polygon count to a float. *)
Lemma init_converted (name : str) (lx ly ux uy poly_count : obj)
    (md5sum : str) (lx' ly' ux' uy' : float) (pc' : Z) :
  float_ lx = Ok lx' -> float_ ly = Ok ly' ->
  float_ ux = Ok ux' -> float_ uy = Ok uy' -> int_ poly_count = Ok pc' ->
  Design.__init__ name lx ly ux uy poly_count md5sum =
  (let area := ((ux' - lx') * (uy' - ly') / 1000000)%float in
   density <- Design._compute_density pc' area ;;
   Ok (Design.mk name lx' ly' ux' uy' pc' md5sum area density))%py.
Proof.
  intros H1 H2 H3 H4 H5. unfold Design.__init__.
  rewrite H1, H2, H3, H4, H5. reflexivity.
Qed.

Lemma init_error (name : str) (lx ly ux uy poly_count : obj) (md5sum : str)
    (e : exn) :
  Design.__init__ name lx ly ux uy poly_count md5sum = Raise e ->
  e <> ZeroDivisionError.
Proof.
  unfold Design.__init__.
  destruct (float_ lx) as [lx' | e1] eqn:E1;
    [ | intros H; injection H as <-; apply (float__error _ _ E1) ].
  destruct (float_ ly) as [ly' | e2] eqn:E2;
    [ | intros H; injection H as <-; apply (float__error _ _ E2) ].
  destruct (float_ ux) as [ux' | e3] eqn:E3;
    [ | intros H; injection H as <-; apply (float__error _ _ E3) ].
  destruct (float_ uy) as [uy' | e4] eqn:E4;
    [ | intros H; injection H as <-; apply (float__error _ _ E4) ].
  destruct (int_ poly_count) as [pc' | e5] eqn:E5;
    [ | intros H; injection H as <-; apply (int__error _ _ E5) ].
  cbn [bind]. rewrite compute_area_mm2_eq. cbn [bind].
  destruct (Design._compute_density pc' _) as [dn | e6] eqn:E6;
    cbn [bind]; [ discriminate | ].
  intros H. injection H as <-.
  apply compute_density_error in E6. congruence.
Qed.

(** The numbers of a row are read by [float_of_str] and [int_of_str], which
    raise ValueError only. *)
Lemma init_of_tokens_error (name lx ly ux uy poly_count md5sum : str)
    (e : exn) :
  Design.__init__ name (Str lx) (Str ly) (Str ux) (Str uy) (Str poly_count)
    md5sum = Raise e ->
  (e = ValueError
   /\ (raises (float_of_str lx) \/ raises (float_of_str ly)
       \/ raises (float_of_str ux) \/ raises (float_of_str uy)
       \/ raises (int_of_str poly_count)))
  \/ e = OverflowError.
Proof.
  unfold Design.__init__. cbn [float_ int_].
  destruct (float_of_str lx) as [lx' | e1] eqn:E1.
  2:{ intros H. injection H as <-. left.
      split; [ apply (float_of_str_error _ _ E1) | ].
      left. exists e1. reflexivity. }
  destruct (float_of_str ly) as [ly' | e2] eqn:E2.
  2:{ intros H. injection H as <-. left.
      split; [ apply (float_of_str_error _ _ E2) | ].
      right; left. exists e2. reflexivity. }
  destruct (float_of_str ux) as [ux' | e3] eqn:E3.
  2:{ intros H. injection H as <-. left.
      split; [ apply (float_of_str_error _ _ E3) | ].
      right; right; left. exists e3. reflexivity. }
  destruct (float_of_str uy) as [uy' | e4] eqn:E4.
  2:{ intros H. injection H as <-. left.
      split; [ apply (float_of_str_error _ _ E4) | ].
      right; right; right; left. exists e4. reflexivity. }
  destruct (int_of_str poly_count) as [pc' | e5] eqn:E5.
  2:{ intros H. injection H as <-. left.
      split; [ apply (int_of_str_error _ _ E5) | ].
      right; right; right; right. exists e5. reflexivity. }
  cbn [bind]. rewrite compute_area_mm2_eq. cbn [bind].
  destruct (Design._compute_density pc' _) as [dn | e6] eqn:E6;
    cbn [bind]; [ discriminate | ].
  intros H. injection H as <-. right.
  apply (compute_density_error _ _ _ E6).
Qed.

(** A conversion that fails ends the construction, with its exception if
    the conversions before it succeed. *)
Lemma init_conversion_raises (name : str) (lx ly ux uy poly_count : obj)
    (md5sum : str) :
  raises (float_ lx) \/ raises (float_ ly) \/ raises (float_ ux)
  \/ raises (float_ uy) \/ raises (int_ poly_count) ->
  raises (Design.__init__ name lx ly ux uy poly_count md5sum).
Proof.
  unfold Design.__init__. intros H.
  destruct (float_ lx) as [lx' | e1]; [ | exists e1; reflexivity ].
  destruct (float_ ly) as [ly' | e2]; [ | exists e2; reflexivity ].
  destruct (float_ ux) as [ux' | e3]; [ | exists e3; reflexivity ].
  destruct (float_ uy) as [uy' | e4]; [ | exists e4; reflexivity ].
  destruct (int_ poly_count) as [pc' | e5]; [ | exists e5; reflexivity ].
  destruct H as [H | [H | [H | [H | H]]]]; apply raises_Ok in H;
    contradiction.
Qed.

Lemma init_of_tokens_parse_failure
    (name lx ly ux uy poly_count md5sum : str) :
  raises (float_of_str lx) \/ raises (float_of_str ly)
  \/ raises (float_of_str ux) \/ raises (float_of_str uy)
  \/ raises (int_of_str poly_count) ->
  Design.__init__ name (Str lx) (Str ly) (Str ux) (Str uy) (Str poly_count)
    md5sum = Raise ValueError.
Proof.
  intros H. unfold Design.__init__. cbn [float_ int_].
  destruct (float_of_str lx) as [lx' | e1] eqn:E1;
    [ | rewrite (float_of_str_error _ _ E1); reflexivity ].
  destruct (float_of_str ly) as [ly' | e2] eqn:E2;
    [ | rewrite (float_of_str_error _ _ E2); reflexivity ].
  destruct (float_of_str ux) as [ux' | e3] eqn:E3;
    [ | rewrite (float_of_str_error _ _ E3); reflexivity ].
  destruct (float_of_str uy) as [uy' | e4] eqn:E4;
    [ | rewrite (float_of_str_error _ _ E4); reflexivity ].
  destruct (int_of_str poly_count) as [pc' | e5] eqn:E5;
    [ | rewrite (int_of_str_error _ _ E5); reflexivity ].
  destruct H as [H | [H | [H | [H | H]]]]; apply raises_Ok in H;
    contradiction.
Qed.

(** The derived fields of a constructed design are those of its fields. *)
Lemma constructed_same_fields (d1 d2 : Design.t) :
  constructed d1 -> constructed d2 -> same_fields d1 d2 -> d1 = d2.
Proof.
  intros (n1 & a1 & b1 & c1 & e1 & p1 & m1 & H1)
         (n2 & a2 & b2 & c2 & e2 & p2 & m2 & H2)
         (Fn & Fa & Fb & Fc & Fe & Fp & Fm).
  apply init_inv in H1, H2.
  destruct H1 as (_ & _ & _ & _ & _ & _ & _ & A1 & D1).
  destruct H2 as (_ & _ & _ & _ & _ & _ & _ & A2 & D2).
  destruct d1 as [n1' x1 y1 u1 v1 k1 s1 ar1 de1].
  destruct d2 as [n2' x2 y2 u2 v2 k2 s2 ar2 de2].
  simpl in *. subst.
  assert (ar1 = ar2) by congruence. subst.
  assert (de1 = de2) by congruence. subst.
  reflexivity.
Qed.

(* ===================================================================== *)
(** * The loader *)
(* ===================================================================== *)

Lemma load_line_skip (library : Library.t) (l : str) :
  List.length (split (strip l)) <> 7%nat -> load_line library l = Ok library.
Proof.
  intros H. unfold load_line.
  destruct (Nat.eqb_spec (List.length (split (strip l))) 7); [ lia | ].
  reflexivity.
Qed.

Lemma load_line_row (library : Library.t) (l : str)
    (name lx ly ux uy poly_count md5sum : str) :
  split (strip l) = [name; lx; ly; ux; uy; poly_count; md5sum] ->
  load_line library l =
  (design <- Design.__init__ name (Str lx) (Str ly) (Str ux) (Str uy)
               (Str poly_count) md5sum ;;
   Ok (Library.add_design library design))%py.
Proof. intros H. unfold load_line. rewrite H. reflexivity. Qed.

Lemma load_app (before after : list str) (library : Library.t) :
  load library (before ++ after) =
  (library' <- load library before ;; load library' after)%py.
Proof.
  revert library. induction before as [ | l before IH]; intros library.
  - reflexivity.
  - simpl. destruct (load_line library l) as [library' | e];
      [ apply IH | reflexivity ].
Qed.

(** The first line of a text ends at its first newline. *)
Lemma lines_from_first (first cur body : str) :
  Forall (fun c => c <> 0x0A%N /\ c <> 0x0D%N) first ->
  lines_from cur false (first ++ 0x0A%N :: body)
  = (rev cur ++ first ++ [0x0A%N]) :: lines_from [] false body.
Proof.
  revert cur. induction first as [ | c first IH]; intros cur H.
  - reflexivity.
  - apply Forall_cons_iff in H. destruct H as [[H1 H2] H].
    simpl. apply N.eqb_neq in H1, H2. rewrite H1, H2.
    rewrite (IH (c :: cur) H). simpl. rewrite <- app_assoc. reflexivity.
Qed.

Lemma readlines_first (first body : str) :
  Forall (fun c => c <> 0x0A%N /\ c <> 0x0D%N) first ->
  readlines (first ++ [0x0A%N] ++ body)
  = (first ++ [0x0A%N]) :: readlines body.
Proof. intros H. apply (lines_from_first first [] body H). Qed.

Lemma load_line_extends (self library : Library.t) (l : str) :
  load_line self l = Ok library ->
  exists added, Library.designs library = Library.designs self ++ added.
Proof.
  unfold load_line. intros E.
  destruct (negb _).
  - injection E as <-. exists []. symmetry. apply app_nil_r.
  - destruct (split (strip l)) as [ | a [ | b [ | c [ | d [ | e
      [ | f [ | g [ | ? ?]]]]]]]]; try discriminate.
    destruct (Design.__init__ _ _ _ _ _ _ _) as [dn | ];
      [ | discriminate ].
    cbn [bind] in E. injection E as <-. exists [dn]. reflexivity.
Qed.

Lemma load_extends (file : list str) (self library : Library.t) :
  load self file = Ok library ->
  exists added, Library.designs library = Library.designs self ++ added.
Proof.
  revert self. induction file as [ | l file IH]; intros self H.
  - simpl in H. injection H as <-. exists []. symmetry. apply app_nil_r.
  - simpl in H. destruct (load_line self l) as [self' | ] eqn:E;
      [ | discriminate ].
    cbn [bind] in H. apply IH in H. destruct H as [added2 H2].
    apply load_line_extends in E. destruct E as [added1 H1].
    exists (added1 ++ added2). rewrite H2, H1, app_assoc. reflexivity.
Qed.

(** The loader stores constructed designs only. *)
Lemma load_line_constructed (library library' : Library.t) (l : str) :
  Forall constructed (Library.designs library) ->
  load_line library l = Ok library' ->
  Forall constructed (Library.designs library').
Proof.
  intros HF. unfold load_line.
  destruct (negb _); [ intros E; injection E as <-; exact HF | ].
  destruct (split (strip l)) as [ | a [ | b [ | c [ | d [ | e
    [ | f [ | g [ | ? ?]]]]]]]]; try discriminate.
  destruct (Design.__init__ _ _ _ _ _ _ _) as [dn | ] eqn:Ed;
    [ | discriminate ].
  cbn [bind]. intros E. injection E as <-. simpl.
  rewrite Forall_app. split; [ exact HF | ].
  constructor; [ | constructor ].
  exists a, (Str b), (Str c), (Str d), (Str e), (Str f), g. exact Ed.
Qed.

Lemma load_constructed (file : list str) (library library' : Library.t) :
  Forall constructed (Library.designs library) ->
  load library file = Ok library' ->
  Forall constructed (Library.designs library').
Proof.
  revert library. induction file as [ | l file IH]; intros library HF H.
  - simpl in H. injection H as <-. exact HF.
  - simpl in H. destruct (load_line library l) as [library1 | ] eqn:E;
      [ | discriminate ].
    cbn [bind] in H. apply (IH library1); [ | exact H ].
    apply (load_line_constructed library library1 l HF E).
Qed.

(* ===================================================================== *)
(** * The report *)
(* ===================================================================== *)

Lemma row_printable (d : Design.t) :
  printable d = true -> Library.row d = Ok (row_text d).
Proof.
  unfold printable, row_text, Library.row, format_d. intros H.
  apply Bool.negb_true_iff in H. rewrite H. reflexivity.
Qed.

Lemma row_not_printable (d : Design.t) :
  printable d = false -> Library.row d = Raise ValueError.
Proof.
  unfold printable, Library.row, format_d. intros H.
  apply Bool.negb_false_iff in H. rewrite H. reflexivity.
Qed.

Lemma printed_all (rows : list Design.t) :
  all_printable rows ->
  printed rows = rows /\ report_end rows = Ok tt.
Proof.
  unfold report_end. induction 1 as [ | d rows Hd Hr [IH1 IH2]];
    [ split; reflexivity | ].
  simpl. rewrite Hd, IH1. simpl. split; [ reflexivity | exact IH2 ].
Qed.

(** The loop prints the rows above the first one that cannot be printed,
    and raises at that one. *)
Lemma print_each_text (rows : list Design.t) (stdout : str) :
  Library.print_each rows stdout
  = (stdout ++ rows_text (printed rows), report_end rows).
Proof.
  unfold report_end. revert stdout.
  induction rows as [ | d rows IH]; intros stdout; simpl.
  - rewrite app_nil_r. reflexivity.
  - destruct (printable d) eqn:Hd.
    + rewrite (row_printable d Hd), IH. unfold print, rows_text. simpl.
      rewrite <- !app_assoc. reflexivity.
    + rewrite (row_not_printable d Hd). simpl. rewrite app_nil_r.
      reflexivity.
Qed.

Lemma print_by_density_text (self : Library.t) (stdout : str) :
  snd (Library.print_by_density self stdout)
  = (stdout ++ Library.header ++ [0x0A%N]
     ++ rows_text (printed (Library.sorted_designs self)),
     report_end (Library.sorted_designs self)).
Proof.
  unfold Library.print_by_density. cbn [snd].
  rewrite print_each_text. unfold print. rewrite <- !app_assoc. reflexivity.
Qed.

Lemma sorted_designs_perm (self : Library.t) :
  Permutation (Library.sorted_designs self) (Library.designs self).
Proof. apply sorted_perm. Qed.

(** Without NaN the designs come out from the densest to the least dense,
    those of one density in the order of the library. *)
Lemma sorted_designs_spec (self : Library.t) :
  no_nan_density (Library.designs self) ->
  StronglySorted
    (fun x y => float_lt (Design.density x) (Design.density y) = false)
    (Library.sorted_designs self)
  /\ same_order_among_equals (Library.designs self)
       (Library.sorted_designs self).
Proof.
  intros HP. unfold Library.sorted_designs, sorted.
  set (lt := fun x y => float_lt (Design.density x) (Design.density y)).
  assert (Hrev : Forall (fun d => is_nan (Design.density d) = false)
                   (rev (Library.designs self)))
    by apply Forall_rev, HP.
  split.
  - destruct (list_sort_spec Design.t lt
                (fun d => is_nan (Design.density d) = false)
                (fun x y => float_lt_asym _ _)
                (fun x y z => float_lt_trans _ _ _)
                (fun x y z => float_not_lt_trans _ _ _)
                (fun _ => false) (fun x y H => False_ind _ (diff_false_true H))
                (rev (Library.designs self)) Hrev) as [Hs _].
    apply StronglySorted_rev in Hs. exact Hs.
  - intros k. unfold of_density.
    set (c := fun d => PrimFloat.eqb k (Design.density d)).
    destruct (list_sort_spec Design.t lt
                (fun d => is_nan (Design.density d) = false)
                (fun x y => float_lt_asym _ _)
                (fun x y z => float_lt_trans _ _ _)
                (fun x y z => float_not_lt_trans _ _ _)
                c (fun x y => float_eqb_not_lt k _ _)
                (rev (Library.designs self)) Hrev) as [_ Hf].
    rewrite filter_rev, Hf, filter_rev, rev_involutive. reflexivity.
Qed.

Lemma sorted_designs_descending (self : Library.t) :
  no_nan_density (Library.designs self) ->
  descending_by_density (Library.sorted_designs self).
Proof.
  intros HP. destruct (sorted_designs_spec self HP) as [Hs _].
  assert (HQ : no_nan_density (Library.sorted_designs self)).
  { unfold no_nan_density in *. rewrite Forall_forall in *.
    intros d Hd. apply HP.
    apply (Permutation_in _ (sorted_designs_perm self) Hd). }
  unfold no_nan_density in HQ. rewrite Forall_forall in HQ.
  intros i d d' Hi Hi'.
  apply float_not_lt_ge.
  - apply HQ. eapply nth_error_In, Hi.
  - apply HQ. eapply nth_error_In, Hi'.
  - apply (StronglySorted_nth _ _ _ i (S i) d d' Hs); [ lia | assumption.. ].
Qed.

(* ===================================================================== *)
(** * The sample files, run *)
(* ===================================================================== *)

Example sample_text_loads :
  load Library.__init__ (tl (readlines sample_text)) = Ok sample_library.
Proof. vm_compute. reflexivity. Qed.

Example nan_text_loads :
  load Library.__init__ (tl (readlines nan_text)) = Ok nan_library.
Proof. vm_compute. reflexivity. Qed.

Example sample_report :
  main sample_text [] =
  (Library.header ++ [0x0A%N]
   ++ lit "design_a   density=500.000000 poly/mm" ++ [0xB2%N]
   ++ lit "   area=        1.00 mm" ++ [0xB2%N]
   ++ line "   polys=   500"
   ++ lit "design_b   density=200.000000 poly/mm" ++ [0xB2%N]
   ++ lit "   area=        1.00 mm" ++ [0xB2%N]
   ++ line "   polys=   200"
   ++ lit "design_c   density=  0.000000 poly/mm" ++ [0xB2%N]
   ++ lit "   area=        0.00 mm" ++ [0xB2%N]
   ++ line "   polys=    10",
   Ok tt).
Proof. vm_compute. reflexivity. Qed.

(** A count of 4301 digits ends the report at its row. *)
Example long_count_ends_report :
  Design.__init__ (lit "design_g") (Str (lit "0")) (Str (lit "0"))
    (Str (lit "0")) (Str (lit "0")) (Int (10 ^ 4300)) (lit "abc123")
  = Ok design_g
  /\ Library.sorted_designs long_count_library
     = [design_a; design_g; design_c]
  /\ snd (Library.print_by_density long_count_library [])
     = (Library.header ++ [0x0A%N]
        ++ lit "design_a   density=500.000000 poly/mm" ++ [0xB2%N]
        ++ lit "   area=        1.00 mm" ++ [0xB2%N]
        ++ line "   polys=   500",
        Raise ValueError).
Proof. repeat split; vm_compute; reflexivity. Qed.

(* ===================================================================== *)
(** * Splitting a line *)
(* ===================================================================== *)

Lemma split_from_nil (cur : str) : split_from cur [] = flush cur.
Proof. destruct cur; reflexivity. Qed.

Lemma split_from_space (cur : str) (c : char) (s : str) :
  isspace c = true -> split_from cur (c :: s) = flush cur ++ split_from [] s.
Proof. intros H. simpl. rewrite H. destruct cur; reflexivity. Qed.

Lemma split_from_other (cur : str) (c : char) (s : str) :
  isspace c = false -> split_from cur (c :: s) = split_from (c :: cur) s.
Proof. intros H. simpl. rewrite H. reflexivity. Qed.

Lemma split_from_whitespace (ws s : str) :
  whitespace ws -> split_from [] (ws ++ s) = split_from [] s.
Proof.
  induction 1 as [ | c ws Hc _ IH]; [ reflexivity | ].
  simpl app. rewrite (split_from_space [] c _ Hc). exact IH.
Qed.

Lemma split_from_run (t cur s : str) :
  Forall (fun c => isspace c = false) t ->
  split_from cur (t ++ s) = split_from (rev t ++ cur) s.
Proof.
  intros H. revert cur. induction H as [ | c t Hc _ IH]; intros cur.
  - reflexivity.
  - simpl app. rewrite (split_from_other cur c _ Hc), IH.
    simpl rev. rewrite <- app_assoc. reflexivity.
Qed.

Lemma split_from_spaced_token (p : str * str) (s : str) :
  spaced_token p ->
  split_from [] ((fst p ++ snd p) ++ s) = fst p :: split_from [] s.
Proof.
  destruct p as [t ws]. intros ([Hne Ht] & Hws & Hw). simpl fst in *.
  simpl snd in *. rewrite <- app_assoc, (split_from_run t [] _ Ht).
  rewrite app_nil_r.
  destruct ws as [ | c ws]; [ congruence | ].
  apply Forall_cons_iff in Hws. destruct Hws as [Hc Hws].
  simpl app. rewrite (split_from_space _ c _ Hc).
  rewrite (split_from_whitespace ws s Hws).
  unfold flush. destruct (rev t) eqn:E.
  - apply (f_equal (@rev char)) in E. rewrite rev_involutive in E.
    simpl in E. congruence.
  - rewrite <- E, rev_involutive. reflexivity.
Qed.

Lemma split_spaced (parts : list (str * str)) (s : str) :
  Forall spaced_token parts ->
  split (spaced parts ++ s) = map fst parts ++ split s.
Proof.
  unfold split, spaced. induction 1 as [ | p parts Hp _ IH].
  - reflexivity.
  - simpl. rewrite <- app_assoc.
    rewrite (split_from_spaced_token p _ Hp), IH. reflexivity.
Qed.

Lemma split_token (t : str) : token t -> split t = [t].
Proof.
  intros [Hne Ht]. unfold split.
  rewrite <- (app_nil_r t) at 1. rewrite (split_from_run t [] [] Ht).
  rewrite app_nil_r, split_from_nil. unfold flush.
  destruct (rev t) eqn:E.
  - apply (f_equal (@rev char)) in E. rewrite rev_involutive in E.
    simpl in E. congruence.
  - rewrite <- E, rev_involutive. reflexivity.
Qed.

(** Every string that [split] yields is a token. *)
Lemma split_from_tokens (s cur : str) :
  Forall (fun c => isspace c = false) cur ->
  Forall token (split_from cur s).
Proof.
  revert cur. induction s as [ | c s IH]; intros cur Hcur.
  - rewrite split_from_nil. destruct cur as [ | a cur]; constructor;
      [ | constructor ].
    split.
    + intros E. apply (f_equal (@List.length char)) in E.
      rewrite length_rev in E. discriminate.
    + apply Forall_rev, Hcur.
  - destruct (isspace c) eqn:Hc.
    + rewrite (split_from_space cur c s Hc). rewrite Forall_app. split.
      * destruct cur as [ | a cur]; constructor; [ | constructor ].
        split.
        -- intros E. apply (f_equal (@List.length char)) in E.
           rewrite length_rev in E. discriminate.
        -- apply Forall_rev, Hcur.
      * apply IH. constructor.
    + rewrite (split_from_other cur c s Hc). apply IH.
      constructor; assumption.
Qed.

Lemma split_tokens (s : str) : Forall token (split s).
Proof. apply split_from_tokens. constructor. Qed.

(** Whitespace at either end changes nothing. *)
Lemma split_from_trailing (s cur ws : str) :
  whitespace ws -> split_from cur (s ++ ws) = split_from cur s.
Proof.
  intros Hws. revert cur. induction s as [ | c s IH]; intros cur.
  - simpl app. rewrite split_from_nil.
    destruct ws as [ | w ws]; [ apply split_from_nil | ].
    apply Forall_cons_iff in Hws. destruct Hws as [Hw Hws].
    rewrite (split_from_space cur w ws Hw).
    rewrite <- (app_nil_r ws), (split_from_whitespace ws [] Hws).
    simpl. apply app_nil_r.
  - simpl app. destruct (isspace c) eqn:Hc.
    + rewrite !(split_from_space cur c _ Hc), IH. reflexivity.
    + rewrite !(split_from_other cur c _ Hc). apply IH.
Qed.

Lemma lstrip_whitespace (s : str) :
  exists ws, whitespace ws /\ s = ws ++ lstrip isspace s.
Proof.
  induction s as [ | c s (ws & Hws & E)].
  - exists []. split; [ constructor | reflexivity ].
  - simpl. destruct (isspace c) eqn:Hc.
    + exists (c :: ws). split; [ constructor; assumption | ].
      simpl. rewrite <- E. reflexivity.
    + exists []. split; [ constructor | reflexivity ].
Qed.

Lemma rstrip_whitespace (s : str) :
  exists ws, whitespace ws /\ s = rstrip isspace s ++ ws.
Proof.
  destruct (lstrip_whitespace (rev s)) as (ws & Hws & E).
  exists (rev ws). split; [ apply Forall_rev, Hws | ].
  unfold rstrip. rewrite <- rev_app_distr, <- E, rev_involutive.
  reflexivity.
Qed.

Lemma split_strip (s : str) : split (strip s) = split s.
Proof.
  unfold strip, split.
  destruct (lstrip_whitespace s) as (ws1 & H1 & E1).
  destruct (rstrip_whitespace (lstrip isspace s)) as (ws2 & H2 & E2).
  rewrite E1 at 2. rewrite (split_from_whitespace ws1 _ H1).
  rewrite E2 at 2. rewrite (split_from_trailing _ [] ws2 H2). reflexivity.
Qed.

(* ===================================================================== *)
(** * The loader, line by line *)
(* ===================================================================== *)

Lemma row_tokens_split (l : str) : row_tokens l = split l.
Proof. apply split_strip. Qed.

Lemma split_ends (l ws1 ws2 : str) :
  whitespace ws1 -> whitespace ws2 -> split (ws1 ++ l ++ ws2) = split l.
Proof.
  intros H1 H2. unfold split.
  rewrite (split_from_whitespace ws1 _ H1).
  apply (split_from_trailing l [] ws2 H2).
Qed.

(** The loop body looks at the tokens of the line only. *)
Lemma load_line_tokens (library : Library.t) (l1 l2 : str) :
  row_tokens l1 = row_tokens l2 ->
  load_line library l1 = load_line library l2.
Proof.
  unfold row_tokens, load_line. intros E. rewrite E. reflexivity.
Qed.

(** What the loop body does with a line: nothing, or one design more, of
    the first and last token of the line. *)
Lemma load_line_cases (library library' : Library.t) (l : str) :
  load_line library l = Ok library' ->
  (is_row l = false /\ library' = library)
  \/ (is_row l = true
      /\ exists name lx ly ux uy poly_count md5sum d,
           row_tokens l = [name; lx; ly; ux; uy; poly_count; md5sum]
           /\ Design.__init__ name (Str lx) (Str ly) (Str ux) (Str uy)
                (Str poly_count) md5sum = Ok d
           /\ library' = Library.add_design library d).
Proof.
  unfold load_line, is_row, row_tokens.
  destruct (Nat.eqb (List.length (split (strip l))) 7) eqn:E; simpl negb;
    cbv iota.
  - intros H. right. split; [ reflexivity | ].
    destruct (split (strip l)) as [ | a [ | b [ | c [ | d [ | e
      [ | f [ | g [ | ? ?]]]]]]]]; try discriminate.
    destruct (Design.__init__ a (Str b) (Str c) (Str d) (Str e) (Str f) g)
      as [dn | ] eqn:Ed; [ | discriminate ].
    cbn [bind] in H. injection H as <-.
    exists a, b, c, d, e, f, g, dn. repeat split. exact Ed.
  - intros H. injection H as <-. left. split; reflexivity.
Qed.

Lemma load_line_raises (library : Library.t) (l : str) (e : exn) :
  load_line library l = Raise e ->
  is_row l = true
  /\ exists name lx ly ux uy poly_count md5sum,
       row_tokens l = [name; lx; ly; ux; uy; poly_count; md5sum]
       /\ Design.__init__ name (Str lx) (Str ly) (Str ux) (Str uy)
            (Str poly_count) md5sum = Raise e.
Proof.
  unfold load_line, is_row, row_tokens.
  destruct (Nat.eqb (List.length (split (strip l))) 7) eqn:E; simpl negb;
    cbv iota; [ | discriminate ].
  intros H. split; [ reflexivity | ].
  destruct (split (strip l)) as [ | a [ | b [ | c [ | d [ | f
    [ | g [ | h [ | ? ?]]]]]]]]; try discriminate.
  destruct (Design.__init__ a (Str b) (Str c) (Str d) (Str f) (Str g) h)
    as [dn | e'] eqn:Ed; [ discriminate | ].
  cbn [bind] in H. injection H as <-.
  exists a, b, c, d, f, g, h. split; [ reflexivity | exact Ed ].
Qed.

(* ===================================================================== *)
(** * NaN and zeros in the constructor *)
(* ===================================================================== *)

Lemma signed_opp (s : bool) (x : spec_float) :
  signed s x -> signed (negb s) (SFopp x).
Proof. intros H. destruct H; simpl; constructor. Qed.

(** An integer that converts, converts to a number or to zero. *)
Lemma float_of_int_signed (z : Z) (n : float) :
  float_of_int z = Ok n ->
  exists s, signed s (Prim2SF n) /\ forall s', Prim2SF n <> S754_infinity s'.
Proof.
  unfold float_of_int. destruct (Z.eqb_spec z 0).
  - intros H. injection H as <-. exists false.
    change (Prim2SF zero) with (S754_zero false).
    split; [ constructor | discriminate ].
  - match goal with
    | |- (if is_infinity ?f then _ else _) = _ -> _ =>
        destruct (is_infinity f) eqn:E; [ discriminate | ];
        pose proof (ldexp_signed _ _ _ (of_uint63_signed _)
                    : signed false (Prim2SF f)) as Hs;
        pose proof (is_infinity_false _ E) as Hi
    end.
    destruct (z <? 0)%Z; intros Hok; injection Hok as <-.
    + exists true. rewrite opp_spec. split.
      * apply (signed_opp _ _ Hs).
      * intros s' E'. destruct Hs; simpl in E'; try discriminate.
        eapply Hi. reflexivity.
    + exists false. split; assumption.
Qed.

Lemma SFdiv_nan_r (x : spec_float) : SFdiv prec emax x S754_nan = S754_nan.
Proof. destruct x; reflexivity. Qed.

Lemma float_eq_zero_false (a : float) :
  float_eq_zero a = false -> forall s, Prim2SF a <> S754_zero s.
Proof.
  unfold float_eq_zero. rewrite eqb_spec.
  change (Prim2SF zero) with (S754_zero false).
  intros H s E. rewrite E in H. discriminate.
Qed.

Lemma float_eq_zero_true (a : float) (s : bool) :
  Prim2SF a = S754_zero s -> float_eq_zero a = true.
Proof.
  intros E. unfold float_eq_zero. rewrite eqb_spec, E. reflexivity.
Qed.

Lemma signed_not_nan (s : bool) (x : spec_float) :
  signed s x -> x <> S754_nan.
Proof. intros H. destruct H; discriminate. Qed.

(** A quotient of a finite number by a number that is not zero is NaN
    only if the divisor is. *)
Lemma div_is_nan (q a : float) (s : bool) :
  signed s (Prim2SF q) -> (forall s', Prim2SF q <> S754_infinity s') ->
  float_eq_zero a = false ->
  is_nan (q / a) = is_nan a.
Proof.
  intros Hq Ni Hz. pose proof (float_eq_zero_false a Hz) as Nz.
  destruct (is_nan a) eqn:Ea.
  - apply is_nan_true in Ea. apply is_nan_true.
    rewrite div_spec, Ea. apply SFdiv_nan_r.
  - apply is_nan_false in Ea. apply is_nan_false. rewrite div_spec.
    assert (Ha : exists sa, signed sa (Prim2SF a)).
    { destruct (Prim2SF a) as [sa | sa | | sa m e] eqn:E; try congruence;
        exists sa; constructor. }
    destruct Ha as [sa Ha].
    apply (signed_not_nan (xorb s sa)).
    apply SFdiv_signed; assumption.
Qed.

Lemma is_finite_cases (x : float) :
  is_finite x = true ->
  (exists s, Prim2SF x = S754_zero s)
  \/ (exists s m e, Prim2SF x = S754_finite s m e).
Proof.
  unfold is_finite. intros H. apply negb_true_iff, orb_false_iff in H.
  destruct H as [Hn Hi].
  change (PrimFloat.is_nan x) with (is_nan x) in Hn.
  apply is_nan_false in Hn. pose proof (is_infinity_false x Hi) as Ni.
  destruct (Prim2SF x) as [s | s | | s m e]; try congruence.
  - left. exists s. reflexivity.
  - right. exists s, m, e. reflexivity.
Qed.

(** A finite number minus itself is zero. *)
Lemma sub_self (x : float) :
  is_finite x = true -> Prim2SF (x - x) = S754_zero false.
Proof.
  intros H. rewrite sub_spec.
  destruct (is_finite_cases x H) as [[s ->] | (s & m & e & ->)].
  - destruct s; reflexivity.
  - unfold SF64sub, SFsub. rewrite Z.sub_diag. reflexivity.
Qed.

Lemma mul_zero_l (z w : float) (s : bool) :
  Prim2SF z = S754_zero s -> is_finite w = true ->
  exists s', Prim2SF (z * w) = S754_zero s'.
Proof.
  intros Ez Hw. rewrite mul_spec, Ez.
  destruct (is_finite_cases w Hw) as [[sw ->] | (sw & m & e & ->)];
    eexists; reflexivity.
Qed.

Lemma mul_zero_r (w z : float) (s : bool) :
  Prim2SF z = S754_zero s -> is_finite w = true ->
  exists s', Prim2SF (w * z) = S754_zero s'.
Proof.
  intros Ez Hw. rewrite mul_spec, Ez.
  destruct (is_finite_cases w Hw) as [[sw ->] | (sw & m & e & ->)];
    eexists; reflexivity.
Qed.

Lemma div_zero_million (z : float) (s : bool) :
  Prim2SF z = S754_zero s ->
  exists s', Prim2SF (z / 1000000) = S754_zero s'.
Proof.
  intros Ez. rewrite div_spec, Ez.
  destruct (Prim2SF 1000000) as [ | | | sm m e] eqn:E;
    vm_compute in E; try discriminate.
  eexists. reflexivity.
Qed.

(* ===================================================================== *)
(** * Lists that are one run *)
(* ===================================================================== *)

Lemma Sorted_snoc (A : Type) (R : A -> A -> Prop) (l : list A) (a x : A) :
  Sorted R (l ++ [a]) -> R a x -> Sorted R ((l ++ [a]) ++ [x]).
Proof.
  intros H Hr. induction l as [ | b l IH]; simpl in *.
  - repeat constructor. exact Hr.
  - apply Sorted_inv in H. destruct H as [Hs Hh].
    constructor; [ apply IH, Hs | ].
    destruct l; simpl in *; apply HdRel_inv in Hh; constructor; exact Hh.
Qed.

Lemma Sorted_rev (A : Type) (R : A -> A -> Prop) (l : list A) :
  Sorted R l -> Sorted (fun x y => R y x) (rev l).
Proof.
  induction 1 as [ | a l Hs IH Hh]; [ constructor | ].
  destruct l as [ | b l]; [ repeat constructor | ].
  apply HdRel_inv in Hh. simpl in *. apply Sorted_snoc; assumption.
Qed.

Section Runs.

Variable A : Type.
Variable lt : A -> A -> bool.

Lemma run_length_whole (descending : bool) (prev : A) (l : list A) :
  Sorted (fun a b => lt b a = descending) (prev :: l) ->
  run_length lt descending prev l = List.length l.
Proof.
  revert prev. induction l as [ | x l IH]; intros prev H; [ reflexivity | ].
  apply Sorted_inv in H. destruct H as [Hs Hh]. apply HdRel_inv in Hh.
  simpl. rewrite Hh, Bool.eqb_reflx. f_equal. apply IH, Hs.
Qed.

Lemma count_run_whole (descending : bool) (x y : A) (l : list A) :
  Sorted (fun a b => lt b a = descending) (x :: y :: l) ->
  count_run lt (x :: y :: l) = (List.length (x :: y :: l), descending).
Proof.
  intros H. apply Sorted_inv in H. destruct H as [Hs Hh].
  apply HdRel_inv in Hh. unfold count_run. rewrite Hh.
  rewrite (run_length_whole descending y l Hs). reflexivity.
Qed.

(** A list that nowhere descends is left as it is. *)
Lemma list_sort_ordered (l : list A) :
  Sorted (fun a b => lt b a = false) l -> list_sort lt l = l.
Proof.
  intros H. destruct l as [ | x [ | y l]]; [ reflexivity.. | ].
  unfold list_sort. rewrite (count_run_whole false x y l H).
  rewrite firstn_all, skipn_all. reflexivity.
Qed.

(** A list that descends everywhere is reversed. *)
Lemma list_sort_reversed (l : list A) :
  Sorted (fun a b => lt b a = true) l -> list_sort lt l = rev l.
Proof.
  intros H. destruct l as [ | x [ | y l]]; [ reflexivity.. | ].
  unfold list_sort. rewrite (count_run_whole true x y l H).
  rewrite firstn_all, skipn_all. reflexivity.
Qed.

End Runs.

Lemma sorted_designs_ordered (self : Library.t) :
  no_ascent (Library.designs self) ->
  Library.sorted_designs self = Library.designs self.
Proof.
  intros H. unfold Library.sorted_designs, sorted.
  apply Sorted_rev in H.
  rewrite (list_sort_ordered Design.t _ _ H). apply rev_involutive.
Qed.

(* ===================================================================== *)
(** * The newlines of the report *)
(* ===================================================================== *)

Lemma newlines_app (s t : str) :
  newlines (s ++ t) = (newlines s + newlines t)%nat.
Proof. apply count_occ_app. Qed.

Lemma newlines_none (s : str) :
  Forall (fun c => c <> 0x0A%N) s <-> newlines s = 0%nat.
Proof.
  unfold newlines. rewrite <- count_occ_not_In, Forall_forall. split.
  - intros H Hi. apply (H _ Hi). reflexivity.
  - intros H c Hc ->. apply H, Hc.
Qed.

Lemma newlines_checked (s : str) :
  forallb (fun c => negb (c =? 0x0A)%N) s = true -> newlines s = 0%nat.
Proof.
  intros H. apply newlines_none, Forall_forall. intros c Hc.
  rewrite forallb_forall in H. specialize (H c Hc).
  apply Bool.negb_true_iff, N.eqb_neq in H. exact H.
Qed.

Lemma newlines_repeat (c : char) (n : nat) :
  c <> 0x0A%N -> newlines (repeat c n) = 0%nat.
Proof.
  intros H. apply newlines_none, Forall_forall. intros x Hx.
  apply repeat_spec in Hx. subst x. exact H.
Qed.

Lemma newlines_tl (s : str) : newlines s = 0%nat -> newlines (tl s) = 0%nat.
Proof.
  rewrite <- !newlines_none. destruct s; [ trivial | ].
  apply Forall_inv_tail.
Qed.

Lemma newlines_uint_str (u : Decimal.uint) : newlines (uint_str u) = 0%nat.
Proof.
  apply newlines_none.
  induction u; simpl; constructor; try assumption; discriminate.
Qed.

Lemma newlines_abs_str (z : Z) : newlines (abs_str z) = 0%nat.
Proof. destruct z; simpl; [ reflexivity | apply newlines_uint_str.. ]. Qed.

Lemma newlines_minus_if (neg : bool) (s : str) :
  newlines (minus_if neg s) = newlines s.
Proof. destruct neg; reflexivity. Qed.

Lemma newlines_ljust (width : nat) (s : str) :
  newlines (ljust width s) = newlines s.
Proof.
  unfold ljust, padding. rewrite newlines_app, newlines_repeat; [ lia | ].
  discriminate.
Qed.

Lemma newlines_rjust (width : nat) (s : str) :
  newlines (rjust width s) = newlines s.
Proof.
  unfold rjust, padding. rewrite newlines_app, newlines_repeat; [ lia | ].
  discriminate.
Qed.

Lemma newlines_fixed_digits (prec : nat) (m e : Z) :
  newlines (fixed_digits prec m e) = 0%nat.
Proof.
  unfold fixed_digits. cbv zeta. rewrite newlines_app, newlines_abs_str.
  destruct prec; [ reflexivity | ].
  change (newlines (?c :: ?s)) with (newlines ([c] ++ s)).
  rewrite newlines_app, newlines_tl; [ reflexivity | ].
  apply newlines_abs_str.
Qed.

Lemma newlines_fixed (prec : nat) (x : float) : newlines (fixed prec x) = 0%nat.
Proof.
  unfold fixed. destruct (Prim2SF x) as [s | s | | s m e];
    rewrite ?newlines_minus_if; try apply newlines_fixed_digits; reflexivity.
Qed.

(** A row holds the newlines of the name and no other. *)
Lemma newlines_row (d : Design.t) :
  newlines (row_text d)
  = if printable d then newlines (Design.name d) else 0%nat.
Proof.
  unfold row_text, printable, Library.row, format_d.
  destruct (too_long_for_str (Design.poly_count d)); [ reflexivity | ].
  cbn [bind negb]. unfold format_s, format_f, int_str.
  rewrite !newlines_app, newlines_ljust, !newlines_rjust, !newlines_fixed,
    newlines_minus_if, newlines_abs_str.
  rewrite !(newlines_checked (lit _)), !(newlines_checked [_])
    by reflexivity.
  lia.
Qed.

Lemma newlines_rows_text (rows : list Design.t) :
  Forall (fun d => newlines (Design.name d) = 0%nat) rows ->
  newlines (rows_text rows) = List.length rows.
Proof.
  induction 1 as [ | d rows Hd Hr IH]; [ reflexivity | ].
  unfold rows_text in *. simpl. rewrite !newlines_app, IH, newlines_row, Hd.
  destruct (printable d); reflexivity.
Qed.

Lemma token_one_line (t : str) : token t -> newlines t = 0%nat.
Proof.
  intros [_ H]. apply newlines_none. revert H. apply Forall_impl.
  intros c Hc ->. discriminate.
Qed.

(** What holds of every design that the constructor makes of the tokens of
    a line holds of the designs that the loader adds. *)
Lemma load_forall (Q : Design.t -> Prop) (file : list str)
    (library library' : Library.t) :
  (forall l name lx ly ux uy poly_count md5sum d,
     row_tokens l = [name; lx; ly; ux; uy; poly_count; md5sum] ->
     Design.__init__ name (Str lx) (Str ly) (Str ux) (Str uy)
       (Str poly_count) md5sum = Ok d -> Q d) ->
  Forall Q (Library.designs library) ->
  load library file = Ok library' ->
  Forall Q (Library.designs library').
Proof.
  intros HQ. revert library. induction file as [ | l file IH];
    intros library HF H.
  - simpl in H. injection H as <-. exact HF.
  - simpl in H. destruct (load_line library l) as [library1 | ] eqn:El;
      [ | discriminate ].
    cbn [bind] in H. apply (IH library1); [ | exact H ].
    destruct (load_line_cases _ _ _ El)
      as [[Hr ->] | (Hr & n & a & b & c & d & p & m & dn & Ht & Hd & ->)];
      [ exact HF | ].
    simpl. rewrite Forall_app. split; [ exact HF | ].
    constructor; [ | constructor ].
    apply (HQ l n a b c d p m dn Ht Hd).
Qed.

Lemma load_length (file : list str) (library library' : Library.t) :
  load library file = Ok library' ->
  List.length (Library.designs library')
  = (List.length (Library.designs library)
     + List.length (filter is_row file))%nat.
Proof.
  revert library. induction file as [ | l file IH]; intros library H.
  - simpl in H. injection H as <-. simpl. lia.
  - simpl in H. destruct (load_line library l) as [library1 | ] eqn:El;
      [ | discriminate ].
    cbn [bind] in H. apply IH in H. rewrite H.
    destruct (load_line_cases _ _ _ El)
      as [[Hr ->] | (Hr & n & a & b & c & d & p & m & dn & Ht & Hd & ->)];
      simpl filter; rewrite Hr; [ reflexivity | ].
    simpl. rewrite length_app. simpl. lia.
Qed.

Lemma load_names_one_line (file : list str) (library' : Library.t) :
  load Library.__init__ file = Ok library' ->
  Forall (fun d => newlines (Design.name d) = 0%nat)
    (Library.designs library').
Proof.
  apply load_forall; [ | constructor ].
  intros l n a b c d p m dn Ht Hd.
  apply init_inv in Hd. destruct Hd as (_ & _ & _ & _ & _ & Hn & _).
  rewrite Hn. apply token_one_line.
  pose proof (split_tokens (strip l)) as HT.
  fold (row_tokens l) in HT. rewrite Ht in HT. apply (Forall_inv HT).
Qed.

(* ===================================================================== *)
(** * Counts that can be printed *)
(* ===================================================================== *)

(** A count that [int()] made of text can be written back. *)
Lemma init_of_text_printable (name : str) (lx ly ux uy : obj)
    (poly_count md5sum : str) (d : Design.t) :
  Design.__init__ name lx ly ux uy (Str poly_count) md5sum = Ok d ->
  printable d = true.
Proof.
  intros H. apply init_inv in H.
  destruct H as (_ & _ & _ & _ & Hp & _).
  unfold printable. apply Bool.negb_true_iff.
  apply (int_of_str_short poly_count). exact Hp.
Qed.

Lemma load_printable (file : list str) (library library' : Library.t) :
  all_printable (Library.designs library) ->
  load library file = Ok library' ->
  all_printable (Library.designs library').
Proof.
  apply load_forall.
  intros l n a b c d p m dn _ Hd.
  apply (init_of_text_printable _ _ _ _ _ _ _ _ Hd).
Qed.

Lemma sorted_designs_printable (self : Library.t) :
  all_printable (Library.designs self) ->
  all_printable (Library.sorted_designs self).
Proof.
  apply Permutation_Forall, Permutation_sym, sorted_designs_perm.
Qed.

(** The report of a library whose counts can all be printed is complete. *)
Lemma print_by_density_complete (self : Library.t) (stdout : str) :
  all_printable (Library.designs self) ->
  snd (Library.print_by_density self stdout)
  = (stdout ++ Library.header ++ [0x0A%N]
     ++ rows_text (Library.sorted_designs self), Ok tt).
Proof.
  intros H. rewrite print_by_density_text.
  destruct (printed_all _ (sorted_designs_printable self H)) as [-> ->].
  reflexivity.
Qed.

(** The run fails in the load, before anything is printed, or prints the
    whole report. *)
Lemma main_report (testdata stdout : str) :
  main testdata stdout
  = match load Library.__init__ (tl (readlines testdata)) with
    | Ok library =>
        (stdout ++ Library.header ++ [0x0A%N]
         ++ rows_text (Library.sorted_designs library), Ok tt)
    | Raise e => (stdout, Raise e)
    end.
Proof.
  unfold main. cbv zeta.
  destruct (load Library.__init__ (tl (readlines testdata)))
    as [library | e] eqn:El; [ | reflexivity ].
  apply print_by_density_complete.
  apply (load_printable _ Library.__init__ _ (Forall_nil _) El).
Qed.

Lemma printed_forall (Q : Design.t -> Prop) (rows : list Design.t) :
  Forall Q rows -> Forall Q (printed rows).
Proof.
  induction 1 as [ | d rows Hd H IH]; [ constructor | ].
  simpl. destruct (printable d); constructor; assumption.
Qed.

Lemma printed_length (rows : list Design.t) :
  (List.length (printed rows) <= List.length rows)%nat.
Proof.
  induction rows as [ | d rows IH]; [ reflexivity | ].
  simpl. destruct (printable d); simpl; lia.
Qed.

(** A run that raises raises in the load, and has printed nothing. *)
Lemma main_raises (testdata stdout out : str) (e : exn) :
  main testdata stdout = (out, Raise e) ->
  out = stdout
  /\ load Library.__init__ (tl (readlines testdata)) = Raise e.
Proof.
  rewrite main_report.
  destruct (load Library.__init__ (tl (readlines testdata)))
    as [library | e']; intros H; [ discriminate | ].
  injection H as <- <-. split; reflexivity.
Qed.

(* ===================================================================== *)
(** * Lines that are no rows *)
(* ===================================================================== *)

Lemma load_rows_only (file : list str) (library : Library.t) :
  load library file = load library (filter is_row file).
Proof.
  revert library. induction file as [ | l file IH]; intros library;
    [ reflexivity | ].
  simpl. destruct (is_row l) eqn:Er.
  - simpl. destruct (load_line library l); [ apply IH | reflexivity ].
  - rewrite load_line_skip; [ apply IH | ].
    unfold is_row, row_tokens in Er. apply Nat.eqb_neq in Er. exact Er.
Qed.

(* ===================================================================== *)
(** * The ends of the lines *)
(* ===================================================================== *)

Lemma lines_from_crlf (s cur : str) :
  Forall (fun c => c <> 0x0D%N) s ->
  lines_from cur false (crlf s) = lines_from cur false s.
Proof.
  revert cur. induction s as [ | c s IH]; intros cur H; [ reflexivity | ].
  apply Forall_cons_iff in H. destruct H as [Hc H].
  apply N.eqb_neq in Hc. simpl.
  destruct (N.eqb_spec c 0x0A) as [-> | Hn].
  - simpl. rewrite (IH [] H). reflexivity.
  - apply N.eqb_neq in Hn. simpl. rewrite Hn, Hc. apply IH, H.
Qed.

Lemma lines_from_cr (s cur : str) (skip_lf : bool) :
  Forall (fun c => c <> 0x0D%N) s ->
  lines_from cur skip_lf (cr s) = lines_from cur false s.
Proof.
  revert cur skip_lf. induction s as [ | c s IH]; intros cur skip_lf H;
    [ reflexivity | ].
  apply Forall_cons_iff in H. destruct H as [Hc H].
  apply N.eqb_neq in Hc. simpl.
  destruct (N.eqb_spec c 0x0A) as [-> | Hn].
  - simpl. rewrite (IH [] true H). reflexivity.
  - apply N.eqb_neq in Hn. rewrite Hn, Hc. apply IH, H.
Qed.

(* ===================================================================== *)
(** * The rows, from the first to the last *)
(* ===================================================================== *)

Lemma float_leb_refl (x : float) : is_nan x = false -> PrimFloat.leb x x = true.
Proof.
  intros H. apply (float_not_lt_ge x x H H).
  destruct (float_lt x x) eqn:E; [ | reflexivity ].
  apply (float_lt_asym x x) in E as E'. congruence.
Qed.

Lemma sorted_designs_no_nan (self : Library.t) :
  no_nan_density (Library.designs self) ->
  no_nan_density (Library.sorted_designs self).
Proof.
  apply Permutation_Forall, Permutation_sym, sorted_designs_perm.
Qed.

(* ===================================================================== *)
(** * Densities above zero *)
(* ===================================================================== *)

Lemma float_above_zero (a : float) :
  float_lt 0 a = true ->
  signed false (Prim2SF a) /\ (forall s, Prim2SF a <> S754_zero s)
  /\ float_eq_zero a = false.
Proof.
  unfold float_lt, float_eq_zero. rewrite ltb_spec, eqb_spec.
  change (Prim2SF 0) with (S754_zero false).
  change (Prim2SF zero) with (S754_zero false).
  destruct (Prim2SF a) as [s | s | | s m e]; try discriminate;
    destruct s; try discriminate; intros _;
    (split; [ constructor | split; [ congruence | reflexivity ] ]).
Qed.

Lemma float_of_int_not_negative (z : Z) (n : float) :
  (0 <= z)%Z -> float_of_int z = Ok n ->
  signed false (Prim2SF n) /\ forall s, Prim2SF n <> S754_infinity s.
Proof.
  intros Hz H. destruct (Z.eq_dec z 0) as [-> | Hne].
  - injection H as <-. change (Prim2SF zero) with (S754_zero false).
    split; [ constructor | discriminate ].
  - apply (float_of_int_positive z n); [ lia | exact H ].
Qed.

(* ===================================================================== *)
(** * The name in the row *)
(* ===================================================================== *)

Lemma row_of_name (d : Design.t) (r : str) :
  Library.row d = Ok r ->
  exists rest,
    r = (Design.name d ++ padding 10 (Design.name d) ++ [0x20%N])
        ++ lit "density=" ++ rest.
Proof.
  unfold Library.row, format_s, ljust.
  destruct (format_d 6 (Design.poly_count d)) as [polys | ];
    [ | discriminate ].
  cbn [bind]. intros H. injection H as <-. eexists.
  change (lit " density=") with ([0x20%N] ++ lit "density=").
  rewrite <- !app_assoc. reflexivity.
Qed.

Lemma split_row (d : Design.t) (r : str) :
  token (Design.name d) -> Library.row d = Ok r ->
  exists rest, split r = Design.name d :: rest.
Proof.
  intros Ht Hr. destruct (row_of_name d r Hr) as [rest E]. rewrite E.
  eexists. unfold split.
  apply (split_from_spaced_token
           (Design.name d, padding 10 (Design.name d) ++ [0x20%N])).
  split; [ exact Ht | ]. split.
  - unfold whitespace, padding. cbn [snd]. apply Forall_app. split.
    + apply Forall_forall. intros c Hc. apply repeat_spec in Hc.
      subst c. reflexivity.
    + repeat constructor.
  - cbn [snd]. intros E'. apply app_eq_nil in E'. destruct E'; discriminate.
Qed.

(* ===================================================================== *)
(** * Equal fields *)
(* ===================================================================== *)

Lemma SFcompare_Eq (X Y : spec_float) :
  SFcompare X Y = Some Eq ->
  X = Y \/ exists s s', X = S754_zero s /\ Y = S754_zero s'.
Proof.
  destruct X as [sx | sx | | sx mx ex], Y as [sy | sy | | sy my ey];
    simpl; try discriminate;
    try (destruct sx; discriminate); try (destruct sy; discriminate).
  - right. eauto.
  - destruct sx, sy; try discriminate; left; reflexivity.
  - destruct sx, sy; try discriminate;
      destruct (Z.compare_spec ex ey) as [-> | | ]; try discriminate;
      change (PosDef.Pos.compare_cont Eq mx my) with (mx ?= my)%positive;
      destruct (Pos.compare_spec mx my) as [-> | | ]; try discriminate;
      left; reflexivity.
Qed.

Lemma SFsub_zeros (X X' Y Y' : spec_float) :
  SF_same_or_zeros X X' -> SF_same_or_zeros Y Y' -> SF_same_or_zeros (SF64sub X Y) (SF64sub X' Y').
Proof.
  unfold SF_same_or_zeros, SF64sub.
  intros [-> | (s1 & s1' & -> & ->)] [-> | (s2 & s2' & -> & ->)].
  - left. reflexivity.
  - destruct X' as [sx | sx | | sx mx ex]; simpl.
    + right. destruct sx, s2, s2'; eauto.
    + left. reflexivity.
    + left. reflexivity.
    + left. reflexivity.
  - destruct Y' as [sy | sy | | sy my ey]; simpl.
    + right. destruct s1, s1', sy; eauto.
    + left. reflexivity.
    + left. reflexivity.
    + left. reflexivity.
  - right. simpl. destruct s1, s1', s2, s2'; eauto.
Qed.

Lemma SFmul_zeros (X X' Y Y' : spec_float) :
  SF_same_or_zeros X X' -> SF_same_or_zeros Y Y' -> SF_same_or_zeros (SF64mul X Y) (SF64mul X' Y').
Proof.
  unfold SF_same_or_zeros, SF64mul.
  intros [-> | (s1 & s1' & -> & ->)] [-> | (s2 & s2' & -> & ->)].
  - left. reflexivity.
  - destruct X' as [sx | sx | | sx mx ex]; simpl; eauto.
  - destruct Y' as [sy | sy | | sy my ey]; simpl; eauto.
  - right. simpl. eauto.
Qed.

Lemma SFdiv_zeros (X X' : spec_float) (s : bool) (m : positive) (e : Z) :
  SF_same_or_zeros X X' ->
  SF_same_or_zeros (SF64div X (S754_finite s m e)) (SF64div X' (S754_finite s m e)).
Proof.
  unfold SF_same_or_zeros, SF64div.
  intros [-> | (s1 & s1' & -> & ->)]; [ left; reflexivity | ].
  right. simpl. eauto.
Qed.

Lemma float_eq_zeros (x y : float) :
  float_eq x y = true -> SF_same_or_zeros (Prim2SF x) (Prim2SF y).
Proof.
  unfold float_eq. rewrite eqb_spec. unfold SFeqb.
  destruct (SFcompare (Prim2SF x) (Prim2SF y)) as [[ | | ] | ] eqn:E;
    try discriminate.
  intros _. apply SFcompare_Eq, E.
Qed.

(** Equal finite numbers have a zero for difference. *)
Lemma sub_equal (x y : float) :
  float_eq x y = true -> is_finite y = true ->
  exists s, Prim2SF (x - y) = S754_zero s.
Proof.
  intros E Hf. destruct (float_eq_zeros x y E) as [Ex | (s & s' & Ex & Ey)].
  - apply Prim2SF_inj in Ex. subst x. eexists. apply (sub_self y Hf).
  - rewrite sub_spec, Ex, Ey. destruct s, s'; eexists; reflexivity.
Qed.

Lemma same_or_zeros_of (x y : float) :
  SF_same_or_zeros (Prim2SF x) (Prim2SF y) -> same_or_zeros x y.
Proof.
  intros [E | (s & s' & E1 & E2)].
  - left. apply Prim2SF_inj, E.
  - right. split; eapply float_eq_zero_true; eassumption.
Qed.

(** The area of equal corners is the same, the sign of a zero apart. *)
Lemma area_of_equal_corners (lx ly ux uy lx' ly' ux' uy' : float) :
  float_eq lx lx' = true -> float_eq ly ly' = true ->
  float_eq ux ux' = true -> float_eq uy uy' = true ->
  same_or_zeros ((ux - lx) * (uy - ly) / 1000000)
    ((ux' - lx') * (uy' - ly') / 1000000).
Proof.
  intros H1 H2 H3 H4. apply same_or_zeros_of.
  rewrite !div_spec, !mul_spec, !sub_spec.
  destruct (Prim2SF 1000000) as [ | | | sm m e] eqn:E;
    vm_compute in E; try discriminate.
  apply SFdiv_zeros, SFmul_zeros; apply SFsub_zeros;
    apply float_eq_zeros; assumption.
Qed.

Lemma same_or_zeros_eq_zero (x y : float) :
  same_or_zeros x y -> float_eq_zero x = float_eq_zero y.
Proof. intros [-> | [-> ->]]; reflexivity. Qed.

Lemma same_or_zeros_not_zero (x y : float) :
  same_or_zeros x y -> float_eq_zero x = false -> x = y.
Proof. intros [E | [E _]] H; [ exact E | congruence ]. Qed.

(** The density is a function of the count and of the area, whatever the
    sign of a zero area. *)
Lemma compute_density_zeros (poly_count : Z) (a a' : float) :
  same_or_zeros a a' ->
  Design._compute_density poly_count a = Design._compute_density poly_count a'.
Proof.
  intros [-> | [E E']]; [ reflexivity | ].
  unfold Design._compute_density. rewrite E, E'. reflexivity.
Qed.

Lemma constructed_equal_fields (d1 d2 : Design.t) :
  constructed d1 -> constructed d2 -> equal_fields d1 d2 -> alike d1 d2.
Proof.
  intros (n1 & a1 & b1 & c1 & e1 & p1 & m1 & H1)
         (n2 & a2 & b2 & c2 & e2 & p2 & m2 & H2)
         (Fn & Fa & Fb & Fc & Fe & Fp & Fm).
  apply init_inv in H1, H2.
  destruct H1 as (_ & _ & _ & _ & _ & _ & _ & A1 & D1).
  destruct H2 as (_ & _ & _ & _ & _ & _ & _ & A2 & D2).
  rewrite compute_area_mm2_eq in A1, A2.
  injection A1 as A1. injection A2 as A2.
  pose proof (area_of_equal_corners _ _ _ _ _ _ _ _ Fa Fb Fc Fe) as S.
  rewrite A1, A2 in S.
  repeat split; try assumption.
  rewrite Fp, (compute_density_zeros _ _ _ S), D2 in D1.
  injection D1 as D1. symmetry. exact D1.
Qed.

(* ===================================================================== *)
(** * The sort of two lists alike *)
(* ===================================================================== *)

Section SortRelated.

Variables A B : Type.
Variable R : A -> B -> Prop.
Variable ltA : A -> A -> bool.
Variable ltB : B -> B -> bool.

(** The comparisons of items that correspond agree. *)
Hypothesis lt_related :
  forall x x' y y', R x x' -> R y y' -> ltA x y = ltB x' y'.

Lemma Forall2_nth_error (a : list A) (b : list B) (i : nat) :
  Forall2 R a b ->
  match nth_error a i, nth_error b i with
  | Some x, Some y => R x y
  | None, None => True
  | _, _ => False
  end.
Proof.
  intros H. revert i. induction H as [ | x y a b Hxy H IH]; intros i.
  - destruct i; exact I.
  - destruct i as [ | i]; [ exact Hxy | apply IH ].
Qed.

Lemma Forall2_firstn (a : list A) (b : list B) (i : nat) :
  Forall2 R a b -> Forall2 R (firstn i a) (firstn i b).
Proof.
  intros H. revert i. induction H as [ | x y a b Hxy H IH]; intros i.
  - destruct i; constructor.
  - destruct i as [ | i]; simpl; constructor; [ exact Hxy | apply IH ].
Qed.

Lemma Forall2_skipn (a : list A) (b : list B) (i : nat) :
  Forall2 R a b -> Forall2 R (skipn i a) (skipn i b).
Proof.
  intros H. revert i. induction H as [ | x y a b Hxy H IH]; intros i.
  - destruct i; constructor.
  - destruct i as [ | i]; simpl; [ constructor; assumption | apply IH ].
Qed.

Lemma Forall2_rev (a : list A) (b : list B) :
  Forall2 R a b -> Forall2 R (rev a) (rev b).
Proof.
  induction 1 as [ | x y a b Hxy H IH]; [ constructor | ].
  simpl. apply Forall2_app; [ exact IH | repeat constructor; exact Hxy ].
Qed.

Lemma bisect_related (fuel : nat) (x : A) (y : B) (a : list A) (b : list B)
    (l r : nat) :
  R x y -> Forall2 R a b ->
  bisect ltA fuel x a l r = bisect ltB fuel y b l r.
Proof.
  intros Hxy H. revert l r. induction fuel as [ | fuel IH]; intros l r;
    [ reflexivity | ].
  cbn [bisect]. destruct (l <? r)%nat; [ | reflexivity ].
  pose proof (Forall2_nth_error a b (l + (r - l) / 2) H) as N.
  destruct (nth_error a (l + (r - l) / 2)) as [u | ],
           (nth_error b (l + (r - l) / 2)) as [v | ];
    try contradiction; [ | reflexivity ].
  rewrite (lt_related x y u v Hxy N), !IH. reflexivity.
Qed.

Lemma insert_at_related (i : nat) (x : A) (y : B) (a : list A)
    (b : list B) :
  R x y -> Forall2 R a b -> Forall2 R (insert_at i x a) (insert_at i y b).
Proof.
  intros Hxy H. unfold insert_at. apply Forall2_app.
  - apply Forall2_firstn, H.
  - constructor; [ exact Hxy | apply Forall2_skipn, H ].
Qed.

Lemma binarysort_related (a : list A) (b : list B) (ta : list A)
    (tb : list B) :
  Forall2 R a b -> Forall2 R ta tb ->
  Forall2 R (binarysort ltA a ta) (binarysort ltB b tb).
Proof.
  intros H T. revert a b H. induction T as [ | x y ta tb Hxy T IH];
    intros a b H; [ exact H | ].
  cbn [binarysort]. apply IH.
  rewrite (Forall2_length H).
  rewrite (bisect_related _ x y a b _ _ Hxy H).
  apply insert_at_related; assumption.
Qed.

Lemma run_length_related (descending : bool) (x : A) (y : B) (a : list A)
    (b : list B) :
  R x y -> Forall2 R a b ->
  run_length ltA descending x a = run_length ltB descending y b.
Proof.
  intros Hxy H. revert x y Hxy. induction H as [ | u v a b Huv H IH];
    intros x y Hxy; [ reflexivity | ].
  cbn [run_length]. rewrite (lt_related u v x y Huv Hxy).
  destruct (Bool.eqb (ltB v y) descending); [ | reflexivity ].
  f_equal. apply IH, Huv.
Qed.

Lemma count_run_related (a : list A) (b : list B) :
  Forall2 R a b -> count_run ltA a = count_run ltB b.
Proof.
  intros H. destruct H as [ | x y a b Hxy H]; [ reflexivity | ].
  destruct H as [ | u v a b Huv H]; [ reflexivity | ].
  unfold count_run. rewrite (lt_related u v x y Huv Hxy).
  rewrite (run_length_related _ u v a b Huv H). reflexivity.
Qed.

Lemma list_sort_related (a : list A) (b : list B) :
  Forall2 R a b -> Forall2 R (list_sort ltA a) (list_sort ltB b).
Proof.
  intros H. unfold list_sort. rewrite (count_run_related a b H).
  destruct (count_run ltB b) as [n descending].
  apply binarysort_related; [ | apply Forall2_skipn, H ].
  destruct descending; [ apply Forall2_rev | ]; apply Forall2_firstn, H.
Qed.

End SortRelated.

(** Lists of designs with the same densities, one by one, are sorted the
    same way. *)
Lemma sorted_designs_related (R : Design.t -> Design.t -> Prop)
    (library1 library2 : Library.t) :
  (forall d1 d2, R d1 d2 -> Design.density d1 = Design.density d2) ->
  Forall2 R (Library.designs library1) (Library.designs library2) ->
  Forall2 R (Library.sorted_designs library1)
    (Library.sorted_designs library2).
Proof.
  intros HR H. unfold Library.sorted_designs, sorted.
  apply Forall2_rev, list_sort_related; [ | apply Forall2_rev, H ].
  intros x x' y y' Hx Hy. rewrite (HR _ _ Hx), (HR _ _ Hy). reflexivity.
Qed.

(* ===================================================================== *)
(** * The reports of designs alike *)
(* ===================================================================== *)

Lemma row_alike (d1 d2 : Design.t) :
  alike d1 d2 -> Design.area_mm2 d1 = Design.area_mm2 d2 ->
  Library.row d1 = Library.row d2.
Proof.
  intros (Hn & Hp & Hd & _) Ha. unfold Library.row.
  rewrite Hn, Hp, Hd, Ha. reflexivity.
Qed.

Lemma print_each_alike (rows1 rows2 : list Design.t) (stdout : str) :
  Forall2 (fun d1 d2 => alike d1 d2
                        /\ Design.area_mm2 d1 = Design.area_mm2 d2)
    rows1 rows2 ->
  Library.print_each rows1 stdout = Library.print_each rows2 stdout.
Proof.
  intros H. revert stdout. induction H as [ | d1 d2 r1 r2 [Hd Ha] H IH];
    intros stdout; [ reflexivity | ].
  cbn [Library.print_each]. rewrite (row_alike d1 d2 Hd Ha).
  destruct (Library.row d2); [ apply IH | reflexivity ].
Qed.

Lemma print_by_density_alike (library1 library2 : Library.t)
    (stdout : str) :
  Forall2 (fun d1 d2 => alike d1 d2
                        /\ Design.area_mm2 d1 = Design.area_mm2 d2)
    (Library.designs library1) (Library.designs library2) ->
  snd (Library.print_by_density library1 stdout)
  = snd (Library.print_by_density library2 stdout).
Proof.
  intros H. unfold Library.print_by_density. cbn [snd].
  apply print_each_alike, sorted_designs_related; [ | exact H ].
  intros d1 d2 [(_ & _ & Hd & _) _]. exact Hd.
Qed.

Lemma designs_alike (l1 l2 : list Design.t) :
  Forall constructed l1 -> Forall constructed l2 ->
  Forall2 equal_fields l1 l2 -> Forall2 alike l1 l2.
Proof.
  intros C1 C2 F. induction F as [ | d1 d2 l1 l2 Hd F IH];
    [ constructor | ].
  apply Forall_cons_iff in C1, C2.
  destruct C1 as [Cd1 C1], C2 as [Cd2 C2].
  constructor; [ apply constructed_equal_fields; assumption | ].
  apply IH; assumption.
Qed.

Lemma alike_same_areas (l1 l2 : list Design.t) :
  Forall2 alike l1 l2 -> same_areas l1 l2 ->
  Forall2 (fun d1 d2 => alike d1 d2
                        /\ Design.area_mm2 d1 = Design.area_mm2 d2) l1 l2.
Proof.
  intros H S. induction H as [ | d1 d2 l1 l2 Hd H IH]; [ constructor | ].
  inversion S; subst. constructor; [ split; assumption | ].
  apply IH. assumption.
Qed.

Lemma alike_no_zero_area (l1 l2 : list Design.t) :
  Forall2 alike l1 l2 -> no_zero_area l1 -> same_areas l1 l2.
Proof.
  intros H Z. induction H as [ | d1 d2 l1 l2 Hd H IH]; [ constructor | ].
  apply Forall_cons_iff in Z. destruct Z as [Zd Z].
  constructor; [ | apply IH, Z ].
  destruct Hd as (_ & _ & _ & Ha).
  apply (same_or_zeros_not_zero _ _ Ha Zd).
Qed.

Lemma same_fields_same_areas (l1 l2 : list Design.t) :
  Forall constructed l1 -> Forall constructed l2 ->
  Forall2 same_fields l1 l2 -> same_areas l1 l2.
Proof.
  intros C1 C2 F. induction F as [ | d1 d2 l1 l2 Hd F IH];
    [ constructor | ].
  apply Forall_cons_iff in C1, C2.
  destruct C1 as [Cd1 C1], C2 as [Cd2 C2].
  constructor; [ | apply IH; assumption ].
  rewrite (constructed_same_fields d1 d2 Cd1 Cd2 Hd). reflexivity.
Qed.

(** The design is the one that the constructor makes of these tokens. *)
Ltac constructed_of name lx ly ux uy poly_count md5sum :=
  exists name, (Str lx), (Str ly), (Str ux), (Str uy), (Str poly_count),
    md5sum;
  vm_compute; reflexivity.

(* ===================================================================== *)
(** * Properties of the program *)
(* ===================================================================== *)

(** C1 (as the code has it). For every library whose counts have at most
    4300 digits, [print_by_density] writes the header line
    "Designs sorted by density (high -> low):" and then one formatted line
    per stored design, and returns; the designs of these lines are a
    permutation of the library; an empty library yields the header line
    alone. For every library the rows to print are a permutation of the
    library, and the report is the header line and the rows above the first
    one whose count has more than 4300 digits: at that row ValueError ends
    it. When no design has a NaN density, each row is at least as dense as
    the next. *)
Theorem print_by_density_report (self : Library.t) (stdout : str) :
  let rows := Library.sorted_designs self in
  snd (Library.print_by_density self stdout)
  = (stdout ++ Library.header ++ [0x0A%N] ++ rows_text (printed rows),
     report_end rows)
  /\ Permutation rows (Library.designs self)
  /\ (all_printable (Library.designs self) ->
      snd (Library.print_by_density self stdout)
      = (stdout ++ Library.header ++ [0x0A%N] ++ rows_text rows, Ok tt))
  /\ (Library.designs self = [] ->
      snd (Library.print_by_density self stdout)
      = (stdout ++ Library.header ++ [0x0A%N], Ok tt))
  /\ (no_nan_density (Library.designs self) -> descending_by_density rows).
Proof.
  intros rows. split; [ apply print_by_density_text | ].
  split; [ apply sorted_designs_perm | ].
  split; [ apply print_by_density_complete | ].
  split; [ | apply sorted_designs_descending ].
  intros E. rewrite print_by_density_text.
  unfold Library.sorted_designs. rewrite E. reflexivity.
Qed.

Lemma print_by_density_report_witness :
  no_nan_density (Library.designs sample_library)
  /\ descending_by_density (Library.sorted_designs sample_library)
  /\ Library.sorted_designs sample_library = [design_a; design_b; design_c]
  /\ all_printable (Library.designs sample_library)
  /\ snd (Library.print_by_density sample_library [])
     = (Library.header ++ [0x0A%N]
        ++ rows_text [design_a; design_b; design_c], Ok tt).
Proof.
  assert (H : no_nan_density (Library.designs sample_library))
    by (repeat constructor).
  assert (P : all_printable (Library.designs sample_library))
    by (repeat constructor; vm_compute; reflexivity).
  split; [ exact H | ].
  split; [ exact (proj2 (proj2 (proj2 (proj2
             (print_by_density_report sample_library [])))) H) | ].
  split; [ vm_compute; reflexivity | ]. split; [ exact P | ].
  exact (proj1 (proj2 (proj2
           (print_by_density_report sample_library []))) P).
Defined.

(** C1 as stated fails: the file [nan_text] loads into a library whose
    report lists design_a (density 500) and then design_n (density NaN),
    and NaN is not at most 500. *)
Lemma nan_density_report_not_descending :
  load Library.__init__ (tl (readlines nan_text)) = Ok nan_library
  /\ ~ descending_by_density (Library.sorted_designs nan_library).
Proof.
  split; [ vm_compute; reflexivity | ].
  intros H. specialize (H 0%nat design_a design_n eq_refl eq_refl).
  vm_compute in H. discriminate.
Qed.

(** C2. A design that is constructed has the density
    [poly_count / area_mm2] when its area is not equal to zero, and the
    density 0.0 when it is (the test is [area_mm2 == 0] itself); the density
    is the one [_compute_density] returns at construction from the stored
    count and area; and no construction raises ZeroDivisionError. *)
Theorem density_formula (name : str) (lx ly ux uy poly_count : obj)
    (md5sum : str) :
  Design.__init__ name lx ly ux uy poly_count md5sum
  <> Raise ZeroDivisionError
  /\ forall d,
       Design.__init__ name lx ly ux uy poly_count md5sum = Ok d ->
       Design._compute_density (Design.poly_count d) (Design.area_mm2 d)
       = Ok (Design.density d)
       /\ (float_eq_zero (Design.area_mm2 d) = true ->
           Design.density d = 0%float)
       /\ (float_eq_zero (Design.area_mm2 d) = false ->
           int_truediv_float (Design.poly_count d) (Design.area_mm2 d)
           = Ok (Design.density d)
           /\ exists n,
                float_of_int (Design.poly_count d) = Ok n
                /\ Design.density d = (n / Design.area_mm2 d)%float).
Proof.
  split.
  - intros H. apply init_error in H. congruence.
  - intros d H. apply init_inv in H.
    destruct H as (_ & _ & _ & _ & _ & _ & _ & _ & Hd).
    split; [ exact Hd | ].
    unfold Design._compute_density in Hd. split; intros E; rewrite E in Hd.
    + congruence.
    + split; [ exact Hd | ].
      unfold int_truediv_float, float_truediv in Hd.
      destruct (float_of_int (Design.poly_count d)) as [n | ];
        [ | discriminate ].
      cbn [bind] in Hd. unfold float_eq_zero in E. rewrite E in Hd.
      exists n. split; [ reflexivity | congruence ].
Qed.

Lemma density_formula_witness :
  Design.density design_b = (200 / 1)%float
  /\ Design.density design_c = 0%float.
Proof.
  split.
  - destruct (proj2 (density_formula (lit "design_b") (Str (lit "0"))
                       (Str (lit "0")) (Str (lit "2000")) (Str (lit "500"))
                       (Str (lit "200")) (lit "def456")) design_b)
      as (_ & _ & H); [ vm_compute; reflexivity | ].
    destruct H as [_ (n & Hn & Hd)]; [ vm_compute; reflexivity | ].
    vm_compute in Hn. injection Hn as <-. exact Hd.
  - destruct (proj2 (density_formula (lit "design_c") (Str (lit "0"))
                       (Str (lit "0")) (Str (lit "0")) (Str (lit "0"))
                       (Str (lit "10")) (lit "ghi789")) design_c)
      as (_ & H & _); [ vm_compute; reflexivity | ].
    apply H. vm_compute. reflexivity.
Defined.

(** C3. A design that is constructed has the area
    [(ux - lx) * (uy - ly) / 1_000_000.0] of its stored corners, which are
    the arguments converted by [float]; it is the area [_compute_area_mm2]
    returns at construction. *)
Theorem area_formula (name : str) (lx ly ux uy poly_count : obj)
    (md5sum : str) (d : Design.t) :
  Design.__init__ name lx ly ux uy poly_count md5sum = Ok d ->
  Design.area_mm2 d
  = ((Design.ux d - Design.lx d) * (Design.uy d - Design.ly d)
     / 1000000)%float
  /\ Design._compute_area_mm2 (Design.lx d) (Design.ly d) (Design.ux d)
       (Design.uy d) = Ok (Design.area_mm2 d)
  /\ float_ lx = Ok (Design.lx d) /\ float_ ly = Ok (Design.ly d)
  /\ float_ ux = Ok (Design.ux d) /\ float_ uy = Ok (Design.uy d).
Proof.
  intros H. apply init_inv in H.
  destruct H as (H1 & H2 & H3 & H4 & _ & _ & _ & Ha & _).
  rewrite compute_area_mm2_eq in Ha.
  repeat split; try assumption; congruence.
Qed.

Lemma area_formula_witness :
  Design.area_mm2 design_b = ((2000 - 0) * (500 - 0) / 1000000)%float
  /\ Design.area_mm2 design_b = 1%float.
Proof.
  split; [ | reflexivity ].
  refine (proj1 (area_formula (lit "design_b") (Str (lit "0"))
                   (Str (lit "0")) (Str (lit "2000")) (Str (lit "500"))
                   (Str (lit "200")) (lit "def456") design_b _)).
  vm_compute. reflexivity.
Defined.

(** C4 (as the code has it). The loader discards the first line whatever
    it holds. A later line that does not split into exactly seven tokens
    adds no design and raises nothing. A later line of seven tokens, the
    second to the fifth of which [float] accepts and the sixth [int], adds
    at the end of the library the design of these fields in the order
    name, lx, ly, ux, uy, poly_count, md5sum, provided the area is zero or
    the polygon count converts to a float. *)
Theorem loader_skips_and_loads (library : Library.t) (l : str)
    (file : list str) :
  (forall testdata stdout,
     main testdata stdout =
     match load Library.__init__ (tl (readlines testdata)) with
     | Ok library => snd (Library.print_by_density library stdout)
     | Raise e => (stdout, Raise e)
     end)
  /\ (forall (first body stdout : str),
        Forall (fun c => c <> 0x0A%N /\ c <> 0x0D%N) first ->
        main (first ++ [0x0A%N] ++ body) stdout =
        match load Library.__init__ (readlines body) with
        | Ok library => snd (Library.print_by_density library stdout)
        | Raise e => (stdout, Raise e)
        end)
  /\ (List.length (split (strip l)) <> 7%nat ->
      load_line library l = Ok library
      /\ load library (l :: file) = load library file)
  /\ (forall name lx ly ux uy poly_count md5sum lx' ly' ux' uy' n density,
        split (strip l) = [name; lx; ly; ux; uy; poly_count; md5sum] ->
        float_of_str lx = Ok lx' -> float_of_str ly = Ok ly' ->
        float_of_str ux = Ok ux' -> float_of_str uy = Ok uy' ->
        int_of_str poly_count = Ok n ->
        Design._compute_density n ((ux' - lx') * (uy' - ly') / 1000000)
        = Ok density ->
        let design :=
          Design.mk name lx' ly' ux' uy' n md5sum
            ((ux' - lx') * (uy' - ly') / 1000000) density in
        load_line library l = Ok (Library.add_design library design)
        /\ load library (l :: file)
           = load (Library.add_design library design) file).
Proof.
  split; [ reflexivity | ].
  split.
  { intros first body stdout H.
    pose proof (readlines_first first body H) as R.
    unfold main. cbv zeta. simpl app in *. rewrite R. reflexivity. }
  split.
  { intros H. pose proof (load_line_skip library l H) as E.
    split; [ exact E | ]. simpl. rewrite E. reflexivity. }
  intros name lx ly ux uy poly_count md5sum lx' ly' ux' uy' n density
    Hs H1 H2 H3 H4 H5 Hd design.
  assert (E : load_line library l = Ok (Library.add_design library design)).
  { rewrite (load_line_row library l _ _ _ _ _ _ _ Hs).
    rewrite (init_converted name (Str lx) (Str ly) (Str ux) (Str uy)
               (Str poly_count) md5sum lx' ly' ux' uy' n H1 H2 H3 H4 H5).
    cbv zeta. rewrite Hd. reflexivity. }
  split; [ exact E | ]. simpl. rewrite E. reflexivity.
Qed.

Lemma loader_skips_and_loads_witness :
  load (Library.mk [design_a])
    [line "not a row"; line "design_b 0 0 2000 500 200 def456"]
  = load (Library.mk [design_a]) [line "design_b 0 0 2000 500 200 def456"]
  /\ load (Library.mk [design_a])
       [line "design_b 0 0 2000 500 200 def456"]
     = load (Library.add_design (Library.mk [design_a]) design_b) [].
Proof.
  split.
  - refine (proj2 (proj1 (proj2 (proj2
              (loader_skips_and_loads (Library.mk [design_a])
                 (line "not a row")
                 [line "design_b 0 0 2000 500 200 def456"]))) _)).
    vm_compute. lia.
  - refine (proj2 (proj2 (proj2 (proj2
              (loader_skips_and_loads (Library.mk [design_a])
                 (line "design_b 0 0 2000 500 200 def456") [])))
              (lit "design_b") (lit "0") (lit "0") (lit "2000") (lit "500")
              (lit "200") (lit "def456") 0%float 0%float 2000%float
              500%float 200%Z 200%float _ _ _ _ _ _ _));
      vm_compute; reflexivity.
Defined.

(** C4 as stated fails: the tokens of [overflow_line] are seven, [float]
    accepts the second to the fifth and [int] the sixth, and yet the line
    is not loaded as a design: OverflowError ends the load. *)
Lemma parseable_row_overflows :
  split (strip overflow_line)
  = [lit "design_o"; lit "0"; lit "0"; lit "1000"; lit "1000"; googol4;
     lit "abc123"]
  /\ float_of_str (lit "0") = Ok 0%float
  /\ float_of_str (lit "1000") = Ok 1000%float
  /\ int_of_str googol4 = Ok (10 ^ 400)%Z
  /\ load Library.__init__ [overflow_line] = Raise OverflowError.
Proof. repeat split; vm_compute; reflexivity. Qed.

(** C5. A construction one of whose coordinates or whose polygon count
    fails to convert raises: nothing handles the exception. When the
    arguments are text, as in the loader, it raises ValueError, and the
    loader does not handle it either: a line of seven tokens with such a
    token ends the load with that exception, whatever was loaded before
    and whatever follows, and [main] prints nothing. *)
Theorem parse_failure_aborts_load (name : str)
    (lx ly ux uy poly_count : obj) (md5sum : str) :
  raises (float_ lx) \/ raises (float_ ly) \/ raises (float_ ux)
  \/ raises (float_ uy) \/ raises (int_ poly_count) ->
  raises (Design.__init__ name lx ly ux uy poly_count md5sum)
  /\ forall tlx tly tux tuy tpc,
       lx = Str tlx -> ly = Str tly -> ux = Str tux -> uy = Str tuy ->
       poly_count = Str tpc ->
       Design.__init__ name lx ly ux uy poly_count md5sum = Raise ValueError
       /\ forall l,
            split (strip l) = [name; tlx; tly; tux; tuy; tpc; md5sum] ->
            (forall library file,
               load library (l :: file) = Raise ValueError)
            /\ (forall before after library library',
                  load library before = Ok library' ->
                  load library (before ++ l :: after) = Raise ValueError)
            /\ (forall testdata stdout before after library',
                  tl (readlines testdata) = before ++ l :: after ->
                  load Library.__init__ before = Ok library' ->
                  main testdata stdout = (stdout, Raise ValueError)).
Proof.
  intros H. split; [ apply init_conversion_raises, H | ].
  intros tlx tly tux tuy tpc -> -> -> -> ->.
  pose proof (init_of_tokens_parse_failure name tlx tly tux tuy tpc
                md5sum H) as Hi.
  split; [ exact Hi | ]. intros l Hs.
  assert (Hl : forall library file,
             load library (l :: file) = Raise ValueError).
  { intros library file. simpl.
    rewrite (load_line_row library l _ _ _ _ _ _ _ Hs), Hi. reflexivity. }
  split; [ exact Hl | ]. split.
  - intros before after library library' Hb.
    rewrite load_app, Hb. cbn [bind]. apply Hl.
  - intros testdata stdout before after library' Ht Hb.
    unfold main. cbv zeta. rewrite Ht, load_app, Hb. cbn [bind].
    rewrite Hl. reflexivity.
Qed.

Lemma parse_failure_aborts_load_witness :
  main bad_count_text [] = ([], Raise ValueError).
Proof.
  refine (proj2 (proj2 (proj2 (proj2
            (parse_failure_aborts_load (lit "design_x") (Str (lit "0"))
               (Str (lit "0")) (Str (lit "1000")) (Str (lit "1000"))
               (Str (lit "many")) (lit "def456") _)
            (lit "0") (lit "0") (lit "1000") (lit "1000") (lit "many")
            eq_refl eq_refl eq_refl eq_refl eq_refl)
            (line "design_x 0 0 1000 1000 many def456") _))
            bad_count_text []
            [line "design_a 0 0 1000 1000 500 abc123"]
            [line "design_b 0 0 2000 500 200 def456"]
            (Library.mk [design_a]) _ _).
  - right; right; right; right. exists ValueError. vm_compute. reflexivity.
  - vm_compute. reflexivity.
  - vm_compute. reflexivity.
  - vm_compute. reflexivity.
Defined.

(** C6 (as the code has it). No order of the corners is required: whatever
    the corners, the area is computed without error as
    [(ux - lx) * (uy - ly) / 1_000_000.0], and a construction whose
    conversions succeed returns a design of that area when the area is zero
    or the polygon count converts to a float; it can only raise
    OverflowError. When the area is negative and the polygon count
    positive, the density is the count divided by the area, and is not
    above zero. *)
Theorem corners_unconstrained (name : str) (lx ly ux uy poly_count : obj)
    (md5sum : str) (lx' ly' ux' uy' : float) (n : Z) :
  float_ lx = Ok lx' -> float_ ly = Ok ly' ->
  float_ ux = Ok ux' -> float_ uy = Ok uy' -> int_ poly_count = Ok n ->
  let area := ((ux' - lx') * (uy' - ly') / 1000000)%float in
  Design._compute_area_mm2 lx' ly' ux' uy' = Ok area
  /\ (forall e,
        Design.__init__ name lx ly ux uy poly_count md5sum = Raise e ->
        e = OverflowError /\ float_eq_zero area = false
        /\ float_of_int n = Raise OverflowError)
  /\ (float_eq_zero area = true ->
      Design.__init__ name lx ly ux uy poly_count md5sum
      = Ok (Design.mk name lx' ly' ux' uy' n md5sum area 0))
  /\ (forall q, float_eq_zero area = false -> float_of_int n = Ok q ->
      Design.__init__ name lx ly ux uy poly_count md5sum
      = Ok (Design.mk name lx' ly' ux' uy' n md5sum area (q / area)))
  /\ (forall q, float_lt area 0 = true -> (0 < n)%Z ->
      float_of_int n = Ok q ->
      Design.__init__ name lx ly ux uy poly_count md5sum
      = Ok (Design.mk name lx' ly' ux' uy' n md5sum area (q / area))
      /\ PrimFloat.leb (q / area) 0 = true).
Proof.
  intros H1 H2 H3 H4 H5 area.
  pose proof (init_converted name lx ly ux uy poly_count md5sum
                lx' ly' ux' uy' n H1 H2 H3 H4 H5) as Hi.
  cbv zeta in Hi. fold area in Hi.
  assert (Hz : float_eq_zero area = true ->
               Design.__init__ name lx ly ux uy poly_count md5sum
               = Ok (Design.mk name lx' ly' ux' uy' n md5sum area 0)).
  { intros E. rewrite Hi. unfold Design._compute_density. rewrite E.
    reflexivity. }
  assert (Hq : forall q, float_eq_zero area = false ->
               float_of_int n = Ok q ->
               Design.__init__ name lx ly ux uy poly_count md5sum
               = Ok (Design.mk name lx' ly' ux' uy' n md5sum area
                       (q / area))).
  { intros q E Eq. rewrite Hi.
    unfold Design._compute_density, int_truediv_float, float_truediv.
    rewrite E, Eq. cbn [bind]. unfold float_eq_zero in E. rewrite E.
    reflexivity. }
  split; [ apply compute_area_mm2_eq | ].
  split; [ | split; [ exact Hz | split; [ exact Hq | ] ] ].
  - intros e He.
    destruct (float_eq_zero area) eqn:E;
      [ rewrite (Hz eq_refl) in He; discriminate | ].
    destruct (float_of_int n) as [q | e'] eqn:Eq;
      [ rewrite (Hq q eq_refl eq_refl) in He; discriminate | ].
    pose proof (float_of_int_error _ _ Eq) as ->.
    rewrite Hi in He.
    unfold Design._compute_density, int_truediv_float in He.
    rewrite E, Eq in He. cbn [bind] in He. injection He as <-.
    repeat split.
  - intros q Ha Hn Eq. split.
    + apply Hq; [ apply float_lt_zero_not_eq, Ha | exact Eq ].
    + destruct (float_of_int_positive _ _ Hn Eq) as [Hs Ninf].
      apply div_by_negative; assumption.
Qed.

Lemma corners_unconstrained_witness :
  Design.__init__ (lit "design_l") (Str (lit "0")) (Str (lit "0"))
    (Str (lit "-1e200")) (Str (lit "1e200")) (Str (lit "5")) (lit "abc123")
  = Ok long_inverted
  /\ PrimFloat.leb (Design.density long_inverted) 0 = true.
Proof.
  refine ((fun H => _)
            (proj2 (proj2 (proj2 (proj2
               (corners_unconstrained (lit "design_l") (Str (lit "0"))
                  (Str (lit "0")) (Str (lit "-1e200")) (Str (lit "1e200"))
                  (Str (lit "5")) (lit "abc123") 0 0
                  (-0x1.4e718d7d7625ap+664) 0x1.4e718d7d7625ap+664 5
                  _ _ _ _ _)))) 5%float _ _ _));
    try (vm_compute; reflexivity).
  destruct H as [H1 H2]. split.
  - rewrite H1. vm_compute. reflexivity.
  - exact H2.
Defined.

(** C6 as stated fails in three ways. With both sides inverted the area is
    positive, neither zero nor negative. With an area of minus infinity
    and a positive count the density is the negative zero, which is not
    below zero. With a negative area and a count of 401 digits the
    construction raises OverflowError. *)
Lemma inverted_rectangle_counterexample :
  (Design.__init__ (lit "design_i") (Str (lit "1000")) (Str (lit "1000"))
     (Str (lit "0")) (Str (lit "0")) (Str (lit "5")) (lit "abc123")
   = Ok both_inverted
   /\ float_lt (Design.ux both_inverted) (Design.lx both_inverted) = true
   /\ float_lt (Design.uy both_inverted) (Design.ly both_inverted) = true
   /\ ~ (float_eq_zero (Design.area_mm2 both_inverted) = true
         \/ float_lt (Design.area_mm2 both_inverted) 0 = true))
  /\ (Design.__init__ (lit "design_l") (Str (lit "0")) (Str (lit "0"))
        (Str (lit "-1e200")) (Str (lit "1e200")) (Str (lit "5"))
        (lit "abc123")
      = Ok long_inverted
      /\ float_lt (Design.area_mm2 long_inverted) 0 = true
      /\ (0 < Design.poly_count long_inverted)%Z
      /\ ~ float_lt (Design.density long_inverted) 0 = true)
  /\ (Design.__init__ (lit "design_o") (Str (lit "0")) (Str (lit "0"))
        (Str (lit "-1000")) (Str (lit "1000")) (Str googol4) (lit "abc123")
      = Raise OverflowError).
Proof.
  repeat split; try (vm_compute; reflexivity).
  - intros [H | H]; vm_compute in H; discriminate.
  - vm_compute. discriminate.
Qed.

(** C7 (as the code has it). The polygon count of a design that is
    constructed is the integer that [int] returns for the argument, of
    either sign; for a design that the loader constructs, the integer that
    the sixth token of the line denotes. *)
Theorem poly_count_is_int_of_argument (name : str)
    (lx ly ux uy poly_count : obj) (md5sum : str) (d : Design.t) :
  Design.__init__ name lx ly ux uy poly_count md5sum = Ok d ->
  int_ poly_count = Ok (Design.poly_count d)
  /\ forall token, poly_count = Str token ->
       int_of_str token = Ok (Design.poly_count d).
Proof.
  intros H. apply init_inv in H.
  destruct H as (_ & _ & _ & _ & Hp & _).
  split; [ exact Hp | ]. intros token ->. exact Hp.
Qed.

Lemma poly_count_is_int_of_argument_witness :
  int_of_str (lit "-5") = Ok (Design.poly_count design_m).
Proof.
  refine (proj2 (poly_count_is_int_of_argument (lit "design_m")
                   (Str (lit "0")) (Str (lit "0")) (Str (lit "1000"))
                   (Str (lit "1000")) (Str (lit "-5")) (lit "abc123")
                   design_m _) (lit "-5") eq_refl).
  vm_compute. reflexivity.
Defined.

(** C7 as stated fails: the loader constructs from [negative_text] a
    design whose polygon count is -5. *)
Lemma negative_poly_count_loaded :
  load Library.__init__ (tl (readlines negative_text))
  = Ok (Library.mk [design_m])
  /\ ~ (0 <= Design.poly_count design_m)%Z.
Proof.
  split; [ vm_compute; reflexivity | ].
  simpl. lia.
Qed.

(** C8 (as the code has it). For every library none of whose designs has a
    NaN density, the rows are in descending order of density and the sort
    is stable: the designs of any one density are in the order in which
    they were added. The report renders these rows in this order: all of
    them when the counts have at most 4300 digits, and otherwise those
    above the first one whose count has more, where ValueError ends it. *)
Theorem report_order_stable (self : Library.t) (stdout : str) :
  no_nan_density (Library.designs self) ->
  let rows := Library.sorted_designs self in
  same_order_among_equals (Library.designs self) rows
  /\ descending_by_density rows
  /\ snd (Library.print_by_density self stdout)
     = (stdout ++ Library.header ++ [0x0A%N] ++ rows_text (printed rows),
        report_end rows)
  /\ (all_printable (Library.designs self) ->
      snd (Library.print_by_density self stdout)
      = (stdout ++ Library.header ++ [0x0A%N] ++ rows_text rows, Ok tt)).
Proof.
  intros HP rows. split; [ apply sorted_designs_spec, HP | ].
  split; [ apply sorted_designs_descending, HP | ].
  split; [ apply print_by_density_text | apply print_by_density_complete ].
Qed.

Lemma report_order_stable_witness :
  load Library.__init__ (tl (readlines ties_text)) = Ok ties_library
  /\ map Design.name (Library.sorted_designs ties_library)
     = [lit "design_a"; lit "design_d"; lit "design_b"; lit "design_c";
        lit "design_e"]
  /\ same_order_among_equals (Library.designs ties_library)
       (Library.sorted_designs ties_library).
Proof.
  split; [ vm_compute; reflexivity | ].
  split; [ vm_compute; reflexivity | ].
  assert (H : no_nan_density (Library.designs ties_library))
    by (repeat constructor).
  exact (proj1 (report_order_stable ties_library [] H)).
Defined.

(** C8 as stated fails: in the report of [unstable_text] the design
    "second" comes before the design "first", of the same density 2, which
    the file has first. *)
Lemma nan_density_breaks_stability :
  load Library.__init__ (tl (readlines unstable_text)) = Ok unstable_library
  /\ map Design.name (of_density 2 (Library.designs unstable_library))
     = [lit "first"; lit "second"]
  /\ map Design.name (of_density 2 (Library.sorted_designs unstable_library))
     = [lit "second"; lit "first"]
  /\ ~ same_order_among_equals (Library.designs unstable_library)
         (Library.sorted_designs unstable_library).
Proof.
  split; [ vm_compute; reflexivity | ].
  split; [ vm_compute; reflexivity | ].
  split; [ vm_compute; reflexivity | ].
  intros H. specialize (H 2%float). vm_compute in H. discriminate.
Qed.

(** C9. [print_by_density] leaves the library as it was: the same designs
    in the same order. [add_design] puts the design at the end, after the
    designs that were there, which keep their order; and so the loader
    only ever extends the library at the end. *)
Theorem collection_frame (self : Library.t) (design : Design.t)
    (stdout : str) (file : list str) :
  fst (Library.print_by_density self stdout) = self
  /\ Library.designs (Library.add_design self design)
     = Library.designs self ++ [design]
  /\ firstn (List.length (Library.designs self))
       (Library.designs (Library.add_design self design))
     = Library.designs self
  /\ (forall library, load self file = Ok library ->
      firstn (List.length (Library.designs self)) (Library.designs library)
      = Library.designs self).
Proof.
  assert (F : forall l added : list Design.t,
             firstn (List.length l) (l ++ added) = l).
  { intros l added. rewrite firstn_app, Nat.sub_diag, firstn_all. simpl.
    apply app_nil_r. }
  split; [ reflexivity | ]. split; [ reflexivity | ].
  split; [ apply F | ].
  intros library H. apply load_extends in H. destruct H as [added ->].
  apply F.
Qed.

Lemma collection_frame_witness :
  load (Library.mk [design_a]) (tl (tl (readlines sample_text)))
  = Ok sample_library
  /\ firstn 1 (Library.designs sample_library) = [design_a].
Proof.
  assert (H : load (Library.mk [design_a]) (tl (tl (readlines sample_text)))
              = Ok sample_library) by (vm_compute; reflexivity).
  split; [ exact H | ].
  exact (proj2 (proj2 (proj2
           (collection_frame (Library.mk [design_a]) design_a []
              (tl (tl (readlines sample_text))))))
           sample_library H).
Defined.

(** C10 (as the code has it). The report is a function of the stored
    designs. For two libraries of constructed designs whose fields are
    equal, one by one (name, coordinates, polygon count and checksum), the
    rows are in the same order and show the same name, density and count,
    and the same area, the sign of a zero area apart. The two reports are
    the same text, character for character, and end the same way, when the
    areas are the same binary64 values: so it is when no area is zero, and
    when the coordinates are the same binary64 values (0.0 and -0.0 are
    equal, and are not the same value). So it is, then, for two files that
    the loader reads into such libraries. *)
Theorem report_deterministic (library1 library2 : Library.t) (stdout : str) :
  Forall constructed (Library.designs library1) ->
  Forall constructed (Library.designs library2) ->
  Forall2 equal_fields (Library.designs library1)
    (Library.designs library2) ->
  Forall2 alike (Library.sorted_designs library1)
    (Library.sorted_designs library2)
  /\ (no_zero_area (Library.designs library1)
      \/ same_areas (Library.designs library1) (Library.designs library2)
      \/ Forall2 same_fields (Library.designs library1)
           (Library.designs library2) ->
      snd (Library.print_by_density library1 stdout)
      = snd (Library.print_by_density library2 stdout)
      /\ forall testdata1 testdata2,
           load Library.__init__ (tl (readlines testdata1)) = Ok library1 ->
           load Library.__init__ (tl (readlines testdata2)) = Ok library2 ->
           main testdata1 stdout = main testdata2 stdout).
Proof.
  intros C1 C2 F.
  pose proof (designs_alike _ _ C1 C2 F) as A.
  split.
  - apply sorted_designs_related; [ | exact A ].
    intros d1 d2 (_ & _ & Hd & _). exact Hd.
  - intros H.
    assert (S : same_areas (Library.designs library1)
                  (Library.designs library2)).
    { destruct H as [Z | [S | I]].
      - apply (alike_no_zero_area _ _ A Z).
      - exact S.
      - apply (same_fields_same_areas _ _ C1 C2 I). }
    assert (E : snd (Library.print_by_density library1 stdout)
                = snd (Library.print_by_density library2 stdout))
      by (apply print_by_density_alike, alike_same_areas; assumption).
    split; [ exact E | ].
    intros testdata1 testdata2 H1 H2. unfold main. cbv zeta.
    rewrite H1, H2. exact E.
Qed.

Lemma report_deterministic_witness :
  main sample_text_again [] = main sample_text []
  /\ main signed_corner_text [] = main plain_corner_text [].
Proof.
  split.
  - assert (C : Forall constructed (Library.designs sample_library)).
    { repeat constructor.
      - constructed_of (lit "design_a") (lit "0") (lit "0")
          (lit "1000") (lit "1000") (lit "500") (lit "abc123").
      - constructed_of (lit "design_b") (lit "0") (lit "0")
          (lit "2000") (lit "500") (lit "200") (lit "def456").
      - constructed_of (lit "design_c") (lit "0") (lit "0")
          (lit "0") (lit "0") (lit "10") (lit "ghi789"). }
    refine (proj2 (proj2 (report_deterministic sample_library sample_library
                            [] C C _) _) sample_text_again sample_text _ _).
    + repeat constructor.
    + right. left. repeat constructor.
    + vm_compute. reflexivity.
    + vm_compute. reflexivity.
  - refine (proj2 (proj2 (report_deterministic signed_corner_library
                            plain_corner_library [] _ _ _) _)
              signed_corner_text _ _ _).
    + repeat constructor.
      * constructed_of (lit "design_a") (lit "-0") (lit "-0.0")
          (lit "1000") (lit "1000") (lit "500") (lit "abc123").
      * constructed_of (lit "design_b") (lit "0") (lit "-0")
          (lit "2000") (lit "500") (lit "200") (lit "def456").
    + repeat constructor.
      * constructed_of (lit "design_a") (lit "0") (lit "0")
          (lit "1000") (lit "1000") (lit "500") (lit "abc123").
      * constructed_of (lit "design_b") (lit "0") (lit "0")
          (lit "2000") (lit "500") (lit "200") (lit "def456").
    + repeat constructor.
    + left. repeat constructor.
    + vm_compute. reflexivity.
    + vm_compute. reflexivity.
Defined.

(** C10 as stated fails: the fields of the rows of [minus_zero_text] and of
    [plus_zero_text] are equal, the first coordinate being 0 in the one
    and -0 in the other, and the reports differ: the area is printed as
    -0.00 in the one and as 0.00 in the other. *)
Lemma zero_area_sign_printed :
  load Library.__init__ (tl (readlines minus_zero_text))
  = Ok (Library.mk [design_minus_zero])
  /\ load Library.__init__ (tl (readlines plus_zero_text))
     = Ok (Library.mk [design_plus_zero])
  /\ Forall2 equal_fields [design_minus_zero] [design_plus_zero]
  /\ main minus_zero_text [] <> main plus_zero_text [].
Proof.
  split; [ vm_compute; reflexivity | ].
  split; [ vm_compute; reflexivity | ].
  split; [ repeat constructor | ].
  intros H. vm_compute in H. discriminate.
Qed.

(* ===================================================================== *)
(** * Further properties of the program *)
(* ===================================================================== *)

(** X1. Whitespace at either end of a line, its newline included, does not
    matter to the loader: the line is read as the line without it, so that
    [strip] before [split] changes nothing. *)
Theorem line_ends_ignored (library : Library.t) (l ws1 ws2 : str) :
  whitespace ws1 -> whitespace ws2 ->
  split (strip l) = split l
  /\ row_tokens (ws1 ++ l ++ ws2) = row_tokens l
  /\ load_line library (ws1 ++ l ++ ws2) = load_line library l.
Proof.
  intros H1 H2.
  assert (E : row_tokens (ws1 ++ l ++ ws2) = row_tokens l)
    by (rewrite !row_tokens_split; apply split_ends; assumption).
  split; [ apply split_strip | ]. split; [ exact E | ].
  apply load_line_tokens, E.
Qed.

Lemma line_ends_ignored_witness :
  load_line Library.__init__
    (lit "  " ++ lit "design_a 0 0 1000 1000 500 abc123"
     ++ [0x09; 0x0D; 0x0A]%N)
  = load_line Library.__init__ (lit "design_a 0 0 1000 1000 500 abc123").
Proof.
  refine (proj2 (proj2 (line_ends_ignored Library.__init__
                          (lit "design_a 0 0 1000 1000 500 abc123")
                          (lit "  ") [0x09; 0x0D; 0x0A]%N _ _)));
    repeat constructor.
Defined.

(** X2. A line made of tokens, each followed by whitespace, is read as
    these tokens, whatever the whitespace: it is skipped unless the tokens
    are seven, and seven tokens are handed to the constructor in the order
    name, lx, ly, ux, uy, poly_count, md5sum. *)
Theorem spaced_line_loaded (library : Library.t) (ws0 : str)
    (parts : list (str * str)) :
  whitespace ws0 -> Forall spaced_token parts ->
  row_tokens (ws0 ++ spaced parts) = map fst parts
  /\ (List.length parts <> 7%nat ->
      load_line library (ws0 ++ spaced parts) = Ok library)
  /\ (forall name lx ly ux uy poly_count md5sum,
        map fst parts = [name; lx; ly; ux; uy; poly_count; md5sum] ->
        load_line library (ws0 ++ spaced parts) =
        (design <- Design.__init__ name (Str lx) (Str ly) (Str ux) (Str uy)
                     (Str poly_count) md5sum ;;
         Ok (Library.add_design library design))%py).
Proof.
  intros H0 Hp.
  assert (E : row_tokens (ws0 ++ spaced parts) = map fst parts).
  { rewrite row_tokens_split. unfold split.
    rewrite (split_from_whitespace ws0 _ H0).
    rewrite <- (app_nil_r (spaced parts)).
    change (split_from [] (spaced parts ++ []))
      with (split (spaced parts ++ [])).
    rewrite (split_spaced parts [] Hp). apply app_nil_r. }
  split; [ exact E | ]. split.
  - intros Hn. apply load_line_skip. fold (row_tokens (ws0 ++ spaced parts)).
    rewrite E, length_map. exact Hn.
  - intros name lx ly ux uy poly_count md5sum Hm.
    apply load_line_row. fold (row_tokens (ws0 ++ spaced parts)).
    rewrite E. exact Hm.
Qed.

Lemma spaced_line_loaded_witness :
  load_line Library.__init__
    (lit " "
     ++ spaced [(lit "design_b", lit "  "); (lit "0", [0x09%N]);
                (lit "0", [0xA0%N]); (lit "2000", lit " ");
                (lit "500", [0x3000%N]); (lit "200", lit "   ");
                (lit "def456", [0x0A%N])])
  = Ok (Library.mk [design_b]).
Proof.
  assert (H0 : whitespace (lit " ")) by (repeat constructor).
  assert (Hp : Forall spaced_token
                 [(lit "design_b", lit "  "); (lit "0", [0x09%N]);
                  (lit "0", [0xA0%N]); (lit "2000", lit " ");
                  (lit "500", [0x3000%N]); (lit "200", lit "   ");
                  (lit "def456", [0x0A%N])])
    by (repeat constructor; discriminate).
  rewrite (proj2 (proj2 (spaced_line_loaded Library.__init__ _ _ H0 Hp))
             (lit "design_b") (lit "0") (lit "0") (lit "2000") (lit "500")
             (lit "200") (lit "def456") eq_refl).
  vm_compute. reflexivity.
Defined.

(** X3. The loader stores the rows in the order of the file: when the load
    succeeds, the names and checksums of the library are those it had,
    followed by the first and the seventh token of every line of seven
    tokens, in order, and the library has grown by the number of such
    lines. *)
Theorem loaded_in_file_order (file : list str) (library library' : Library.t) :
  load library file = Ok library' ->
  map labels (Library.designs library')
  = map labels (Library.designs library)
    ++ map row_labels (filter is_row file)
  /\ List.length (Library.designs library')
     = (List.length (Library.designs library)
        + List.length (filter is_row file))%nat.
Proof.
  intros H.
  assert (E : map labels (Library.designs library')
              = map labels (Library.designs library)
                ++ map row_labels (filter is_row file)).
  { revert library H. induction file as [ | l file IH]; intros library H.
    - simpl in H. injection H as <-. simpl. symmetry. apply app_nil_r.
    - simpl in H. destruct (load_line library l) as [library1 | ] eqn:El;
        [ | discriminate ].
      cbn [bind] in H. apply IH in H. rewrite H.
      destruct (load_line_cases _ _ _ El)
        as [[Hr ->] | (Hr & n & a & b & c & d & p & m & dn & Ht & Hd & ->)];
        simpl filter; rewrite Hr; [ reflexivity | ].
      apply init_inv in Hd.
      destruct Hd as (_ & _ & _ & _ & _ & Hn & Hm & _).
      simpl. rewrite map_app, <- app_assoc. simpl.
      unfold labels at 2, row_labels. rewrite Ht, Hn, Hm. reflexivity. }
  split; [ exact E | ].
  apply (f_equal (@List.length (str * str))) in E.
  rewrite length_app, !length_map in E. exact E.
Qed.

Lemma loaded_in_file_order_witness :
  map labels (Library.designs sample_library)
  = map row_labels (filter is_row (tl (readlines sample_text_again)))
  /\ List.length (Library.designs sample_library) = 3%nat.
Proof.
  assert (H : load Library.__init__ (tl (readlines sample_text_again))
              = Ok sample_library) by (vm_compute; reflexivity).
  destruct (loaded_in_file_order _ _ _ H) as [H1 H2].
  split; [ exact H1 | reflexivity ].
Defined.

(** X4. Every name and every checksum that the loader stores is a token of
    the file: not empty, and without whitespace. *)
Theorem loaded_labels_are_tokens (file : list str)
    (library library' : Library.t) :
  Forall (fun d => token (Design.name d) /\ token (Design.md5sum d))
    (Library.designs library) ->
  load library file = Ok library' ->
  Forall (fun d => token (Design.name d) /\ token (Design.md5sum d))
    (Library.designs library').
Proof.
  revert library. induction file as [ | l file IH]; intros library HF H.
  - simpl in H. injection H as <-. exact HF.
  - simpl in H. destruct (load_line library l) as [library1 | ] eqn:El;
      [ | discriminate ].
    cbn [bind] in H. apply (IH library1); [ | exact H ].
    destruct (load_line_cases _ _ _ El)
      as [[Hr ->] | (Hr & n & a & b & c & d & p & m & dn & Ht & Hd & ->)];
      [ exact HF | ].
    simpl. rewrite Forall_app. split; [ exact HF | ].
    constructor; [ | constructor ].
    apply init_inv in Hd.
    destruct Hd as (_ & _ & _ & _ & _ & Hn & Hm & _).
    pose proof (split_tokens (strip l)) as HT.
    fold (row_tokens l) in HT. rewrite Ht in HT.
    rewrite Hn, Hm. split.
    + apply (Forall_inv HT).
    + do 6 (apply Forall_inv_tail in HT). apply (Forall_inv HT).
Qed.

Lemma loaded_labels_are_tokens_witness :
  Forall (fun d => token (Design.name d) /\ token (Design.md5sum d))
    (Library.designs sample_library).
Proof.
  refine (loaded_labels_are_tokens (tl (readlines sample_text))
            Library.__init__ sample_library _ _).
  - constructor.
  - vm_compute. reflexivity.
Defined.

(** X5. The file being valid UTF-8, so that all its lines are handed
    over: a load that fails fails at a line of seven tokens, with the
    exception of the constructor on these tokens, the lines before it
    having been loaded: ValueError when one of the five numbers does not
    parse, OverflowError otherwise. The handling of the lines raises
    nothing else, and a run that raises raises so, in the load, before
    anything is printed. *)
Theorem load_failure (file : list str) (library : Library.t) (e : exn) :
  (load library file = Raise e ->
   exists before l after library1 name lx ly ux uy poly_count md5sum,
     file = before ++ l :: after
     /\ load library before = Ok library1
     /\ row_tokens l = [name; lx; ly; ux; uy; poly_count; md5sum]
     /\ Design.__init__ name (Str lx) (Str ly) (Str ux) (Str uy)
          (Str poly_count) md5sum = Raise e
     /\ ((e = ValueError
          /\ (raises (float_of_str lx) \/ raises (float_of_str ly)
              \/ raises (float_of_str ux) \/ raises (float_of_str uy)
              \/ raises (int_of_str poly_count)))
         \/ e = OverflowError))
  /\ (forall testdata stdout out,
        main testdata stdout = (out, Raise e) ->
        out = stdout
        /\ load Library.__init__ (tl (readlines testdata)) = Raise e).
Proof.
  split; [ | intros testdata stdout out; apply main_raises ].
  revert library. induction file as [ | l file IH]; intros library H.
  - discriminate.
  - simpl in H. destruct (load_line library l) as [library1 | e1] eqn:El.
    + cbn [bind] in H.
      destruct (IH library1 H)
        as (before & l' & after & lib & n & a & b & c & d & p & m
            & Hf & Hb & Ht & Hd & He).
      exists (l :: before), l', after, lib, n, a, b, c, d, p, m.
      repeat split; try assumption.
      * rewrite Hf. reflexivity.
      * simpl. rewrite El. exact Hb.
    + cbn [bind] in H. injection H as <-.
      destruct (load_line_raises _ _ _ El)
        as (_ & n & a & b & c & d & p & m & Ht & Hd).
      exists [], l, file, library, n, a, b, c, d, p, m.
      repeat split; try assumption; try reflexivity.
      apply (init_of_tokens_error _ _ _ _ _ _ _ _ Hd).
Qed.

Lemma load_failure_witness :
  exists before l after library1 name lx ly ux uy poly_count md5sum,
    tl (readlines bad_count_text) = before ++ l :: after
    /\ load Library.__init__ before = Ok library1
    /\ row_tokens l = [name; lx; ly; ux; uy; poly_count; md5sum]
    /\ Design.__init__ name (Str lx) (Str ly) (Str ux) (Str uy)
         (Str poly_count) md5sum = Raise ValueError
    /\ ((ValueError = ValueError
         /\ (raises (float_of_str lx) \/ raises (float_of_str ly)
             \/ raises (float_of_str ux) \/ raises (float_of_str uy)
             \/ raises (int_of_str poly_count)))
        \/ ValueError = OverflowError).
Proof.
  apply (proj1 (load_failure (tl (readlines bad_count_text))
                  Library.__init__ ValueError)).
  vm_compute. reflexivity.
Defined.

(** X6. The density of a constructed design is NaN exactly when its area
    is NaN: dividing the polygon count by an area that is a number, or by
    an infinite one, never yields NaN. *)
Theorem density_nan_iff_area_nan (d : Design.t) :
  constructed d ->
  is_nan (Design.density d) = is_nan (Design.area_mm2 d).
Proof.
  intros (name & lx & ly & ux & uy & pc & md5 & H).
  apply init_inv in H.
  destruct H as (_ & _ & _ & _ & _ & _ & _ & _ & Hd).
  unfold Design._compute_density in Hd.
  destruct (float_eq_zero (Design.area_mm2 d)) eqn:Ez.
  - injection Hd as <-. unfold float_eq_zero in Ez.
    apply float_eqb_not_nan in Ez. destruct Ez as [Ea _].
    rewrite Ea. reflexivity.
  - unfold int_truediv_float, float_truediv in Hd.
    destruct (float_of_int (Design.poly_count d)) as [q | ] eqn:Eq;
      [ | discriminate ].
    cbn [bind] in Hd. unfold float_eq_zero in Ez. rewrite Ez in Hd.
    injection Hd as <-.
    destruct (float_of_int_signed _ _ Eq) as (s & Hs & Ni).
    apply (div_is_nan q (Design.area_mm2 d) s Hs Ni Ez).
Qed.

Lemma density_nan_iff_area_nan_witness :
  is_nan (Design.density design_n) = is_nan (Design.area_mm2 design_n)
  /\ is_nan (Design.density long_inverted) = false.
Proof.
  split.
  - apply density_nan_iff_area_nan.
    exists (lit "design_n"), (Str (lit "nan")), (Str (lit "0")),
      (Str (lit "1000")), (Str (lit "1000")), (Str (lit "200")),
      (lit "def456").
    vm_compute. reflexivity.
  - rewrite density_nan_iff_area_nan; [ reflexivity | ].
    exists (lit "design_l"), (Str (lit "0")), (Str (lit "0")),
      (Str (lit "-1e200")), (Str (lit "1e200")), (Str (lit "5")),
      (lit "abc123").
    vm_compute. reflexivity.
Defined.

(** X7. A rectangle without width, or without height (two corners equal in
    one coordinate), and with finite sides, has an area equal to zero; its
    construction succeeds with the density 0.0 whatever the polygon count,
    even one too large for a float. *)
Theorem degenerate_rectangle (name : str) (lx ly ux uy poly_count : obj)
    (md5sum : str) (lx' ly' ux' uy' : float) (n : Z) :
  float_ lx = Ok lx' -> float_ ly = Ok ly' ->
  float_ ux = Ok ux' -> float_ uy = Ok uy' -> int_ poly_count = Ok n ->
  (float_eq ux' lx' = true /\ is_finite lx' = true
   /\ is_finite (uy' - ly') = true)
  \/ (float_eq uy' ly' = true /\ is_finite ly' = true
      /\ is_finite (ux' - lx') = true) ->
  let area := ((ux' - lx') * (uy' - ly') / 1000000)%float in
  float_eq_zero area = true
  /\ Design.__init__ name lx ly ux uy poly_count md5sum
     = Ok (Design.mk name lx' ly' ux' uy' n md5sum area 0).
Proof.
  intros H1 H2 H3 H4 H5 Hdeg area.
  assert (Ez : float_eq_zero area = true).
  { destruct Hdeg as [(He & Hf & Hw) | (He & Hf & Hw)];
      destruct (sub_equal _ _ He Hf) as [s0 E0].
    - destruct (mul_zero_l _ _ _ E0 Hw) as [s1 E1].
      destruct (div_zero_million _ _ E1) as [s2 E2].
      apply (float_eq_zero_true _ _ E2).
    - destruct (mul_zero_r _ _ _ E0 Hw) as [s1 E1].
      destruct (div_zero_million _ _ E1) as [s2 E2].
      apply (float_eq_zero_true _ _ E2). }
  split; [ exact Ez | ].
  rewrite (init_converted name lx ly ux uy poly_count md5sum
             lx' ly' ux' uy' n H1 H2 H3 H4 H5).
  cbv zeta. fold area. unfold Design._compute_density. rewrite Ez.
  reflexivity.
Qed.

Lemma degenerate_rectangle_witness :
  Design.__init__ (lit "design_z") (Str (lit "250.5")) (Str (lit "0"))
    (Str (lit "250.5")) (Str (lit "1000")) (Str googol4) (lit "abc123")
  = Ok (Design.mk (lit "design_z") 250.5 0 250.5 1000 (10 ^ 400)
          (lit "abc123") 0 0).
Proof.
  refine (proj2 (degenerate_rectangle (lit "design_z") (Str (lit "250.5"))
                   (Str (lit "0")) (Str (lit "250.5")) (Str (lit "1000"))
                   (Str googol4) (lit "abc123") 250.5 0 250.5 1000
                   (10 ^ 400) _ _ _ _ _ _));
    try (vm_compute; reflexivity).
  left. repeat split; vm_compute; reflexivity.
Defined.

(** X8. The rows of a library none of whose designs is less dense than the
    next one are its designs in their own order, NaN densities or not; the
    rows of a library every design of which is less dense than the next one
    are its designs in the reverse order. The report renders these rows:
    all of them when the counts have at most 4300 digits, and otherwise
    those above the first one whose count has more, where ValueError ends
    it. *)
Theorem ordered_library_report (self : Library.t) (stdout : str) :
  (no_ascent (Library.designs self) ->
   let rows := Library.designs self in
   Library.sorted_designs self = rows
   /\ snd (Library.print_by_density self stdout)
      = (stdout ++ Library.header ++ [0x0A%N] ++ rows_text (printed rows),
         report_end rows)
   /\ (all_printable rows ->
       snd (Library.print_by_density self stdout)
       = (stdout ++ Library.header ++ [0x0A%N] ++ rows_text rows, Ok tt)))
  /\ (ascent (Library.designs self) ->
      let rows := rev (Library.designs self) in
      Library.sorted_designs self = rows
      /\ snd (Library.print_by_density self stdout)
         = (stdout ++ Library.header ++ [0x0A%N] ++ rows_text (printed rows),
            report_end rows)
      /\ (all_printable (Library.designs self) ->
          snd (Library.print_by_density self stdout)
          = (stdout ++ Library.header ++ [0x0A%N] ++ rows_text rows,
             Ok tt))).
Proof.
  assert (T : forall rows,
             Library.sorted_designs self = rows ->
             snd (Library.print_by_density self stdout)
             = (stdout ++ Library.header ++ [0x0A%N]
                ++ rows_text (printed rows), report_end rows)
             /\ (all_printable (Library.designs self) ->
                 snd (Library.print_by_density self stdout)
                 = (stdout ++ Library.header ++ [0x0A%N] ++ rows_text rows,
                    Ok tt))).
  { intros rows E. split.
    - rewrite print_by_density_text, E. reflexivity.
    - intros P. rewrite (print_by_density_complete self stdout P), E.
      reflexivity. }
  split; intros H rows.
  - pose proof (sorted_designs_ordered self H) as E.
    split; [ exact E | apply T, E ].
  - assert (E : Library.sorted_designs self = rows).
    { unfold Library.sorted_designs, sorted. apply Sorted_rev in H.
      rewrite (list_sort_reversed Design.t _ _ H), rev_involutive.
      reflexivity. }
    split; [ exact E | apply T, E ].
Qed.

Lemma ordered_library_report_witness :
  snd (Library.print_by_density nan_library [])
  = (Library.header ++ [0x0A%N] ++ rows_text [design_a; design_n], Ok tt)
  /\ Library.sorted_designs (Library.mk [design_c; design_b; design_a])
     = [design_a; design_b; design_c].
Proof.
  split.
  - refine (proj2 (proj2 (proj1 (ordered_library_report nan_library []) _))
              _).
    + repeat constructor.
    + repeat constructor; vm_compute; reflexivity.
  - refine (proj1 (proj2 (ordered_library_report
                            (Library.mk [design_c; design_b; design_a]) [])
                     _)).
    repeat constructor.
Defined.

(** X9. When no name holds a newline, the report is the header line and
    one line per row printed, the fields of a row never holding one: a line
    per design when the counts have at most 4300 digits, and then the call
    returns. It is so for every library that the loader fills: a run that
    returns has printed the header line and one line per line of seven
    tokens of the file after the first. *)
Theorem report_line_count (self : Library.t) (testdata stdout out : str) :
  (Forall (fun d => newlines (Design.name d) = 0%nat) (Library.designs self) ->
   newlines (fst (snd (Library.print_by_density self stdout)))
   = (newlines stdout + 1
      + List.length (printed (Library.sorted_designs self)))%nat
   /\ (all_printable (Library.designs self) ->
       newlines (fst (snd (Library.print_by_density self stdout)))
       = (newlines stdout + 1 + List.length (Library.designs self))%nat
       /\ snd (snd (Library.print_by_density self stdout)) = Ok tt))
  /\ (main testdata stdout = (out, Ok tt) ->
      newlines out
      = (newlines stdout + 1
         + List.length (filter is_row (tl (readlines testdata))))%nat).
Proof.
  assert (L : forall rows,
             Forall (fun d => newlines (Design.name d) = 0%nat) rows ->
             newlines (stdout ++ Library.header ++ [0x0A%N]
                       ++ rows_text rows)
             = (newlines stdout + 1 + List.length rows)%nat).
  { intros rows H. rewrite !newlines_app, (newlines_rows_text rows H).
    rewrite (newlines_checked Library.header) by reflexivity.
    change (newlines [0x0A%N]) with 1%nat. lia. }
  split.
  - intros H. pose proof (sorted_designs_perm self) as P.
    assert (HS : Forall (fun d => newlines (Design.name d) = 0%nat)
                   (Library.sorted_designs self))
      by apply (Permutation_Forall (Permutation_sym P) H).
    split.
    + rewrite print_by_density_text. cbn [fst].
      apply L, printed_forall, HS.
    + intros HP. rewrite (print_by_density_complete self stdout HP).
      cbn [fst snd]. split; [ | reflexivity ].
      rewrite (L _ HS), (Permutation_length P). reflexivity.
  - rewrite main_report.
    destruct (load Library.__init__ (tl (readlines testdata)))
      as [library | ] eqn:El; [ | discriminate ].
    intros H. apply (f_equal fst) in H. cbn [fst] in H. rewrite <- H.
    pose proof (sorted_designs_perm library) as P.
    rewrite L.
    + rewrite (Permutation_length P), (load_length _ _ _ El). reflexivity.
    + apply (Permutation_Forall (Permutation_sym P)).
      apply (load_names_one_line _ _ El).
Qed.

Lemma report_line_count_witness :
  newlines (fst (snd (Library.print_by_density long_count_library
                        (lit "before"))))
  = 2%nat
  /\ newlines (fst (snd (Library.print_by_density nan_library
                           (lit "before"))))
     = 3%nat
  /\ exists out,
       main sample_text_again (lit "before") = (out, Ok tt)
       /\ newlines out = 4%nat.
Proof.
  split; [ | split ].
  - refine (proj1 (proj1 (report_line_count long_count_library []
                            (lit "before") []) _)).
    repeat constructor.
  - refine (proj1 (proj2 (proj1 (report_line_count nan_library []
                                   (lit "before") []) _) _)).
    + repeat constructor.
    + repeat constructor; vm_compute; reflexivity.
  - eexists. split; [ vm_compute; reflexivity | ].
    refine (proj2 (report_line_count Library.__init__ sample_text_again
                     (lit "before") _) _).
    vm_compute. reflexivity.
Defined.

(** X10. Only the lines of seven tokens count: the load of a file is the
    load of these lines alone, in its result and in its exception. A file
    without such a line after the first, an empty file among them, yields
    the header line and nothing more. *)
Theorem lines_of_other_lengths_ignored (library : Library.t)
    (file : list str) (testdata stdout : str) :
  load library file = load library (filter is_row file)
  /\ (filter is_row (tl (readlines testdata)) = [] ->
      main testdata stdout
      = (stdout ++ Library.header ++ [0x0A%N], Ok tt)).
Proof.
  split; [ apply load_rows_only | ].
  intros H. unfold main. cbv zeta. rewrite load_rows_only, H.
  cbn [load]. rewrite print_by_density_text. reflexivity.
Qed.

Lemma lines_of_other_lengths_ignored_witness :
  main (header_line ++ line "" ++ line "design_a 0 0 1000 1000 500"
        ++ line "# design_b 0 0 2000 500 200 def456") (lit "before")
  = (lit "before" ++ Library.header ++ [0x0A%N], Ok tt)
  /\ main [] [] = (Library.header ++ [0x0A%N], Ok tt).
Proof.
  split.
  - refine (proj2 (lines_of_other_lengths_ignored Library.__init__ [] _ _)
              _).
    vm_compute. reflexivity.
  - refine (proj2 (lines_of_other_lengths_ignored Library.__init__ [] [] [])
              _).
    reflexivity.
Defined.

(** X11. The file is read with universal newlines: a text whose lines end
    in a carriage return and a newline, or in a carriage return alone, is
    read as the lines of the text with newlines, and yields the same
    report or the same exception. *)
Theorem line_ends_universal (testdata stdout : str) :
  Forall (fun c => c <> 0x0D%N) testdata ->
  readlines (crlf testdata) = readlines testdata
  /\ readlines (cr testdata) = readlines testdata
  /\ main (crlf testdata) stdout = main testdata stdout
  /\ main (cr testdata) stdout = main testdata stdout.
Proof.
  intros H.
  assert (E1 : readlines (crlf testdata) = readlines testdata)
    by apply (lines_from_crlf testdata [] H).
  assert (E2 : readlines (cr testdata) = readlines testdata)
    by apply (lines_from_cr testdata [] false H).
  unfold main. rewrite E1, E2. repeat split.
Qed.

Lemma line_ends_universal_witness :
  main (crlf sample_text) [] = main sample_text []
  /\ main (cr bad_count_text) [] = main bad_count_text [].
Proof.
  split.
  - refine (proj1 (proj2 (proj2 (line_ends_universal sample_text [] _)))).
    apply Forall_forall. intros c Hc.
    assert (F : forallb (fun c => negb (c =? 0x0D)%N) sample_text = true)
      by reflexivity.
    rewrite forallb_forall in F. specialize (F c Hc).
    apply Bool.negb_true_iff, N.eqb_neq in F. exact F.
  - refine (proj2 (proj2 (proj2 (line_ends_universal bad_count_text [] _)))).
    apply Forall_forall. intros c Hc.
    assert (F : forallb (fun c => negb (c =? 0x0D)%N) bad_count_text = true)
      by reflexivity.
    rewrite forallb_forall in F. specialize (F c Hc).
    apply Bool.negb_true_iff, N.eqb_neq in F. exact F.
Defined.

(** X12. Without NaN densities every row is at least as dense as all the
    rows below it, and the first row is a densest design of the library. *)
Theorem rows_descend_throughout (self : Library.t) :
  no_nan_density (Library.designs self) ->
  let rows := Library.sorted_designs self in
  (forall i j d d',
     (i <= j)%nat -> nth_error rows i = Some d -> nth_error rows j = Some d' ->
     PrimFloat.leb (Design.density d') (Design.density d) = true)
  /\ (forall top d,
        nth_error rows 0 = Some top -> In d (Library.designs self) ->
        PrimFloat.leb (Design.density d) (Design.density top) = true).
Proof.
  intros HP rows.
  pose proof (sorted_designs_no_nan self HP) as HQ. fold rows in HQ.
  unfold no_nan_density in HQ. rewrite Forall_forall in HQ.
  destruct (sorted_designs_spec self HP) as [Hs _]. fold rows in Hs.
  assert (A : forall i j d d',
             (i <= j)%nat ->
             nth_error rows i = Some d -> nth_error rows j = Some d' ->
             PrimFloat.leb (Design.density d') (Design.density d) = true).
  { intros i j d d' Hij Hi Hj.
    assert (Nd : is_nan (Design.density d) = false)
      by (apply HQ; eapply nth_error_In, Hi).
    destruct (Nat.eq_dec i j) as [-> | Hne].
    - rewrite Hi in Hj. injection Hj as <-. apply float_leb_refl, Nd.
    - apply float_not_lt_ge; [ exact Nd | | ].
      + apply HQ. eapply nth_error_In, Hj.
      + apply (StronglySorted_nth _ _ _ i j d d' Hs); [ lia | assumption.. ]. }
  split; [ exact A | ].
  intros top d Ht Hd.
  apply (Permutation_in _ (Permutation_sym (sorted_designs_perm self))) in Hd.
  apply In_nth_error in Hd. destruct Hd as [j Hj].
  apply (A 0%nat j top d); [ lia | assumption.. ].
Qed.

Lemma rows_descend_throughout_witness :
  Forall (fun d => PrimFloat.leb (Design.density d) 500 = true)
    (Library.designs ties_library).
Proof.
  assert (H : no_nan_density (Library.designs ties_library))
    by (repeat constructor).
  apply Forall_forall. intros d Hd.
  apply (proj2 (rows_descend_throughout ties_library H) design_a d);
    [ vm_compute; reflexivity | exact Hd ].
Defined.

(** X13. Without NaN densities the rows of a report are in their final
    order: a library of the designs in the order of the rows is reported
    in that order, with the same text. *)
Theorem report_of_rows_unchanged (self : Library.t) (stdout : str) :
  no_nan_density (Library.designs self) ->
  let again := Library.mk (Library.sorted_designs self) in
  Library.sorted_designs again = Library.sorted_designs self
  /\ snd (Library.print_by_density again stdout)
     = snd (Library.print_by_density self stdout).
Proof.
  intros HP again.
  assert (E : Library.sorted_designs again = Library.sorted_designs self).
  { apply sorted_designs_ordered. unfold no_ascent, again.
    cbn [Library.designs].
    destruct (sorted_designs_spec self HP) as [Hs _].
    apply StronglySorted_Sorted. exact Hs. }
  split; [ exact E | ]. rewrite !print_by_density_text, E. reflexivity.
Qed.

Lemma report_of_rows_unchanged_witness :
  Library.sorted_designs (Library.mk (Library.sorted_designs ties_library))
  = Library.sorted_designs ties_library.
Proof.
  refine (proj1 (report_of_rows_unchanged ties_library [] _)).
  repeat constructor.
Defined.

(** X14. A design of an area above zero and of a polygon count that is not
    negative has a density that is not negative, and not NaN. *)
Theorem density_not_negative (d : Design.t) :
  constructed d ->
  float_lt 0 (Design.area_mm2 d) = true -> (0 <= Design.poly_count d)%Z ->
  PrimFloat.leb 0 (Design.density d) = true
  /\ is_nan (Design.density d) = false.
Proof.
  intros (name & lx & ly & ux & uy & pc & md5 & H) Ha Hn.
  apply init_inv in H.
  destruct H as (_ & _ & _ & _ & _ & _ & _ & _ & Hd).
  destruct (float_above_zero _ Ha) as (Hs & Nz & Ez).
  unfold Design._compute_density in Hd. rewrite Ez in Hd.
  unfold int_truediv_float, float_truediv in Hd.
  destruct (float_of_int (Design.poly_count d)) as [q | ] eqn:Eq;
    [ | discriminate ].
  cbn [bind] in Hd. unfold float_eq_zero in Ez. rewrite Ez in Hd.
  injection Hd as <-.
  destruct (float_of_int_not_negative _ _ Hn Eq) as [Hq Ninf].
  pose proof (SFdiv_signed _ _ _ _ Hq Ninf Hs Nz) as S. simpl xorb in S.
  split.
  - rewrite leb_spec, div_spec. change (Prim2SF 0) with (S754_zero false).
    unfold SF64div. destruct S; reflexivity.
  - apply is_nan_false. rewrite div_spec. unfold SF64div.
    destruct S; discriminate.
Qed.

Lemma density_not_negative_witness :
  PrimFloat.leb 0 (Design.density both_inverted) = true
  /\ is_nan (Design.density both_inverted) = false.
Proof.
  apply density_not_negative.
  - exists (lit "design_i"), (Str (lit "1000")), (Str (lit "1000")),
      (Str (lit "0")), (Str (lit "0")), (Str (lit "5")), (lit "abc123").
    vm_compute. reflexivity.
  - reflexivity.
  - vm_compute. discriminate.
Defined.

(** X15. The name of a design can be read back from its row: when the name
    is a token, as the names that the loader stores are, it is the first
    token of the row, however long it is. The rows of the designs that the
    loader stores can all be printed. *)
Theorem name_heads_row (file : list str) (library : Library.t)
    (d : Design.t) :
  (token (Design.name d) ->
   forall r, Library.row d = Ok r ->
   exists rest, split r = Design.name d :: rest)
  /\ (load Library.__init__ file = Ok library ->
      Forall (fun d => Library.row d = Ok (row_text d)
                       /\ hd_error (split (row_text d))
                          = Some (Design.name d))
        (Library.designs library)).
Proof.
  split; [ intros T r Hr; apply (split_row d r T Hr) | ].
  apply load_forall; [ | constructor ].
  intros l n a b c p pc m dn Ht Hd.
  pose proof (row_printable dn (init_of_text_printable _ _ _ _ _ _ _ _ Hd))
    as Hr.
  split; [ exact Hr | ].
  apply init_inv in Hd. destruct Hd as (_ & _ & _ & _ & _ & Hn & _).
  assert (T : token (Design.name dn)).
  { rewrite Hn. pose proof (split_tokens (strip l)) as HT.
    fold (row_tokens l) in HT. rewrite Ht in HT. apply (Forall_inv HT). }
  destruct (split_row dn _ T Hr) as [rest E]. rewrite E. reflexivity.
Qed.

Lemma name_heads_row_witness :
  Forall (fun d => Library.row d = Ok (row_text d)
                   /\ hd_error (split (row_text d)) = Some (Design.name d))
    (Library.designs unstable_library).
Proof.
  refine (proj2 (name_heads_row (tl (readlines unstable_text))
                   unstable_library design_a) _).
  vm_compute. reflexivity.
Defined.
